(** * urscript-tools: the tester CLI driver (src/cli/tester-cli.ts)

    A shallow embedding of the configuration pipeline of the
    [urscript-tester] command line driver: the default configuration, the
    test pattern resolver [getTestPattern], and [main] itself (argument
    handling, file loading, JSON parsing, the lodash [merge] of the user
    configuration onto the defaults, the derivation of the bundler
    configuration, the concatenating [mergeWith] of the global source sets
    and the assembly of the runner and execution configurations).

    JavaScript objects are mutable and shared: [main] copies the default
    configuration with a spread (one level deep) and aliases
    [config.sources] into the bundler configuration.  Objects therefore
    live in a heap of cells addressed by location, and every operation of
    the driver threads that heap.

    Conventions.  Numbers are integers, strings are sequences of bytes
    (the driver only looks for ["/"] and ["."] in them), paths are POSIX
    paths, and the driver runs as strict code, as a compiled module does.
    The file system, [JSON.parse] and the execution service are a
    parameter of [main], the record [world]. *)

From Stdlib Require Import ZArith String Ascii List Bool Lia.
From stdpp Require Import base tactics option list strings.

Import ListNotations.
Set Warnings "-register-all".
Set Default Proof Using "Type".
Local Open Scope string_scope.
Local Open Scope Z_scope.
Local Open Scope nat_scope.
Local Open Scope list_scope.

(** ** JavaScript values and the heap *)

(** Locations are natural numbers. *)
Abbreviation loc := nat (only parsing).

(** A JavaScript value.  Numbers are the integers the configuration uses
    (ports, timeouts); objects and arrays are references into the heap. *)
Inductive value : Type :=
| VUndef
| VNull
| VBool (b : bool)
| VNum (n : Z)
| VStr (s : string)
| VRef (l : loc).

(** A heap cell: a plain object (its own properties, in insertion order),
    an array, or an instance of one of the collaborator classes, which the
    driver only constructs and passes on. *)
Inductive obj : Type :=
| OObj (props : list (string * value))
| OArr (elems : list value)
| OInst (cls : string) (args : list value).

(** The heap is the list of its cells; allocation appends a cell, so a
    location is never reused. *)
Abbreviation heap := (list obj) (only parsing).

Definition alloc (o : obj) (h : heap) : value * heap :=
  (VRef (length h), h ++ [o]).

(** What a JavaScript exception carries, as far as the driver can tell
    them apart. *)
Inductive error : Type :=
| TypeError
| SyntaxError (text : string)
| ReadError (file : value)
| ExecutionError.

(** The result of running a piece of the driver.  [Throw] is a JavaScript
    exception.  [Unmodelled] marks the few corners of JavaScript and lodash
    left outside this development (named properties on arrays, array-like
    plain objects, string sources), and [OutOfFuel] a recursion bound that
    was too small; no statement below is about either. *)
Inductive result (A : Type) : Type :=
| Ok (a : A)
| Throw (e : error)
| Unmodelled (what : string)
| OutOfFuel.

Arguments Ok {A} a.
Arguments Throw {A} e.
Arguments Unmodelled {A} what.
Arguments OutOfFuel {A}.

#[global] Instance result_ret : MRet result := fun A a => Ok a.
#[global] Instance result_bind : MBind result := fun A B f m =>
  match m with
  | Ok a => f a
  | Throw e => Throw e
  | Unmodelled w => Unmodelled w
  | OutOfFuel => OutOfFuel
  end.

(** *** Primitive operations *)

Definition is_undef (v : value) : bool :=
  match v with VUndef => true | _ => false end.

(** JavaScript truthiness ([if (v)], [!v], [c ? a : b]). *)
Definition truthy (v : value) : bool :=
  match v with
  | VUndef | VNull => false
  | VBool b => b
  | VNum n => negb (n =? 0)%Z
  | VStr s => negb (s =? "")%string
  | VRef _ => true
  end.

(** SameValueZero, lodash's [eq]: references are compared by identity. *)
Definition eq (a b : value) : bool :=
  match a, b with
  | VUndef, VUndef | VNull, VNull => true
  | VBool x, VBool y => Bool.eqb x y
  | VNum x, VNum y => (x =? y)%Z
  | VStr x, VStr y => (x =? y)%string
  | VRef x, VRef y => (x =? y)%nat
  | _, _ => false
  end.

Fixpoint lookup_prop (k : string) (ps : list (string * value)) : option value :=
  match ps with
  | [] => None
  | (k', v) :: ps' => if (k =? k')%string then Some v else lookup_prop k ps'
  end.

(** [o[k] = v] on a property list: an existing property keeps its place,
    a new one is added last. *)
Fixpoint set_prop (k : string) (v : value) (ps : list (string * value))
  : list (string * value) :=
  match ps with
  | [] => [(k, v)]
  | (k', v') :: ps' =>
      if (k =? k')%string then (k, v) :: ps' else (k', v') :: set_prop k v ps'
  end.

(** [a[i] = v] on an array: in range it overwrites, out of range the array
    grows and the gap reads as [undefined]. *)
Definition arr_set (i : nat) (v : value) (xs : list value) : list value :=
  if (i <? length xs)%nat then <[i := v]> xs
  else xs ++ replicate (i - length xs) VUndef ++ [v].

(** Property read [v.k] for the names the driver reads (none of which is
    an array index, [length] or a string method): reading through
    [undefined] or [null] throws, every other primitive reads as
    [undefined]. *)
Definition get (h : heap) (v : value) (k : string) : result value :=
  match v with
  | VUndef | VNull => Throw TypeError
  | VRef l =>
      match h !! l with
      | Some (OObj ps) => Ok (default VUndef (lookup_prop k ps))
      | Some _ => Ok VUndef
      | None => Unmodelled "dangling reference"
      end
  | _ => Ok VUndef
  end.

(** Property write [v.k = x].  The driver is a module, hence strict code:
    writing through a primitive throws. *)
Definition put (h : heap) (v : value) (k : string) (x : value) : result heap :=
  match v with
  | VRef l =>
      match h !! l with
      | Some (OObj ps) => Ok (<[l := OObj (set_prop k x ps)]> h)
      | Some (OArr _) => Unmodelled "named property on an array"
      | Some (OInst _ _) => Unmodelled "property of a class instance"
      | None => Unmodelled "dangling reference"
      end
  | _ => Throw TypeError
  end.

(** ** JSON *)

(** The tree [JSON.parse] builds.  An object's members are listed in
    property order, one entry per key; numbers are the integers. *)
Inductive json : Type :=
| JNull
| JBool (b : bool)
| JNum (n : Z)
| JStr (s : string)
| JArr (items : list json)
| JObj (members : list (string * json)).

(** Building the value of a parsed text (or of an object literal) in the
    heap: every array and object gets a fresh cell, children first. *)
Fixpoint alloc_json (j : json) (h : heap) : value * heap :=
  match j with
  | JNull => (VNull, h)
  | JBool b => (VBool b, h)
  | JNum n => (VNum n, h)
  | JStr s => (VStr s, h)
  | JArr items =>
      let '(vs, h1) :=
        (fix items_of (js : list json) (h : heap) : list value * heap :=
           match js with
           | [] => ([], h)
           | j :: js' =>
               let '(v, h1) := alloc_json j h in
               let '(vs, h2) := items_of js' h1 in
               (v :: vs, h2)
           end) items h in
      alloc (OArr vs) h1
  | JObj members =>
      let '(ps, h1) :=
        (fix members_of (ms : list (string * json)) (h : heap)
           : list (string * value) * heap :=
           match ms with
           | [] => ([], h)
           | (k, j) :: ms' =>
               let '(v, h1) := alloc_json j h in
               let '(ps, h2) := members_of ms' h1 in
               ((k, v) :: ps, h2)
           end) members h in
      alloc (OObj ps) h1
  end.

(** Reading a value back as a tree.  [None] when the value holds
    [undefined] or a class instance somewhere, which no JSON tree has. *)
Fixpoint snapshot (fuel : nat) (h : heap) (v : value) : option json :=
  match v with
  | VUndef => None
  | VNull => Some JNull
  | VBool b => Some (JBool b)
  | VNum n => Some (JNum n)
  | VStr s => Some (JStr s)
  | VRef l =>
      match fuel with
      | O => None
      | S fuel' =>
          match h !! l with
          | Some (OArr vs) => JArr <$> mapM (snapshot fuel' h) vs
          | Some (OObj ps) =>
              JObj <$> mapM (fun kv => pair kv.1 <$> snapshot fuel' h kv.2) ps
          | _ => None
          end
      end
  end.

(** The tree below [v]; the number of cells bounds the depth of any
    acyclic structure. *)
Definition tree_of (h : heap) (v : value) : option json :=
  snapshot (S (length h)) h v.

(** ** lodash: [merge] and [mergeWith]

    The driver calls lodash's [merge] (line 118) and [mergeWith] (lines
    127-136).  Both are [createAssigner] around [baseMerge], transcribed
    here for the values the driver can hold: plain objects and arrays built
    by [JSON.parse] and by object literals.  Such sources are trees, so
    lodash's stack of visited sources (its guard against cyclic sources)
    never fires and is left out; [fuel] bounds the depth instead.  The
    special treatment lodash gives to the keys [__proto__] and
    [constructor] is left out as well. *)

(** A property key: a name of a plain object or an index of an array. *)
Inductive key : Type :=
| KProp (name : string)
| KIdx (i : nat).

Definition isObject (v : value) : bool :=
  match v with VRef _ => true | _ => false end.

Definition isArray (h : heap) (v : value) : bool :=
  match v with
  | VRef l => match h !! l with Some (OArr _) => true | _ => false end
  | _ => false
  end.

(** [isArrayLikeObject] on a non-array: a plain object with a valid
    [length]. *)
Definition isArrayLikeObject (h : heap) (v : value) : bool :=
  match v with
  | VRef l =>
      match h !! l with
      | Some (OObj ps) =>
          match lookup_prop "length" ps with
          | Some (VNum n) => (0 <=? n)%Z
          | _ => false
          end
      | _ => false
      end
  | _ => false
  end.

Definition keysIn (o : obj) : list key :=
  match o with
  | OObj ps => KProp <$> ps.*1
  | OArr xs => KIdx <$> seq 0 (length xs)
  | OInst _ _ => []
  end.

(** [object[key]] as [safeGet] reads it. *)
Definition safeGet (h : heap) (l : loc) (k : key) : value :=
  match h !! l, k with
  | Some (OObj ps), KProp name => default VUndef (lookup_prop name ps)
  | Some (OArr xs), KIdx i => default VUndef (xs !! i)
  | _, _ => VUndef
  end.

(** [key in object]. *)
Definition key_in (h : heap) (l : loc) (k : key) : bool :=
  match h !! l, k with
  | Some (OObj ps), KProp name => bool_decide (is_Some (lookup_prop name ps))
  | Some (OArr xs), KIdx i => (i <? length xs)%nat
  | _, _ => false
  end.

Definition baseAssignValue (h : heap) (l : loc) (k : key) (v : value)
  : result heap :=
  match h !! l, k with
  | Some (OObj ps), KProp name => Ok (<[l := OObj (set_prop name v ps)]> h)
  | Some (OArr xs), KIdx i => Ok (<[l := OArr (arr_set i v xs)]> h)
  | Some (OObj _), KIdx _ => Unmodelled "index key on a plain object"
  | Some (OArr _), KProp _ => Unmodelled "named property on an array"
  | Some (OInst _ _), _ => Unmodelled "property of a class instance"
  | None, _ => Unmodelled "dangling reference"
  end.

(** [assignMergeValue]: assign unless the value is already there, and turn
    an [undefined] into a property only where the key is missing. *)
Definition assignMergeValue (h : heap) (l : loc) (k : key) (v : value)
  : result heap :=
  if (negb (is_undef v) && negb (eq (safeGet h l k) v))
     || (is_undef v && negb (key_in h l k))
  then baseAssignValue h l k v
  else Ok h.

(** A [mergeWith] customizer, called with [objValue] and [srcValue]; it may
    allocate. *)
Definition customizer := heap -> value -> value -> value * heap.

Definition customize (c : option customizer) (h : heap)
    (objValue srcValue : value) : value * heap :=
  match c with
  | Some f => f h objValue srcValue
  | None => (VUndef, h)
  end.

(** [baseMergeDeep]: the merge of one property whose source value is an
    object.  With no customizer result, an array source is merged into the
    destination's array (a fresh [[]] if the destination has none), a
    plain object into the destination's object (a fresh [{}] if the
    destination holds no object). *)
Definition baseMergeDeep (mergeFunc : loc -> loc -> heap -> result heap)
    (c : option customizer) (object source : loc) (k : key) (h : heap)
  : result heap :=
  let objValue := safeGet h object k in
  let srcValue := safeGet h source k in
  let '(newValue, h) := customize c h objValue srcValue in
  if is_undef newValue then
    match srcValue with
    | VRef s =>
        match h !! s with
        | Some (OArr _) =>
            if isArray h objValue then
              match objValue with
              | VRef d =>
                  h ← mergeFunc d s h; assignMergeValue h object k objValue
              | _ => Unmodelled "array expected"
              end
            else if isArrayLikeObject h objValue then
              Unmodelled "array-like destination"
            else
              let '(fresh, h) := alloc (OArr []) h in
              match fresh with
              | VRef d =>
                  h ← mergeFunc d s h; assignMergeValue h object k fresh
              | _ => Unmodelled "reference expected"
              end
        | Some (OObj _) =>
            match objValue with
            | VRef d =>
                h ← mergeFunc d s h; assignMergeValue h object k objValue
            | _ =>
                let '(fresh, h) := alloc (OObj []) h in
                match fresh with
                | VRef d =>
                    h ← mergeFunc d s h; assignMergeValue h object k fresh
                | _ => Unmodelled "reference expected"
                end
            end
        | Some (OInst _ _) => assignMergeValue h object k srcValue
        | None => Unmodelled "dangling reference"
        end
    | _ => assignMergeValue h object k srcValue
    end
  else assignMergeValue h object k newValue.

(** [baseFor]: the iteratee over the keys, in order. *)
Fixpoint baseFor {A : Type} (iteratee : key -> A -> result A)
    (props : list key) (a : A) : result A :=
  match props with
  | [] => Ok a
  | k :: props' => a' ← iteratee k a; baseFor iteratee props' a'
  end.

(** The iteratee of [baseMerge] for one key of the source. *)
Definition mergeKey (mergeFunc : loc -> loc -> heap -> result heap)
    (c : option customizer) (object source : loc) (k : key) (h : heap)
  : result heap :=
  let srcValue := safeGet h source k in
  if isObject srcValue then baseMergeDeep mergeFunc c object source k h
  else
    let '(newValue, h) := customize c h (safeGet h object k) srcValue in
    let newValue := if is_undef newValue then srcValue else newValue in
    assignMergeValue h object k newValue.

Fixpoint baseMerge (fuel : nat) (c : option customizer)
    (object source : loc) (h : heap) : result heap :=
  match fuel with
  | O => OutOfFuel
  | S fuel' =>
      if (object =? source)%nat then Ok h
      else
        match h !! source with
        | Some (OInst _ _) => Unmodelled "class instance as a source"
        | Some o =>
            baseFor (mergeKey (baseMerge fuel' c) c object source) (keysIn o) h
        | None => Unmodelled "dangling reference"
        end
  end.

(** [createAssigner]: the sources are merged from left to right; a falsy
    source is skipped and a number or boolean has no keys.  (The iteratee
    guard of [createAssigner] looks at the second source only when it is a
    number or a string, so it never fires for object sources.) *)
Fixpoint assignSources (c : option customizer) (object : loc)
    (sources : list value) (h : heap) : result heap :=
  match sources with
  | [] => Ok h
  | source :: sources' =>
      h ← (if truthy source then
             match source with
             | VRef s => baseMerge (S (length h)) c object s h
             | VStr _ => Unmodelled "string as a source"
             | _ => Ok h
             end
           else Ok h);
      assignSources c object sources' h
  end.

Definition createAssigner (c : option customizer) (object : value)
    (sources : list value) (h : heap) : result heap :=
  match object with
  | VRef l => assignSources c l sources h
  | _ => Unmodelled "primitive destination"
  end.

Definition merge : value -> list value -> heap -> result heap :=
  createAssigner None.

Definition mergeWith (c : customizer)
  : value -> list value -> heap -> result heap :=
  createAssigner (Some c).

(** [objValue.concat(srcValue)]: a new array; an array argument is spread,
    any other value is appended as one element. *)
Definition Array_concat (h : heap) (l : loc) (arg : value) : value * heap :=
  match h !! l with
  | Some (OArr xs) =>
      let ys :=
        match arg with
        | VRef a => match h !! a with Some (OArr ys) => ys | _ => [arg] end
        | _ => [arg]
        end in
      alloc (OArr (xs ++ ys)) h
  | _ => (VUndef, h)
  end.

(** ** Strings: [path.extname] and [lastIndexOf] *)

(** The scanning state of Node's (POSIX) [path.extname]. *)
Record ext_state : Type := mk_ext {
  startDot : Z;
  startPart : Z;
  end_ : Z;
  matchedSlash : bool;
  preDotState : Z
}.

(** The loop of [extname], from the last character down to the first;
    [i] is the index of the head of [rev_chars]. *)
Fixpoint extname_scan (rev_chars : list ascii) (i : Z) (st : ext_state)
  : ext_state :=
  match rev_chars with
  | [] => st
  | code :: rest =>
      if Ascii.eqb code "/" then
        if negb (matchedSlash st) then
          mk_ext (startDot st) (i + 1) (end_ st) (matchedSlash st)
            (preDotState st)
        else extname_scan rest (i - 1) st
      else
        let st :=
          if (end_ st =? -1)%Z
          then mk_ext (startDot st) (startPart st) (i + 1) false
                 (preDotState st)
          else st in
        let st :=
          if Ascii.eqb code "."
          then
            if (startDot st =? -1)%Z
            then mk_ext i (startPart st) (end_ st) (matchedSlash st)
                   (preDotState st)
            else if negb (preDotState st =? 1)%Z
            then mk_ext (startDot st) (startPart st) (end_ st)
                   (matchedSlash st) 1
            else st
          else if negb (startDot st =? -1)%Z
          then mk_ext (startDot st) (startPart st) (end_ st)
                 (matchedSlash st) (-1)
          else st in
        extname_scan rest (i - 1) st
  end.

Definition extname (path : string) : string :=
  let st :=
    extname_scan (rev (list_ascii_of_string path))
      (Z.of_nat (String.length path) - 1) (mk_ext (-1) 0 (-1) true 0) in
  if (startDot st =? -1)%Z || (end_ st =? -1)%Z || (preDotState st =? 0)%Z
     || ((preDotState st =? 1)%Z && (startDot st =? end_ st - 1)%Z
         && (startDot st =? startPart st + 1)%Z)
  then ""
  else substring (Z.to_nat (startDot st))
         (Z.to_nat (end_ st - startDot st)) path.

(** [s.lastIndexOf(c)] for a one-character [c], counting from [i]: the
    index of the last occurrence, or [-1]. *)
Fixpoint lastIndexOf_from (c : ascii) (s : string) (i : Z) : Z :=
  match s with
  | EmptyString => -1
  | String a s' =>
      let r := lastIndexOf_from c s' (i + 1) in
      if (r =? -1)%Z then (if Ascii.eqb a c then i else -1) else r
  end.

Definition lastIndexOf (s : string) (c : ascii) : Z := lastIndexOf_from c s 0.

(** ** The driver *)

(** *** [defaultConfig] (lines 29-58) *)

Definition defaultConfig_literal : json :=
  JObj [
    ("controller", JObj [
       ("host", JStr "localhost");
       ("ports", JObj [("primary", JNum 30001)]);
       ("autoLaunch", JObj [
          ("disabled", JBool false);
          ("version", JStr "5.3.1");
          ("stop", JBool false)])]);
    ("testServer", JObj [
       ("host", JStr "autodiscover");
       ("port", JNum 24493);
       ("defaultExecutionTimeout", JNum 10000)]);
    ("mocks", JObj [
       ("include", JArr [JStr "__mocks__/**/*.mock.script"]);
       ("exclude", JArr [])]);
    ("sources", JObj [
       ("global", JObj [
          ("scripts", JObj [
             ("include", JArr []);
             ("exclude", JArr [])])])])
  ].

(** The heap once the module is loaded, and the constant in it. *)
Definition module_heap : heap := (alloc_json defaultConfig_literal []).2.
Definition defaultConfig : value := (alloc_json defaultConfig_literal []).1.

(** *** [getTestPattern] (lines 60-76) *)

Definition suffixPattern : string := "**/*.test.script".

(** [extname] rejects an argument that is not a string with a TypeError;
    minimist hands over numbers for numeric arguments. *)
Definition getTestPattern (pattern : value) : result string :=
  if truthy pattern then
    match pattern with
    | VStr p =>
        let ext := extname p in
        if truthy (VStr ext) then Ok (p +:+ "*")
        else if (lastIndexOf p "/" =? Z.of_nat (String.length p) - 1)%Z
        then Ok (p +:+ suffixPattern)
        else Ok (p +:+ "/" +:+ suffixPattern)
    | _ => Throw TypeError
    end
  else Ok "**/*.test.script".

(** *** The world outside the driver *)

(** The file system, [JSON.parse] and the execution service.
    [readFileSync] and [JSON_parse] answer [None] where the real ones
    throw; [execute] tells whether the promise of
    [TestExecutionService.execute] resolves. *)
Record world : Type := {
  readFileSync : value -> option string;
  JSON_parse : string -> option json;
  execute : heap -> value -> bool
}.

(** What minimist returns: the positional arguments [_] and the two
    options ([undefined] when absent). *)
Record argv : Type := {
  positional : list value;
  config_opt : value;
  bundle_opt : value
}.

Inductive event : Type :=
| ConsoleLog (line : string)
| ConsoleLogError (e : error)
| ReadFile (file : value)
| LoggerDebug (message : string) (payload : value)
| Construct (cls : string) (args : list value)
| Execute (executionConfig : value).

(** How a run of [main] ends: [process.exit], the promise of [main]
    resolving, or that promise rejecting with nothing to handle it.
    [Outside] is a run that left what this development covers. *)
Inductive ending : Type :=
| Exit (code : Z)
| Resolved
| Rejected (e : error)
| Outside (what : string).

(** A run of [main]: what it printed, read and constructed, how it ended,
    and the heap it ended on, as the statements of the driver left it
    (what the collaborators do to it is outside). *)
Record run : Type := {
  trace : list event;
  outcome : ending;
  final : heap
}.

(** *** [printHelp] (lines 18-27) *)

Definition printHelp : list event :=
  [ ConsoleLog
      "Usage: npx urscript-tester [--config <config.json>] [--bundle <config.json>] [path]";
    ConsoleLog "Tool used to generate unique script bundles";
    ConsoleLog "Options:";
    ConsoleLog "--config Test configuration file";
    ConsoleLog "--bundle Optional bundle configuration file";
    ConsoleLog "Expression (glob format) used to determine tests to execute" ].

(** *** The body of [main] *)

Definition parse (w : world) (text : string) : result json :=
  match JSON_parse w text with
  | Some j => Ok j
  | None => Throw (SyntaxError text)
  end.

(** [{ ...v }]: a new object with the own properties of [v], one level
    deep. *)
Definition spread (h : heap) (v : value) : result (value * heap) :=
  match v with
  | VRef l =>
      match h !! l with
      | Some (OObj ps) => Ok (alloc (OObj ps) h)
      | _ => Unmodelled "spread of a non-plain object"
      end
  | _ => Ok (alloc (OObj []) h)
  end.

(** Lines 105-111, the [options] of a made-up bundler configuration. *)
Definition default_options : obj :=
  OObj [("bundleKey", VStr "test-harness");
        ("bundleOutputFile", VStr "default");
        ("outputDir", VStr ".urscript-test");
        ("scriptSuffix", VStr "script");
        ("writeToDisk", VBool true)].

(** Lines 103-112: the bundler configuration the driver makes up when
    there is no bundle text; its [sources] is [config.sources] itself. *)
Definition synthesized (config : value) (h : heap) : result (value * heap) :=
  sources ← get h config "sources";
  let '(options, h) := alloc default_options h in
  Ok (alloc (OObj [("sources", sources); ("options", options)]) h).

(** Lines 98-116: parse the user configuration, copy the defaults one
    level deep, take or synthesize the bundler configuration and give it a
    [sources] if it has none.  [bundleContents] is [undefined] when no
    bundle file was named. *)
Definition deriveBundlerConfig (w : world) (contents : string)
    (bundleContents : value) (h : heap)
  : result (value * value * value * heap) :=
  user ← parse w contents;
  let '(userConfig, h) := alloc_json user h in
  '(config, h) ← spread h defaultConfig;
  '(bundlerConfig, h) ←
    (if truthy bundleContents then
       match bundleContents with
       | VStr text => j ← parse w text; Ok (alloc_json j h)
       | _ => Unmodelled "bundle contents that are not a string"
       end
     else synthesized config h);
  sources ← get h bundlerConfig "sources";
  h ← (if negb (truthy sources) then
         let '(empty, h) := alloc (OObj []) h in
         put h bundlerConfig "sources" empty
       else Ok h);
  Ok (userConfig, config, bundlerConfig, h).

(** Lines 98-118: the above, then [merge(config, userConfig)]. *)
Definition configure (w : world) (contents : string)
    (bundleContents : value) (h : heap) : result (value * value * heap) :=
  '(userConfig, config, bundlerConfig, h) ←
    deriveBundlerConfig w contents bundleContents h;
  h ← merge config [userConfig] h;
  Ok (config, bundlerConfig, h).

(** Lines 131-135, the customizer of the source-set merge. *)
Definition concatArrays : customizer := fun h objValue srcValue =>
  match objValue with
  | VRef l => if isArray h objValue then Array_concat h l srcValue
              else (VUndef, h)
  | _ => (VUndef, h)
  end.

(** Lines 124-138: merge the bundler's and the CLI configuration's global
    source sets into a fresh object and store it as
    [bundlerConfig.sources.global]. *)
Definition mergeSources (config bundlerConfig : value) (h : heap)
  : result heap :=
  let '(globalSources, h) := alloc (OObj []) h in
  bundlerSources ← get h bundlerConfig "sources";
  bundlerGlobal ← get h bundlerSources "global";
  sources ← get h config "sources";
  configGlobal ← get h sources "global";
  h ← mergeWith concatArrays globalSources [bundlerGlobal; configGlobal] h;
  bundlerSources ← get h bundlerConfig "sources";
  put h bundlerSources "global" globalSources.

(** Lines 140-148. *)
Definition scriptRunnerConfig_of (config : value) (h : heap)
  : result (value * heap) :=
  controller ← get h config "controller";
  host ← get h controller "host";
  controller ← get h config "controller";
  ports ← get h controller "ports";
  port ← get h ports "primary";
  controller ← get h config "controller";
  autoLaunch ← get h controller "autoLaunch";
  disabled ← get h autoLaunch "disabled";
  controller ← get h config "controller";
  autoLaunch ← get h controller "autoLaunch";
  version ← get h autoLaunch "version";
  controller ← get h config "controller";
  autoLaunch ← get h controller "autoLaunch";
  stop ← get h autoLaunch "stop";
  let '(inner, h) :=
    alloc (OObj [("autoLaunch", VBool (negb (truthy disabled)));
                 ("controllerVersion", version);
                 ("autoStop", stop)]) h in
  Ok (alloc (OObj [("host", host); ("port", port); ("controller", inner)]) h).

(** A program that logs: the events so far and the result. *)
Definition prog (A : Type) : Type := (list event * result A)%type.

#[global] Instance prog_ret : MRet prog := fun A a => ([], Ok a).
#[global] Instance prog_bind : MBind prog := fun A B f m =>
  match m.2 with
  | Ok a => (m.1 ++ (f a).1, (f a).2)
  | Throw e => (m.1, Throw e)
  | Unmodelled what => (m.1, Unmodelled what)
  | OutOfFuel => (m.1, OutOfFuel)
  end.

Definition lift {A : Type} (r : result A) : prog A := ([], r).
Definition emit (e : event) : prog unit := ([e], Ok tt).

(** [new cls(args)]: the collaborators are outside this file; their
    constructors are taken to succeed and to keep what they are given. *)
Definition new (cls : string) (args : list value) (h : heap)
  : prog (value * heap) :=
  _ ← emit (Construct cls args);
  mret (alloc (OInst cls args) h).

(** Lines 150-155. *)
Definition testRunnerConfig_of (config scriptRunnerConfig : value) (h : heap)
  : prog (value * heap) :=
  '(runner, h) ← new "URScriptRunner" [scriptRunnerConfig] h;
  testServer ← lift (get h config "testServer");
  port ← lift (get h testServer "port");
  testServer ← lift (get h config "testServer");
  executionTimeout ← lift (get h testServer "defaultExecutionTimeout");
  testServer ← lift (get h config "testServer");
  restartThreshold ← lift (get h testServer "restartThreshold");
  mret (alloc (OObj [("runner", runner); ("port", port);
                     ("executionTimeout", executionTimeout);
                     ("restartThreshold", restartThreshold)]) h).

(** Lines 157-173. *)
Definition executionConfig_of (args : argv)
    (config bundlerConfig testRunnerConfig : value) (h : heap)
  : prog (value * heap) :=
  '(runner, h) ← new "TestRunner" [testRunnerConfig] h;
  testServer ← lift (get h config "testServer");
  host ← lift (get h testServer "host");
  testServer ← lift (get h config "testServer");
  port ← lift (get h testServer "port");
  pattern ← lift (getTestPattern (default VUndef (positional args !! 0)));
  mocks ← lift (get h config "mocks");
  '(writer, h) ← new "TestResultWriter" [] h;
  let '(server, h) := alloc (OObj [("host", host); ("port", port)]) h in
  let '(environment, h) := alloc (OObj [("server", server)]) h in
  let '(test, h) := alloc (OObj [("pattern", VStr pattern)]) h in
  let '(results, h) := alloc (OObj [("writer", writer)]) h in
  mret (alloc (OObj [("runner", runner); ("environment", environment);
                     ("test", test); ("mocks", mocks);
                     ("bundlerConfig", bundlerConfig);
                     ("results", results)]) h).

(** Lines 98-138: the configuration resolved, that is [configure], the
    debug log of the merged configuration and [mergeSources]. *)
Definition resolve (w : world) (contents : string) (bundleContents : value)
    (h : heap) : prog (value * value * heap) :=
  '(config, bundlerConfig, h) ← lift (configure w contents bundleContents h);
  let '(payload, h) := alloc (OObj [("config", config)]) h in
  _ ← emit (LoggerDebug "urtest-cli launched with config" payload);
  h ← lift (mergeSources config bundlerConfig h);
  mret (config, bundlerConfig, h).

(** Lines 98-179, the body of the [try] block. *)
Definition body (w : world) (args : argv) (contents : string)
    (bundleContents : value) (h : heap) : prog heap :=
  '(config, bundlerConfig, h) ← resolve w contents bundleContents h;
  '(scriptRunnerConfig, h) ← lift (scriptRunnerConfig_of config h);
  '(testRunnerConfig, h) ← testRunnerConfig_of config scriptRunnerConfig h;
  '(executionConfig, h) ←
    executionConfig_of args config bundlerConfig testRunnerConfig h;
  '(executor, h) ← new "TestExecutionService" [executionConfig] h;
  _ ← emit (Execute executionConfig);
  if execute w h executionConfig then mret h
  else lift (Throw ExecutionError).

(** *** The heap at the [catch]

    The [catch] of lines 180-183 undoes nothing: it finds the heap as the
    statement that threw left it.  The stages above hand the heap on only
    when they succeed, so the statements of the [try] block are followed
    once more here, in a state monad that keeps the heap when a statement
    throws.  A property read, [JSON.parse], [getTestPattern] and the
    rejected [execute] throw without touching the heap, and a property
    write that throws writes nothing; allocation, [new] and lodash's merges
    do not throw.  As in the stages, an object literal is allocated once
    its properties are evaluated: a literal one of whose properties throws
    is not in the heap, and nothing could refer to it.  Followed this way
    the body ends as [body] does, and on the same heap when it runs to its
    end ([follow_body_agrees]). *)
Definition tracked (A : Type) : Type := heap -> result A * heap.

#[global] Instance tracked_ret : MRet tracked := fun A a h => (Ok a, h).
#[global] Instance tracked_bind : MBind tracked := fun A B f m h =>
  match m h with
  | (Ok a, h') => f a h'
  | (Throw e, h') => (Throw e, h')
  | (Unmodelled what, h') => (Unmodelled what, h')
  | (OutOfFuel, h') => (OutOfFuel, h')
  end.

(** A statement that reads the heap and leaves it as it is. *)
Definition peek {A : Type} (f : heap -> result A) : tracked A :=
  fun h => (f h, h).

(** A statement that changes the heap and cannot fail. *)
Definition grow {A : Type} (f : heap -> A * heap) : tracked A :=
  fun h => (Ok (f h).1, (f h).2).

(** A statement that fails before it changes anything, or changes the
    heap. *)
Definition commit {A : Type} (f : heap -> result (A * heap)) : tracked A :=
  fun h =>
    match f h with
    | Ok (a, h') => (Ok a, h')
    | Throw e => (Throw e, h)
    | Unmodelled what => (Unmodelled what, h)
    | OutOfFuel => (OutOfFuel, h)
    end.

(** The same for a statement that yields no value. *)
Definition store (f : heap -> result heap) : tracked unit :=
  commit (fun h => h' ← f h; Ok (tt, h')).

(** What a followed statement gives, in the form the stages return
    it. *)
Definition settle {A : Type} (x : result A * heap) : result (A * heap) :=
  a ← x.1; Ok (a, x.2).

(** Lines 98-116. *)
Definition follow_deriveBundlerConfig (w : world) (contents : string)
    (bundleContents : value) : tracked (value * value * value) :=
  user ← peek (fun _ => parse w contents);
  userConfig ← grow (alloc_json user);
  config ← commit (fun h => spread h defaultConfig);
  bundlerConfig ←
    (if truthy bundleContents then
       match bundleContents with
       | VStr text => j ← peek (fun _ => parse w text); grow (alloc_json j)
       | _ =>
           peek (fun _ => Unmodelled "bundle contents that are not a string")
       end
     else commit (synthesized config));
  sources ← peek (fun h => get h bundlerConfig "sources");
  _ ← (if negb (truthy sources) then
         empty ← grow (alloc (OObj []));
         store (fun h => put h bundlerConfig "sources" empty)
       else mret tt);
  mret (userConfig, config, bundlerConfig).

(** Lines 98-118. *)
Definition follow_configure (w : world) (contents : string)
    (bundleContents : value) : tracked (value * value) :=
  '(userConfig, config, bundlerConfig) ←
    follow_deriveBundlerConfig w contents bundleContents;
  _ ← store (merge config [userConfig]);
  mret (config, bundlerConfig).

(** Lines 124-138. *)
Definition follow_mergeSources (config bundlerConfig : value)
  : tracked unit :=
  globalSources ← grow (alloc (OObj []));
  bundlerSources ← peek (fun h => get h bundlerConfig "sources");
  bundlerGlobal ← peek (fun h => get h bundlerSources "global");
  sources ← peek (fun h => get h config "sources");
  configGlobal ← peek (fun h => get h sources "global");
  _ ← store (mergeWith concatArrays globalSources
               [bundlerGlobal; configGlobal]);
  bundlerSources ← peek (fun h => get h bundlerConfig "sources");
  store (fun h => put h bundlerSources "global" globalSources).

(** Lines 98-138. *)
Definition follow_resolve (w : world) (contents : string)
    (bundleContents : value) : tracked (value * value) :=
  '(config, bundlerConfig) ← follow_configure w contents bundleContents;
  payload ← grow (alloc (OObj [("config", config)]));
  _ ← follow_mergeSources config bundlerConfig;
  mret (config, bundlerConfig).

(** Lines 150-155. *)
Definition follow_testRunnerConfig_of (config scriptRunnerConfig : value)
  : tracked value :=
  runner ← grow (alloc (OInst "URScriptRunner" [scriptRunnerConfig]));
  testServer ← peek (fun h => get h config "testServer");
  port ← peek (fun h => get h testServer "port");
  testServer ← peek (fun h => get h config "testServer");
  executionTimeout ←
    peek (fun h => get h testServer "defaultExecutionTimeout");
  testServer ← peek (fun h => get h config "testServer");
  restartThreshold ← peek (fun h => get h testServer "restartThreshold");
  grow (alloc (OObj [("runner", runner); ("port", port);
                     ("executionTimeout", executionTimeout);
                     ("restartThreshold", restartThreshold)])).

(** Lines 157-173. *)
Definition follow_executionConfig_of (args : argv)
    (config bundlerConfig testRunnerConfig : value) : tracked value :=
  runner ← grow (alloc (OInst "TestRunner" [testRunnerConfig]));
  testServer ← peek (fun h => get h config "testServer");
  host ← peek (fun h => get h testServer "host");
  testServer ← peek (fun h => get h config "testServer");
  port ← peek (fun h => get h testServer "port");
  pattern ← peek (fun _ =>
                    getTestPattern (default VUndef (positional args !! 0)));
  mocks ← peek (fun h => get h config "mocks");
  writer ← grow (alloc (OInst "TestResultWriter" []));
  server ← grow (alloc (OObj [("host", host); ("port", port)]));
  environment ← grow (alloc (OObj [("server", server)]));
  test ← grow (alloc (OObj [("pattern", VStr pattern)]));
  results ← grow (alloc (OObj [("writer", writer)]));
  grow (alloc (OObj [("runner", runner); ("environment", environment);
                     ("test", test); ("mocks", mocks);
                     ("bundlerConfig", bundlerConfig);
                     ("results", results)])).

(** Lines 98-179. *)
Definition follow_body (w : world) (args : argv) (contents : string)
    (bundleContents : value) : tracked unit :=
  '(config, bundlerConfig) ← follow_resolve w contents bundleContents;
  scriptRunnerConfig ← commit (scriptRunnerConfig_of config);
  testRunnerConfig ← follow_testRunnerConfig_of config scriptRunnerConfig;
  executionConfig ←
    follow_executionConfig_of args config bundlerConfig testRunnerConfig;
  executor ← grow (alloc (OInst "TestExecutionService" [executionConfig]));
  peek (fun h => if execute w h executionConfig then Ok tt
                 else Throw ExecutionError).

(** The heap the body of the [try] block stops on: at its end, or at the
    statement that threw. *)
Definition heap_at_stop (w : world) (args : argv) (contents : string)
    (bundleContents : value) (h : heap) : heap :=
  (follow_body w args contents bundleContents h).2.

(** Lines 97-183: the [try] block and its [catch].  The [catch] logs the
    error and exits; the heap stays as the body left it. *)
Definition guarded (w : world) (args : argv) (contents : string)
    (bundleContents : value) (h : heap) : run :=
  let '(events, r) := body w args contents bundleContents h in
  let stop := heap_at_stop w args contents bundleContents h in
  match r with
  | Ok h' => {| trace := events; outcome := Resolved; final := h' |}
  | Throw e =>
      {| trace := events ++ [ConsoleLogError e]; outcome := Exit 1;
         final := stop |}
  | Unmodelled what =>
      {| trace := events; outcome := Outside what; final := stop |}
  | OutOfFuel =>
      {| trace := events; outcome := Outside "fuel"; final := stop |}
  end.

(** *** [main] (lines 78-184), started on the heap of the loaded module *)

Definition main (w : world) (args : argv) : run :=
  let h := module_heap in
  if negb (truthy (config_opt args)) then
    {| trace := printHelp; outcome := Exit 0; final := h |}
  else
    match readFileSync w (config_opt args) with
    | None =>
        {| trace := [ReadFile (config_opt args)];
           outcome := Rejected (ReadError (config_opt args)); final := h |}
    | Some contents =>
        if truthy (bundle_opt args) then
          match readFileSync w (bundle_opt args) with
          | None =>
              {| trace := [ReadFile (config_opt args);
                           ReadFile (bundle_opt args)];
                 outcome := Rejected (ReadError (bundle_opt args));
                 final := h |}
          | Some bundleContents =>
              let r := guarded w args contents (VStr bundleContents) h in
              {| trace := [ReadFile (config_opt args);
                           ReadFile (bundle_opt args)] ++ trace r;
                 outcome := outcome r; final := final r |}
          end
        else
          let r := guarded w args contents VUndef h in
          {| trace := ReadFile (config_opt args) :: trace r;
             outcome := outcome r; final := final r |}
    end.

(** ** The configuration as a typed record *)

(** Modelled from the spec: the interface [IURTesterCliConfig] of
    src/cli/types.ts, which is not among the sources at hand.  Its fields
    are those of the [defaultConfig] literal, with the optional
    [testServer.restartThreshold] that line 154 reads.  ([server_host] is
    [testServer.host], [primary] is [controller.ports.primary] and
    [scripts] is [sources.global.scripts].) *)
Record AutoLaunch : Type := {
  disabled : bool;
  version : string;
  stop : bool
}.

Record Controller : Type := {
  host : string;
  primary : Z;
  autoLaunch : AutoLaunch
}.

Record TestServer : Type := {
  server_host : string;
  port : Z;
  defaultExecutionTimeout : Z;
  restartThreshold : option Z
}.

Record Globs : Type := {
  include : list string;
  exclude : list string
}.

Record CliConfig : Type := {
  controller : Controller;
  testServer : TestServer;
  mocks : Globs;
  scripts : Globs
}.

(** The values of the [defaultConfig] literal. *)
Definition defaults : CliConfig := {|
  controller := {| host := "localhost"; primary := 30001;
                   autoLaunch := {| disabled := false; version := "5.3.1";
                                    stop := false |} |};
  testServer := {| server_host := "autodiscover"; port := 24493;
                   defaultExecutionTimeout := 10000;
                   restartThreshold := None |};
  mocks := {| include := ["__mocks__/**/*.mock.script"]; exclude := [] |};
  scripts := {| include := []; exclude := [] |}
|}.

(** A user configuration: the same interface with every field optional,
    at every level. *)
Record UserAutoLaunch : Type := {
  u_disabled : option bool;
  u_version : option string;
  u_stop : option bool
}.

Record UserPorts : Type := { u_primary : option Z }.

Record UserController : Type := {
  u_host : option string;
  u_ports : option UserPorts;
  u_autoLaunch : option UserAutoLaunch
}.

Record UserTestServer : Type := {
  u_server_host : option string;
  u_port : option Z;
  u_defaultExecutionTimeout : option Z;
  u_restartThreshold : option Z
}.

Record UserGlobs : Type := {
  u_include : option (list string);
  u_exclude : option (list string)
}.

Record UserGlobal : Type := { u_scripts : option UserGlobs }.
Record UserSources : Type := { u_global : option UserGlobal }.

Record UserConfig : Type := {
  u_controller : option UserController;
  u_testServer : option UserTestServer;
  u_mocks : option UserGlobs;
  u_sources : option UserSources
}.

(** The JSON text of a user configuration, as a tree: a field that is
    absent is not a member, and the members come in the order of the
    interface. *)
Definition member {A : Type} (k : string) (f : A -> json) (o : option A)
  : list (string * json) :=
  match o with
  | Some a => [(k, f a)]
  | None => []
  end.

Definition strings_json (xs : list string) : json := JArr (JStr <$> xs).

Definition UserAutoLaunch_json (u : UserAutoLaunch) : json :=
  JObj (member "disabled" JBool (u_disabled u)
        ++ member "version" JStr (u_version u)
        ++ member "stop" JBool (u_stop u)).

Definition UserPorts_json (u : UserPorts) : json :=
  JObj (member "primary" JNum (u_primary u)).

Definition UserController_json (u : UserController) : json :=
  JObj (member "host" JStr (u_host u)
        ++ member "ports" UserPorts_json (u_ports u)
        ++ member "autoLaunch" UserAutoLaunch_json (u_autoLaunch u)).

Definition UserTestServer_json (u : UserTestServer) : json :=
  JObj (member "host" JStr (u_server_host u)
        ++ member "port" JNum (u_port u)
        ++ member "defaultExecutionTimeout" JNum (u_defaultExecutionTimeout u)
        ++ member "restartThreshold" JNum (u_restartThreshold u)).

Definition UserGlobs_json (u : UserGlobs) : json :=
  JObj (member "include" strings_json (u_include u)
        ++ member "exclude" strings_json (u_exclude u)).

Definition UserGlobal_json (u : UserGlobal) : json :=
  JObj (member "scripts" UserGlobs_json (u_scripts u)).

Definition UserSources_json (u : UserSources) : json :=
  JObj (member "global" UserGlobal_json (u_global u)).

Definition UserConfig_json (u : UserConfig) : json :=
  JObj (member "controller" UserController_json (u_controller u)
        ++ member "testServer" UserTestServer_json (u_testServer u)
        ++ member "mocks" UserGlobs_json (u_mocks u)
        ++ member "sources" UserSources_json (u_sources u)).

(** The tree of a complete configuration. *)
Definition Globs_json (g : Globs) : json :=
  JObj [("include", strings_json (include g));
        ("exclude", strings_json (exclude g))].

Definition CliConfig_json (c : CliConfig) : json :=
  JObj [
    ("controller", JObj [
       ("host", JStr (host (controller c)));
       ("ports", JObj [("primary", JNum (primary (controller c)))]);
       ("autoLaunch", JObj [
          ("disabled", JBool (disabled (autoLaunch (controller c))));
          ("version", JStr (version (autoLaunch (controller c))));
          ("stop", JBool (stop (autoLaunch (controller c))))])]);
    ("testServer", JObj (
       [("host", JStr (server_host (testServer c)));
        ("port", JNum (port (testServer c)));
        ("defaultExecutionTimeout",
         JNum (defaultExecutionTimeout (testServer c)))]
       ++ member "restartThreshold" JNum (restartThreshold (testServer c))));
    ("mocks", Globs_json (mocks c));
    ("sources", JObj [("global", JObj [("scripts", Globs_json (scripts c))])])
  ].

(** *** What lodash's [merge] computes on such records

    A scalar of the user configuration replaces the default.  An array of
    the user configuration replaces the default's elements position by
    position: the default's elements beyond the user's length stay. *)
Definition overlay {A : Type} (user dflt : list A) : list A :=
  user ++ drop (length user) dflt.

Definition apply_AutoLaunch (c : AutoLaunch) (u : UserAutoLaunch)
  : AutoLaunch := {|
  disabled := default (disabled c) (u_disabled u);
  version := default (version c) (u_version u);
  stop := default (stop c) (u_stop u)
|}.

Definition apply_Controller (c : Controller) (u : UserController)
  : Controller := {|
  host := default (host c) (u_host u);
  primary :=
    match u_ports u with
    | Some p => default (primary c) (u_primary p)
    | None => primary c
    end;
  autoLaunch :=
    match u_autoLaunch u with
    | Some a => apply_AutoLaunch (autoLaunch c) a
    | None => autoLaunch c
    end
|}.

Definition apply_TestServer (c : TestServer) (u : UserTestServer)
  : TestServer := {|
  server_host := default (server_host c) (u_server_host u);
  port := default (port c) (u_port u);
  defaultExecutionTimeout :=
    default (defaultExecutionTimeout c) (u_defaultExecutionTimeout u);
  restartThreshold :=
    match u_restartThreshold u with
    | Some n => Some n
    | None => restartThreshold c
    end
|}.

Definition apply_Globs (c : Globs) (u : UserGlobs) : Globs := {|
  include :=
    match u_include u with
    | Some xs => overlay xs (include c)
    | None => include c
    end;
  exclude :=
    match u_exclude u with
    | Some xs => overlay xs (exclude c)
    | None => exclude c
    end
|}.

(** The scripts of a user's [sources], when it has them. *)
Definition scripts_of (u : UserSources) : option UserGlobs :=
  match u_global u with
  | Some g => u_scripts g
  | None => None
  end.

Definition apply_scripts (sc : Globs) (o : option UserGlobs) : Globs :=
  match o with
  | Some x => apply_Globs sc x
  | None => sc
  end.

Definition user_scripts (u : UserConfig) : option UserGlobs :=
  match u_sources u with
  | Some s => scripts_of s
  | None => None
  end.

Definition apply_user (c : CliConfig) (u : UserConfig) : CliConfig := {|
  controller :=
    match u_controller u with
    | Some x => apply_Controller (controller c) x
    | None => controller c
    end;
  testServer :=
    match u_testServer u with
    | Some x => apply_TestServer (testServer c) x
    | None => testServer c
    end;
  mocks :=
    match u_mocks u with
    | Some x => apply_Globs (mocks c) x
    | None => mocks c
    end;
  scripts := apply_scripts (scripts c) (user_scripts u)
|}.

(** The cells of a configuration. *)
Definition ports_cell (p : Z) : obj := OObj [("primary", VNum p)].

Definition AutoLaunch_cell (a : AutoLaunch) : obj :=
  OObj [("disabled", VBool (disabled a)); ("version", VStr (version a));
        ("stop", VBool (stop a))].

Definition Controller_cell (hst : string) (ports autoLaunch : loc) : obj :=
  OObj [("host", VStr hst); ("ports", VRef ports);
        ("autoLaunch", VRef autoLaunch)].

Definition TestServer_cell (t : TestServer) : obj :=
  OObj ([("host", VStr (server_host t)); ("port", VNum (port t));
         ("defaultExecutionTimeout", VNum (defaultExecutionTimeout t))]
        ++ match restartThreshold t with
           | Some n => [("restartThreshold", VNum n)]
           | None => []
           end).

Definition strings_cell (xs : list string) : obj := OArr (VStr <$> xs).

Definition Globs_cell (include exclude : loc) : obj :=
  OObj [("include", VRef include); ("exclude", VRef exclude)].

(** The properties of the default configuration object and of its copy.*)
Definition top_props : list (string * value) :=
  [("controller", VRef 2); ("testServer", VRef 3); ("mocks", VRef 6);
   ("sources", VRef 11)].

(** The thirteen cells of the default configuration when they hold the
    given values: the layout of [module_heap]. *)
Definition heap_of (ctl : Controller) (ts : TestServer) (m sc : Globs)
  : heap := [
  ports_cell (primary ctl);
  AutoLaunch_cell (autoLaunch ctl);
  Controller_cell (host ctl) 0 1;
  TestServer_cell ts;
  strings_cell (include m);
  strings_cell (exclude m);
  Globs_cell 4 5;
  strings_cell (include sc);
  strings_cell (exclude sc);
  Globs_cell 7 8;
  OObj [("scripts", VRef 9)];
  OObj [("global", VRef 10)];
  OObj top_props
].

Definition cells (c : CliConfig) : heap :=
  heap_of (controller c) (testServer c) (mocks c) (scripts c).

(** *** Trees in the heap *)

(** The two loops of [alloc_json], by name. *)
Fixpoint alloc_items (js : list json) (h : heap) : list value * heap :=
  match js with
  | [] => ([], h)
  | j :: js' =>
      let '(v, h1) := alloc_json j h in
      let '(vs, h2) := alloc_items js' h1 in
      (v :: vs, h2)
  end.

Fixpoint alloc_members (ms : list (string * json)) (h : heap)
  : list (string * value) * heap :=
  match ms with
  | [] => ([], h)
  | (k, j) :: ms' =>
      let '(v, h1) := alloc_json j h in
      let '(ps, h2) := alloc_members ms' h1 in
      ((k, v) :: ps, h2)
  end.

(** [repr_from k R j v]: the value [v] is the tree [j], held in cells of
    [R], a part of the heap that starts at location [k]. *)
Fixpoint repr_from (k : nat) (R : heap) (j : json) (v : value) : Prop :=
  match j with
  | JNull => v = VNull
  | JBool b => v = VBool b
  | JNum n => v = VNum n
  | JStr s => v = VStr s
  | JArr items =>
      exists l vs, v = VRef (k + l) /\ R !! l = Some (OArr vs)
        /\ (fix all2 (js : list json) (vs : list value) : Prop :=
              match js, vs with
              | [], [] => True
              | j :: js', v :: vs' => repr_from k R j v /\ all2 js' vs'
              | _, _ => False
              end) items vs
  | JObj members =>
      exists l ps, v = VRef (k + l) /\ R !! l = Some (OObj ps)
        /\ (fix all2 (ms : list (string * json)) (ps : list (string * value))
              : Prop :=
              match ms, ps with
              | [], [] => True
              | (key, j) :: ms', (key', v) :: ps' =>
                  key = key' /\ repr_from k R j v /\ all2 ms' ps'
              | _, _ => False
              end) members ps
  end.

Definition repr_items (k : nat) (R : heap)
  : list json -> list value -> Prop :=
  fix all2 (js : list json) (vs : list value) : Prop :=
    match js, vs with
    | [], [] => True
    | j :: js', v :: vs' => repr_from k R j v /\ all2 js' vs'
    | _, _ => False
    end.

Definition repr_members (k : nat) (R : heap)
  : list (string * json) -> list (string * value) -> Prop :=
  fix all2 (ms : list (string * json)) (ps : list (string * value)) : Prop :=
    match ms, ps with
    | [], [] => True
    | (key, j) :: ms', (key', v) :: ps' =>
        key = key' /\ repr_from k R j v /\ all2 ms' ps'
    | _, _ => False
    end.

(** The first member of a JSON object under a key. *)
Fixpoint lookup_member (k : string) (ms : list (string * json)) : option json :=
  match ms with
  | [] => None
  | (k', j) :: ms' => if (k =? k')%string then Some j else lookup_member k ms'
  end.

(** Truthiness of the value of a tree. *)
Definition json_truthy (j : json) : bool :=
  match j with
  | JNull => false
  | JBool b => b
  | JNum n => negb (n =? 0)%Z
  | JStr s => negb (s =? "")%string
  | JArr _ | JObj _ => true
  end.

(** Induction on trees, with the hypothesis on every item and member. *)
Section json_induction.
Variable P : json -> Prop.
Hypothesis Hnull : P JNull.
Hypothesis Hbool : forall b, P (JBool b).
Hypothesis Hnum : forall n, P (JNum n).
Hypothesis Hstr : forall s, P (JStr s).
Hypothesis Harr : forall items, Forall P items -> P (JArr items).
Hypothesis Hobj : forall members, Forall (fun m => P m.2) members ->
                                  P (JObj members).

Fixpoint json_induction (j : json) : P j :=
  match j with
  | JNull => Hnull
  | JBool b => Hbool b
  | JNum n => Hnum n
  | JStr s => Hstr s
  | JArr items =>
      Harr items
        ((fix all (js : list json) : Forall P js :=
            match js with
            | [] => Forall_nil_2 P
            | j :: js' => Forall_cons_2 P j js' (json_induction j) (all js')
            end) items)
  | JObj members =>
      Hobj members
        ((fix all (ms : list (string * json))
            : Forall (fun m => P m.2) ms :=
            match ms with
            | [] => Forall_nil_2 _
            | m :: ms' =>
                Forall_cons_2 (fun m => P m.2) m ms'
                  (json_induction m.2) (all ms')
            end) members)
  end.
End json_induction.

(** *** Vocabulary of the statements *)

(** Reading along a path of property names. *)
Fixpoint get_path (h : heap) (v : value) (path : list string) : result value :=
  match path with
  | [] => Ok v
  | k :: path' => v' ← get h v k; get_path h v' path'
  end.

(** The tree at the end of a path, when there is one. *)
Definition tree_at (h : heap) (v : value) (path : list string) : option json :=
  match get_path h v path with
  | Ok v' => tree_of h v'
  | _ => None
  end.

(** [v] is a fresh empty object [{}]. *)
Definition empty_object (h : heap) (v : value) : Prop :=
  exists l, v = VRef l /\ h !! l = Some (OObj []).

(** [v] is a plain object. *)
Definition plain_object (h : heap) (v : value) : Prop :=
  exists l ps, v = VRef l /\ h !! l = Some (OObj ps).

(** [v] is a source set holding the globs [g]. *)
Definition holds_Globs (h : heap) (v : value) (g : Globs) : Prop :=
  exists l i e,
    v = VRef l /\ h !! l = Some (Globs_cell i e)
    /\ h !! i = Some (strings_cell (include g))
    /\ h !! e = Some (strings_cell (exclude g)).

(** The concatenation of two source sets. *)
Definition concat_Globs (a b : Globs) : Globs := {|
  include := include a ++ include b;
  exclude := exclude a ++ exclude b
|}.

(** The bundle condition of the statements: no bundle text, or a bundle
    text that parses to a JSON object. *)
Definition no_bundle_or_object (w : world) (bundleContents : value) : Prop :=
  truthy bundleContents = false
  \/ exists text ms, bundleContents = VStr text /\ text <> ""
                     /\ JSON_parse w text = Some (JObj ms).

Fixpoint last_char (s : string) : option ascii :=
  match s with
  | EmptyString => None
  | String a EmptyString => Some a
  | String _ s' => last_char s'
  end.

Definition ends_with_separator (s : string) : bool :=
  match last_char s with
  | Some c => Ascii.eqb c "/"
  | None => false
  end.

Definition is_ReadFile (e : event) : bool :=
  match e with ReadFile _ => true | _ => false end.

Definition is_ConsoleLogError (e : event) : bool :=
  match e with ConsoleLogError _ => true | _ => false end.

Definition is_ConsoleLog (e : event) : bool :=
  match e with ConsoleLog _ => true | _ => false end.

(** The run stayed within what this development covers. *)
Definition within (r : run) : bool :=
  match outcome r with
  | Outside _ => false
  | _ => true
  end.

(** The file reads [main] starts with when both can be made. *)
Definition reads (args : argv) : list event :=
  if truthy (bundle_opt args)
  then [ReadFile (config_opt args); ReadFile (bundle_opt args)]
  else [ReadFile (config_opt args)].

(** A JSON value that is neither an object nor an array. *)
Definition json_scalar (j : json) : bool :=
  match j with
  | JArr _ | JObj _ => false
  | _ => true
  end.

(** A JSON value without keys of its own that [merge] would visit:
    [null], a boolean, a number or the empty string. *)
Definition keyless (j : json) : bool :=
  match j with
  | JNull | JBool _ | JNum _ | JStr "" => true
  | _ => false
  end.

(** No character of the string is a separator or a dot. *)
Definition plain_chars (xs : list ascii) : bool :=
  forallb (fun c => negb (Ascii.eqb c "/") && negb (Ascii.eqb c ".")) xs.

Definition plain_name (s : string) : bool :=
  plain_chars (list_ascii_of_string s).

Definition no_dot (s : string) : bool :=
  forallb (fun c => negb (Ascii.eqb c ".")) (list_ascii_of_string s).

(** [n] separators. *)
Fixpoint slashes (n : nat) : string :=
  match n with
  | O => ""
  | S n' => String "/" (slashes n')
  end.

(** The tree of the script runner configuration of lines 140-148. *)
Definition ScriptRunnerConfig_json (c : Controller) : json :=
  JObj [("host", JStr (host c)); ("port", JNum (primary c));
        ("controller",
         JObj [("autoLaunch", JBool (negb (disabled (autoLaunch c))));
               ("controllerVersion", JStr (version (autoLaunch c)));
               ("autoStop", JBool (stop (autoLaunch c)))])].

(** A run on a configuration file of the interface and no bundle file. *)
Definition plain_run (w : world) (args : argv) (u : UserConfig) : Prop :=
  truthy (config_opt args) = true
  /\ truthy (bundle_opt args) = false
  /\ exists contents,
       readFileSync w (config_opt args) = Some contents
       /\ JSON_parse w contents = Some (UserConfig_json u).

(** A bundle object without [sources], or with a falsy one. *)
Definition no_sources (ms : list (string * json)) : bool :=
  match lookup_member "sources" ms with
  | Some j => negb (json_truthy j)
  | None => true
  end.

(** The [sources] of a bundle object are as the driver expects them:
    absent or falsy, or an object whose [global] holds a source set under
    [scripts]. *)
Definition expected_sources (ms : list (string * json)) : Prop :=
  no_sources ms = true
  \/ exists sms B,
       lookup_member "sources" ms = Some (JObj sms)
       /\ lookup_member "global" sms = Some (JObj [("scripts", Globs_json B)]).

(** A run on a configuration file of the interface and a bundle file
    that holds the object [ms], with [sources] as the driver expects. *)
Definition bundle_run (w : world) (args : argv) (u : UserConfig)
    (ms : list (string * json)) : Prop :=
  truthy (config_opt args) = true
  /\ truthy (bundle_opt args) = true
  /\ expected_sources ms
  /\ exists contents text,
       readFileSync w (config_opt args) = Some contents
       /\ readFileSync w (bundle_opt args) = Some text
       /\ text <> ""
       /\ JSON_parse w contents = Some (UserConfig_json u)
       /\ JSON_parse w text = Some (JObj ms).

(** *** Vocabulary of the proofs *)

(** A value the merge assigns as it is: neither an object nor
    [undefined]. *)
Definition scalar (v : value) : bool :=
  negb (isObject v) && negb (is_undef v).

(** What a merge without customizer leaves in a destination object when
    every value it reads under [keys] from the source properties [src] is
    a scalar: the assignments, in order. *)
Definition assign_props (src : list (string * value)) (keys : list string)
    (dst : list (string * value)) : list (string * value) :=
  foldl (fun acc k => set_prop k (default VUndef (lookup_prop k src)) acc)
    dst keys.

(** A customizer that answers [undefined] whenever the destination's value
    is not an object, as [concatArrays] does. *)
Definition passes_scalars (c : option customizer) : Prop :=
  forall h objValue srcValue,
    isObject objValue = false -> customize c h objValue srcValue = (VUndef, h).

(** The events of the body of the [try] block: the debug log, the
    constructions and the call of [execute]. *)
Definition of_body (e : event) : bool :=
  match e with
  | LoggerDebug _ _ | Construct _ _ | Execute _ => true
  | _ => false
  end.

(** What [testRunnerConfig.restartThreshold] holds: the configuration's
    number, or [undefined]. *)
Definition threshold_value (t : TestServer) : value :=
  match restartThreshold t with
  | Some n => VNum n
  | None => VUndef
  end.

(** The heap holds the configuration [c] under [config], in the cells of
    the defaults. *)
Definition holds_config (h : heap) (config : value) (c : CliConfig) : Prop :=
  exists l,
    config = VRef l /\ h !! l = Some (OObj top_props)
    /\ h !! 0 = Some (ports_cell (primary (controller c)))
    /\ h !! 1 = Some (AutoLaunch_cell (autoLaunch (controller c)))
    /\ h !! 2 = Some (Controller_cell (host (controller c)) 0 1)
    /\ h !! 3 = Some (TestServer_cell (testServer c)).

(** The cells lines 140-177 add to a heap of [n] cells: the two objects
    of the script runner configuration, the script runner, the test
    runner configuration, the test runner, the result writer, the four
    inner objects of the execution configuration, the execution
    configuration and the execution service. *)
Definition assembled (n : nat) (c : CliConfig) (pattern : string)
    (bundlerConfig : value) : heap := [
  OObj [("autoLaunch",
         VBool (negb (disabled (autoLaunch (controller c)))));
        ("controllerVersion", VStr (version (autoLaunch (controller c))));
        ("autoStop", VBool (stop (autoLaunch (controller c))))];
  OObj [("host", VStr (host (controller c)));
        ("port", VNum (primary (controller c)));
        ("controller", VRef n)];
  OInst "URScriptRunner" [VRef (n + 1)];
  OObj [("runner", VRef (n + 2)); ("port", VNum (port (testServer c)));
        ("executionTimeout", VNum (defaultExecutionTimeout (testServer c)));
        ("restartThreshold", threshold_value (testServer c))];
  OInst "TestRunner" [VRef (n + 3)];
  OInst "TestResultWriter" [];
  OObj [("host", VStr (server_host (testServer c)));
        ("port", VNum (port (testServer c)))];
  OObj [("server", VRef (n + 6))];
  OObj [("pattern", VStr pattern)];
  OObj [("writer", VRef (n + 5))];
  OObj [("runner", VRef (n + 4)); ("environment", VRef (n + 7));
        ("test", VRef (n + 8)); ("mocks", VRef 6);
        ("bundlerConfig", bundlerConfig); ("results", VRef (n + 9))];
  OInst "TestExecutionService" [VRef (n + 10)]
].

(** The cells the source-set merge adds to a heap of [n] cells for the
    source sets [a] and [b]: the merged [global] object, its source set,
    the copies of [a]'s lists and the concatenated lists. *)
Definition merged_sets (n : nat) (a b : Globs) : heap := [
  OObj [("scripts", VRef (n + 1))];
  Globs_cell (n + 4) (n + 5);
  strings_cell (include a);
  strings_cell (exclude a);
  strings_cell (include a ++ include b);
  strings_cell (exclude a ++ exclude b)
].

(** The cells [main] adds after the user's tree [U] when there is no
    bundle text: the copy of the defaults, the made-up bundler
    configuration and the payload of the debug log. *)
Definition synthesized_cells (U : heap) : heap := [
  OObj top_props;
  default_options;
  OObj [("sources", VRef 11); ("options", VRef (13 + length U + 1))];
  OObj [("config", VRef (13 + length U))]
].

(** The heap a run without a bundle file resolves its configuration on:
    the merged configuration [c] in the cells of the defaults, the user's
    tree, the cells above and the doubled source sets, stored as
    [sources.global]. *)
Definition resolved_heap (c : CliConfig) (U : heap) : heap :=
  let h := cells c ++ U ++ synthesized_cells U in
  <[11 := OObj [("global", VRef (length h))]]>
    (h ++ merged_sets (length h) (scripts c) (scripts c)).

(** The heap [execute] is called on in such a run. *)
Definition final_heap (c : CliConfig) (U : heap) (pattern : string) : heap :=
  resolved_heap c U
  ++ assembled (length (resolved_heap c U)) c pattern
       (VRef (13 + length U + 2)).

(** The cells that end the derivation of the bundler configuration from a
    bundle object with properties [psb]: the object itself and, when it
    has no truthy [sources], the empty object stored there. *)
Definition bundle_tail (U E : heap) (psb : list (string * value)) : heap :=
  if truthy (default VUndef (lookup_prop "sources" psb)) then [OObj psb]
  else [OObj (set_prop "sources" (VRef (15 + length U + length E)) psb);
        OObj []].

(** The nesting depth of a tree: scalars have depth 0. *)
Fixpoint depth (j : json) : nat :=
  match j with
  | JArr items =>
      S ((fix deepest (js : list json) : nat :=
            match js with
            | [] => 0
            | j :: js' => Nat.max (depth j) (deepest js')
            end) items)
  | JObj members =>
      S ((fix deepest (ms : list (string * json)) : nat :=
            match ms with
            | [] => 0
            | (_, j) :: ms' => Nat.max (depth j) (deepest ms')
            end) members)
  | _ => 0
  end.

Definition depth_items (js : list json) : nat :=
  (fix deepest (js : list json) : nat :=
     match js with
     | [] => 0
     | j :: js' => Nat.max (depth j) (deepest js')
     end) js.

Definition depth_members (ms : list (string * json)) : nat :=
  (fix deepest (ms : list (string * json)) : nat :=
     match ms with
     | [] => 0
     | (_, j) :: ms' => Nat.max (depth j) (deepest ms')
     end) ms.

(** The members [ms] of an object, allocated one after the other from
    location [k] on: each member's tree lies in a segment of its own of
    the cells [E], deep enough to hold it, and [ps] are the properties. *)
Fixpoint segments (k : nat) (ms : list (string * json))
    (ps : list (string * value)) (E : heap) : Prop :=
  match ms, ps with
  | [], [] => E = []
  | (key, j) :: ms', (key', v) :: ps' =>
      key = key'
      /\ exists e E',
           E = e ++ E' /\ repr_from k e j v /\ depth j <= length e
           /\ segments (k + length e) ms' ps' E'
  | _, _ => False
  end.

(** *** Scenarios and examples *)

(** Worlds for the examples: files and parsed texts given as tables. *)
Definition files (table : list (string * string)) (file : value)
  : option string :=
  match file with
  | VStr name => snd <$> List.find (fun p => (p.1 =? name)%string) table
  | _ => None
  end.

Definition parses (table : list (string * json)) (text : string)
  : option json :=
  snd <$> List.find (fun p => (p.1 =? text)%string) table.

(** The world of the scenarios: [cfg.json] and [bundle.json] hold the
    texts that parse to the given trees. *)
Definition scenario (cfg bundle : json) : world := {|
  readFileSync := files [("cfg.json", "cfg"); ("bundle.json", "bundle")];
  JSON_parse := parses [("cfg", cfg); ("bundle", bundle)];
  execute := fun _ _ => true
|}.

(** The texts of the scenarios. *)
Definition include_only (script : string) : json :=
  JObj [("sources", JObj [("global", JObj [("scripts",
     JObj [("include", JArr [JStr script])])])])].

Definition primary_only (n : Z) : json :=
  JObj [("controller", JObj [("ports", JObj [("primary", JNum n)])])].

(** A user configuration for the examples. *)
Definition sample_user : UserConfig := {|
  u_controller :=
    Some {| u_host := Some "robot";
            u_ports := Some {| u_primary := Some 40001%Z |};
            u_autoLaunch := None |};
  u_testServer := None;
  u_mocks := Some {| u_include := Some []; u_exclude := None |};
  u_sources :=
    Some {| u_global :=
              Some {| u_scripts :=
                        Some {| u_include := Some ["a.script"];
                                u_exclude := None |} |} |}
|}.

(** A heap with two source sets, at locations 2 and 5. *)
Definition sample_sets : heap := [
  strings_cell ["lib/a.script"; "lib/b.script"];
  strings_cell ["lib/skip.script"];
  Globs_cell 0 1;
  strings_cell ["test/c.script"];
  strings_cell [];
  Globs_cell 3 4
].

(** The command lines of the examples. *)
Definition only_config (path : list value) : argv :=
  {| positional := path; config_opt := VStr "cfg.json";
     bundle_opt := VUndef |}.

Definition config_and_bundle (bundle : string) : argv :=
  {| positional := []; config_opt := VStr "cfg.json";
     bundle_opt := VStr bundle |}.

(** A world whose [cfg.json] and [bundle.json] hold the given texts, of
    which only the listed ones parse. *)
Definition texts (cfg bundle : string) (table : list (string * json))
  : world := {|
  readFileSync := files [("cfg.json", cfg); ("bundle.json", bundle)];
  JSON_parse := parses table;
  execute := fun _ _ => true
|}.

(** A bundle file of the usual shape. *)
Definition sample_bundle : json :=
  JObj [("sources",
         JObj [("global",
                JObj [("scripts",
                       Globs_json {| include := ["lib/**/*.script"];
                                     exclude := ["lib/skip.script"] |})])]);
        ("options", JObj [("bundleKey", JStr "robot")])].

(** * Properties *)

(** ** Heap and property lists *)

Lemma eq_true (a b : value) : eq a b = true -> a = b.
Proof.
  destruct a, b; simpl; try done.
  - by intros ->%Bool.eqb_prop.
  - by intros ->%Z.eqb_eq.
  - by intros ->%String.eqb_eq.
  - by intros ->%Nat.eqb_eq.
Qed.

Lemma set_prop_id (k : string) (v : value) (ps : list (string * value)) :
  lookup_prop k ps = Some v -> set_prop k v ps = ps.
Proof.
  induction ps as [|[k' v'] ps IH]; simpl; [done|].
  destruct (String.eqb_spec k k') as [->|_].
  - by intros [= ->].
  - intros H. by rewrite IH.
Qed.

Lemma lookup_set_prop (k : string) (v : value) (ps : list (string * value)) :
  lookup_prop k (set_prop k v ps) = Some v.
Proof.
  induction ps as [|[k' v'] ps IH]; simpl.
  - by rewrite String.eqb_refl.
  - destruct (String.eqb_spec k k') as [->|Hne]; simpl.
    + by rewrite String.eqb_refl.
    + by destruct (String.eqb_spec k k').
Qed.

Lemma arr_set_id (i : nat) (v : value) (xs : list value) :
  xs !! i = Some v -> arr_set i v xs = xs.
Proof.
  intros Hi. unfold arr_set.
  pose proof (lookup_lt_Some _ _ _ Hi) as Hlt.
  destruct (Nat.ltb_spec i (length xs)); [|lia].
  by apply list_insert_id.
Qed.

(** [assignMergeValue] of a defined value is the assignment: where it
    skips the write, the write would change nothing. *)
Lemma assignMergeValue_prop (h : heap) (l : loc) (ps : list (string * value))
    (k : string) (v : value) :
  h !! l = Some (OObj ps) -> is_undef v = false ->
  assignMergeValue h l (KProp k) v = Ok (<[l := OObj (set_prop k v ps)]> h).
Proof.
  intros Hl Hv. unfold assignMergeValue, safeGet, baseAssignValue.
  rewrite Hl, Hv.
  destruct (eq (default VUndef (lookup_prop k ps)) v) eqn:Heq;
    cbv [negb andb orb]; [|done].
  apply eq_true in Heq.
  destruct (lookup_prop k ps) as [v'|] eqn:Hk; simpl in Heq.
  - subst v'. rewrite (set_prop_id _ _ _ Hk). by rewrite list_insert_id.
  - subst v. done.
Qed.

Lemma assignMergeValue_idx (h : heap) (l : loc) (xs : list value)
    (i : nat) (v : value) :
  h !! l = Some (OArr xs) -> is_undef v = false ->
  assignMergeValue h l (KIdx i) v = Ok (<[l := OArr (arr_set i v xs)]> h).
Proof.
  intros Hl Hv. unfold assignMergeValue, safeGet, baseAssignValue.
  rewrite Hl, Hv.
  destruct (eq (default VUndef (xs !! i)) v) eqn:Heq;
    cbv [negb andb orb]; [|done].
  apply eq_true in Heq.
  destruct (xs !! i) as [v'|] eqn:Hi; simpl in Heq.
  - subst v'. rewrite (arr_set_id _ _ _ Hi). by rewrite list_insert_id.
  - subst v. done.
Qed.

(** Assigning the reference a property already holds changes nothing. *)
Lemma assignMergeValue_same (h : heap) (l : loc) (ps : list (string * value))
    (k : string) (v : value) :
  h !! l = Some (OObj ps) -> lookup_prop k ps = Some v -> is_undef v = false ->
  assignMergeValue h l (KProp k) v = Ok h.
Proof.
  intros Hl Hk Hv. rewrite (assignMergeValue_prop h l ps) by done.
  rewrite (set_prop_id _ _ _ Hk). by rewrite list_insert_id.
Qed.

(** ** [JSON.parse] builds a tree above the heap it starts from *)

Lemma alloc_json_arr (items : list json) (h : heap) :
  alloc_json (JArr items) h
  = let '(vs, h1) := alloc_items items h in alloc (OArr vs) h1.
Proof. reflexivity. Qed.

Lemma alloc_json_obj (members : list (string * json)) (h : heap) :
  alloc_json (JObj members) h
  = let '(ps, h1) := alloc_members members h in alloc (OObj ps) h1.
Proof. reflexivity. Qed.

Lemma repr_from_arr (k : nat) (R : heap) (items : list json) (v : value) :
  repr_from k R (JArr items) v
  = exists l vs, v = VRef (k + l) /\ R !! l = Some (OArr vs)
                 /\ repr_items k R items vs.
Proof. reflexivity. Qed.

Lemma repr_from_obj (k : nat) (R : heap) (members : list (string * json))
    (v : value) :
  repr_from k R (JObj members) v
  = exists l ps, v = VRef (k + l) /\ R !! l = Some (OObj ps)
                 /\ repr_members k R members ps.
Proof. reflexivity. Qed.

Lemma repr_from_app (k : nat) (R X : heap) (j : json) (v : value) :
  repr_from k R j v -> repr_from k (R ++ X) j v.
Proof.
  revert v. induction j as [| | | |items IH|members IH] using json_induction;
    intros v; try done.
  - rewrite !repr_from_arr. intros (l & vs & -> & Hl & Hvs).
    exists l, vs. split; [done|]. split; [by apply lookup_app_l_Some|].
    clear Hl. revert vs Hvs.
    induction IH as [|j js Hj _ IHjs]; intros [|v vs]; simpl; try done.
    intros [H1 H2]. split; [by apply Hj | by apply IHjs].
  - rewrite !repr_from_obj. intros (l & ps & -> & Hl & Hps).
    exists l, ps. split; [done|]. split; [by apply lookup_app_l_Some|].
    clear Hl. revert ps Hps.
    induction IH as [|[key j] ms Hj _ IHms]; intros [|[key' v] ps]; simpl;
      try done.
    intros (-> & H1 & H2). split; [done|].
    split; [by apply Hj | by apply IHms].
Qed.

Lemma repr_items_app (k : nat) (R X : heap) (js : list json)
    (vs : list value) :
  repr_items k R js vs -> repr_items k (R ++ X) js vs.
Proof.
  revert vs. induction js as [|j js IH]; intros [|v vs]; simpl; try done.
  intros [H1 H2]. split; [by apply repr_from_app | by apply IH].
Qed.

Lemma repr_members_app (k : nat) (R X : heap) (ms : list (string * json))
    (ps : list (string * value)) :
  repr_members k R ms ps -> repr_members k (R ++ X) ms ps.
Proof.
  revert ps. induction ms as [|[key j] ms IH]; intros [|[key' v] ps]; simpl;
    try done.
  intros (-> & H1 & H2). split; [done|].
  split; [by apply repr_from_app | by apply IH].
Qed.

(** Parsing into the heap [D ++ R] leaves [D] and [R] as they are, adds
    cells after [R], and the value it returns is the tree, held at
    locations from [length D] on. *)
Lemma alloc_json_repr (j : json) (D R : heap) :
  exists v ext,
    alloc_json j (D ++ R) = (v, D ++ (R ++ ext))
    /\ repr_from (length D) (R ++ ext) j v.
Proof.
  revert R. induction j as [| | | |items IH|members IH] using json_induction;
    intros R.
  - exists VNull, []. by rewrite app_nil_r.
  - exists (VBool b), []. by rewrite app_nil_r.
  - exists (VNum n), []. by rewrite app_nil_r.
  - exists (VStr s), []. by rewrite app_nil_r.
  - assert (exists vs ext,
              alloc_items items (D ++ R) = (vs, D ++ (R ++ ext))
              /\ repr_items (length D) (R ++ ext) items vs)
      as (vs & ext & Hitems & Hrepr).
    { clear -IH. revert R.
      induction IH as [|j js Hj _ IHjs]; intros R.
      - exists [], []. by rewrite app_nil_r.
      - destruct (Hj R) as (v & e1 & Hv & Hrv).
        destruct (IHjs (R ++ e1)) as (vs & e2 & Hvs & Hrvs).
        exists (v :: vs), (e1 ++ e2). simpl. rewrite Hv, Hvs.
        rewrite <- !(assoc_L (++)). split; [done|].
        split; [|by rewrite <- (assoc_L (++)) in Hrvs].
        rewrite (assoc_L (++)). by apply repr_from_app. }
    exists (VRef (length D + length (R ++ ext))), (ext ++ [OArr vs]).
    rewrite alloc_json_arr, Hitems. unfold alloc.
    rewrite length_app, <- !(assoc_L (++)). split; [done|].
    rewrite repr_from_arr. exists (length (R ++ ext)), vs.
    split; [done|]. rewrite !(assoc_L (++)).
    split; [by apply list_lookup_middle | by apply repr_items_app].
  - assert (exists ps ext,
              alloc_members members (D ++ R) = (ps, D ++ (R ++ ext))
              /\ repr_members (length D) (R ++ ext) members ps)
      as (ps & ext & Hmembers & Hrepr).
    { clear -IH. revert R.
      induction IH as [|[key j] ms Hj _ IHms]; intros R.
      - exists [], []. by rewrite app_nil_r.
      - destruct (Hj R) as (v & e1 & Hv & Hrv).
        destruct (IHms (R ++ e1)) as (ps & e2 & Hps & Hrps).
        exists ((key, v) :: ps), (e1 ++ e2). simpl in *. rewrite Hv, Hps.
        rewrite <- !(assoc_L (++)). split; [done|].
        split; [done|].
        split; [|by rewrite <- (assoc_L (++)) in Hrps].
        rewrite (assoc_L (++)). by apply repr_from_app. }
    exists (VRef (length D + length (R ++ ext))), (ext ++ [OObj ps]).
    rewrite alloc_json_obj, Hmembers. unfold alloc.
    rewrite length_app, <- !(assoc_L (++)). split; [done|].
    rewrite repr_from_obj. exists (length (R ++ ext)), ps.
    split; [done|]. rewrite !(assoc_L (++)).
    split; [by apply list_lookup_middle | by apply repr_members_app].
Qed.

(** ** One level of [baseMerge] *)

Lemma baseMerge_object (n : nat) (c : option customizer) (d s : nat)
    (h : list obj) (ps : list (string * value)) :
  d <> s -> h !! s = Some (OObj ps) ->
  baseMerge (S n) c d s h
  = baseFor (mergeKey (baseMerge n c) c d s) (KProp <$> ps.*1) h.
Proof.
  intros Hne Hs. simpl. rewrite Hs.
  by destruct (Nat.eqb_spec d s).
Qed.

Lemma baseMerge_array (n : nat) (c : option customizer) (d s : nat)
    (h : list obj) (ys : list value) :
  d <> s -> h !! s = Some (OArr ys) ->
  baseMerge (S n) c d s h
  = baseFor (mergeKey (baseMerge n c) c d s) (KIdx <$> seq 0 (length ys)) h.
Proof.
  intros Hne Hs. simpl. rewrite Hs.
  by destruct (Nat.eqb_spec d s).
Qed.

Lemma scalar_not_object (v : value) : scalar v = true -> isObject v = false.
Proof. by destruct v. Qed.

Lemma scalar_defined (v : value) : scalar v = true -> is_undef v = false.
Proof. by destruct v. Qed.

Lemma safeGet_prop (h : list obj) (l : nat) (ps : list (string * value))
    (k : string) :
  h !! l = Some (OObj ps) ->
  safeGet h l (KProp k) = default VUndef (lookup_prop k ps).
Proof. intros Hl. unfold safeGet. by rewrite Hl. Qed.

Lemma safeGet_idx (h : list obj) (l : nat) (xs : list value) (i : nat) :
  h !! l = Some (OArr xs) -> safeGet h l (KIdx i) = default VUndef (xs !! i).
Proof. intros Hl. unfold safeGet. by rewrite Hl. Qed.

(** A scalar of the source is assigned. *)
Lemma mergeKey_scalar (mf : nat -> nat -> list obj -> result (list obj))
    (d s : nat) (h : list obj) (ps pd : list (string * value))
    (k : string) (v : value) :
  h !! s = Some (OObj ps) -> h !! d = Some (OObj pd) ->
  default VUndef (lookup_prop k ps) = v -> scalar v = true ->
  mergeKey mf None d s (KProp k) h = Ok (<[d := OObj (set_prop k v pd)]> h).
Proof.
  intros Hs Hd Hk Hv. unfold mergeKey. cbv zeta.
  rewrite (safeGet_prop _ _ _ _ Hs), Hk.
  rewrite (scalar_not_object _ Hv). simpl customize. cbv iota beta.
  simpl is_undef. cbv iota.
  by apply assignMergeValue_prop; [|apply scalar_defined].
Qed.

(** An object (or array) of the source is merged into the object (or
    array) the destination holds under the same key; the destination's
    property keeps its reference. *)
Lemma mergeKey_child (mf : nat -> nat -> list obj -> result (list obj))
    (d s : nat) (h h' : list obj) (ps pd : list (string * value))
    (k : string) (sv dv : nat) :
  h !! s = Some (OObj ps) -> h !! d = Some (OObj pd) ->
  lookup_prop k ps = Some (VRef sv) -> lookup_prop k pd = Some (VRef dv) ->
  (exists ps', h !! sv = Some (OObj ps')
   \/ (exists ys xs, h !! sv = Some (OArr ys) /\ h !! dv = Some (OArr xs))) ->
  mf dv sv h = Ok h' -> h' !! d = Some (OObj pd) ->
  mergeKey mf None d s (KProp k) h = Ok h'.
Proof.
  intros Hs Hd Hks Hkd Hkind Hmf Hd'.
  unfold mergeKey. cbv zeta.
  rewrite (safeGet_prop _ _ _ _ Hs), Hks. simpl default. simpl isObject.
  cbv iota.
  unfold baseMergeDeep. cbv zeta.
  rewrite (safeGet_prop _ _ _ _ Hs), (safeGet_prop _ _ _ _ Hd), Hks, Hkd.
  simpl default. simpl customize. cbv iota beta. simpl is_undef. cbv iota.
  destruct Hkind as [ps' [Hsv | (ys & xs & Hsv & Hdv)]]; rewrite Hsv.
  - rewrite Hmf. by apply (assignMergeValue_same _ _ pd).
  - unfold isArray. rewrite Hdv, Hmf.
    by apply (assignMergeValue_same _ _ pd).
Qed.

Lemma baseFor_cons {A : Type} (f : key -> A -> result A) (k : key)
    (ks : list key) (a a' : A) :
  f k a = Ok a' -> baseFor f (k :: ks) a = baseFor f ks a'.
Proof. intros Hf. simpl. by rewrite Hf. Qed.

(** ** Merging an object of scalars *)

Lemma baseFor_scalars (mf : nat -> nat -> list obj -> result (list obj))
    (d s : nat) (ps : list (string * value)) (ks : list string) :
  d <> s ->
  Forall (fun k => scalar (default VUndef (lookup_prop k ps)) = true) ks ->
  forall (h : list obj) (pd : list (string * value)),
    h !! s = Some (OObj ps) -> h !! d = Some (OObj pd) ->
    baseFor (mergeKey mf None d s) (KProp <$> ks) h
    = Ok (<[d := OObj (assign_props ps ks pd)]> h).
Proof.
  intros Hne Hks. induction Hks as [|k ks Hk _ IH]; intros h pd Hs Hd.
  - simpl. by rewrite list_insert_id.
  - rewrite fmap_cons.
    rewrite (baseFor_cons _ _ _ _ _
               (mergeKey_scalar mf d s h ps pd k _ Hs Hd eq_refl Hk)).
    rewrite (IH _ (set_prop k (default VUndef (lookup_prop k ps)) pd)).
    + by rewrite list_insert_insert_eq.
    + by rewrite list_lookup_insert_ne.
    + apply list_lookup_insert_eq. by eapply lookup_lt_Some.
Qed.

Lemma baseMerge_scalars (n : nat) (d s : nat) (h : list obj)
    (ps pd : list (string * value)) :
  d <> s -> h !! s = Some (OObj ps) -> h !! d = Some (OObj pd) ->
  forallb (fun k => scalar (default VUndef (lookup_prop k ps))) ps.*1 = true ->
  baseMerge (S n) None d s h
  = Ok (<[d := OObj (assign_props ps ps.*1 pd)]> h).
Proof.
  intros Hne Hs Hd Hall. rewrite (baseMerge_object _ _ _ _ _ ps) by done.
  apply baseFor_scalars; try done.
  apply Forall_forall. intros k Hk.
  rewrite forallb_forall in Hall. apply Hall. by apply list_elem_of_In.
Qed.

(** ** Merging an array of scalars *)

Lemma arr_set_next (done_ : list value) (y : value) (xs : list value) :
  arr_set (length done_) y (done_ ++ drop (length done_) xs)
  = (done_ ++ [y]) ++ drop (S (length done_)) xs.
Proof.
  unfold arr_set. rewrite length_app.
  destruct (drop (length done_) xs) as [|x rest] eqn:Hdrop.
  - assert (drop (S (length done_)) xs = []) as ->.
    { apply drop_ge. apply (f_equal length) in Hdrop.
      rewrite length_drop in Hdrop. simpl in Hdrop. lia. }
    simpl. destruct (Nat.ltb_spec (length done_) (length done_ + 0)); [lia|].
    replace (length done_ - (length done_ + 0)) with 0 by lia.
    simpl. by rewrite !app_nil_r.
  - assert (drop (S (length done_)) xs = rest) as ->.
    { replace (S (length done_)) with (length done_ + 1) by lia.
      by rewrite <- drop_drop, Hdrop. }
    simpl length.
    destruct (Nat.ltb_spec (length done_) (length done_ + S (length rest)));
      [|lia].
    replace (length done_) with (length done_ + 0) at 1 by lia.
    rewrite insert_app_r. simpl. by rewrite <- (assoc_L (++)).
Qed.

Lemma baseFor_items (mf : nat -> nat -> list obj -> result (list obj))
    (c : option customizer) (d s : nat) (xs : list value) :
  passes_scalars c -> d <> s ->
  Forall (fun v => isObject v = false) xs ->
  forall (todo done_ : list value) (h : list obj),
    Forall (fun v => scalar v = true) todo ->
    h !! s = Some (OArr (done_ ++ todo)) ->
    h !! d = Some (OArr (done_ ++ drop (length done_) xs)) ->
    baseFor (mergeKey mf c d s) (KIdx <$> seq (length done_) (length todo)) h
    = Ok (<[d := OArr (overlay (done_ ++ todo) xs)]> h).
Proof.
  intros Hc Hne Hxs todo.
  induction todo as [|y todo IH]; intros done_ h Htodo Hs Hd.
  - simpl. unfold overlay. rewrite app_nil_r. by rewrite list_insert_id.
  - apply Forall_cons in Htodo as [Hy Htodo].
    simpl length. simpl seq. rewrite fmap_cons.
    assert (mergeKey mf c d s (KIdx (length done_)) h
            = Ok (<[d := OArr ((done_ ++ [y]) ++ drop (S (length done_)) xs)]> h))
      as Hstep.
    { unfold mergeKey. cbv zeta.
      rewrite (safeGet_idx _ _ _ _ Hs), (safeGet_idx _ _ _ _ Hd).
      rewrite list_lookup_middle by done. simpl default.
      rewrite (scalar_not_object _ Hy).
      rewrite Hc.
      - simpl is_undef. cbv iota.
        rewrite (assignMergeValue_idx _ _ _ _ _ Hd (scalar_defined _ Hy)).
        by rewrite arr_set_next.
      - destruct ((done_ ++ drop (length done_) xs) !! length done_)
          as [x|] eqn:Hx; [|done].
        simpl. rewrite lookup_app_r in Hx by lia.
        rewrite Nat.sub_diag, lookup_drop in Hx.
        eapply Forall_lookup_1 in Hxs; [|done]. done. }
    rewrite (baseFor_cons _ _ _ _ _ Hstep).
    replace (S (length done_)) with (length (done_ ++ [y]))
      by (rewrite length_app; simpl; lia).
    rewrite (IH (done_ ++ [y])).
    + rewrite list_insert_insert_eq. by rewrite <- (assoc_L (++)).
    + done.
    + rewrite list_lookup_insert_ne by done. by rewrite <- (assoc_L (++)).
    + rewrite list_lookup_insert_eq by (by eapply lookup_lt_Some).
      rewrite length_app. simpl. by rewrite Nat.add_1_r.
Qed.

(** Merging an array of scalars into an array: the source's elements
    replace the destination's position by position, and the destination's
    elements beyond the source's length stay. *)
Lemma baseMerge_items (n : nat) (c : option customizer) (d s : nat)
    (h : list obj) (xs ys : list value) :
  passes_scalars c -> d <> s ->
  h !! s = Some (OArr ys) -> h !! d = Some (OArr xs) ->
  Forall (fun v => scalar v = true) ys ->
  Forall (fun v => isObject v = false) xs ->
  baseMerge (S n) c d s h = Ok (<[d := OArr (overlay ys xs)]> h).
Proof.
  intros Hc Hne Hs Hd Hys Hxs.
  rewrite (baseMerge_array _ _ _ _ _ ys) by done.
  by apply (baseFor_items _ c d s xs Hc Hne Hxs ys []).
Qed.

Lemma passes_scalars_None : passes_scalars None.
Proof. by intros h o s _. Qed.

Lemma passes_scalars_concatArrays : passes_scalars (Some concatArrays).
Proof. intros h o s Ho. by destruct o. Qed.

Lemma strings_scalar (xs : list string) :
  Forall (fun v => scalar v = true) (VStr <$> xs).
Proof. apply Forall_fmap. by apply Forall_true. Qed.

Lemma strings_not_object (xs : list string) :
  Forall (fun v => isObject v = false) (VStr <$> xs).
Proof. apply Forall_fmap. by apply Forall_true. Qed.

Lemma overlay_strings (xs ys : list string) :
  overlay (VStr <$> ys) (VStr <$> xs) = VStr <$> overlay ys xs.
Proof.
  unfold overlay. by rewrite fmap_app, fmap_drop, !length_fmap.
Qed.

(** ** The user configuration in the heap *)

Lemma repr_members_nil (k : nat) (R : list obj) (ps : list (string * value)) :
  repr_members k R [] ps -> ps = [].
Proof. by destruct ps. Qed.

Lemma repr_members_cons (k : nat) (R : list obj) (key : string) (j : json)
    (ms : list (string * json)) (ps : list (string * value)) :
  repr_members k R ((key, j) :: ms) ps ->
  exists v ps', ps = (key, v) :: ps' /\ repr_from k R j v
                /\ repr_members k R ms ps'.
Proof.
  destruct ps as [|[key' v] ps]; [done|]. intros (-> & Hv & Hps). eauto.
Qed.

Lemma repr_items_strings (k : nat) (R : list obj) (xs : list string)
    (vs : list value) :
  repr_items k R (JStr <$> xs) vs -> vs = VStr <$> xs.
Proof.
  revert vs. induction xs as [|x xs IH]; intros [|v vs]; try done.
  intros [Hv Hvs]. simpl in Hv. subst v. rewrite fmap_cons.
  f_equal. by apply IH.
Qed.

Lemma repr_strings (k : nat) (R : list obj) (xs : list string) (v : value) :
  repr_from k R (strings_json xs) v ->
  exists l, v = VRef (k + l) /\ R !! l = Some (strings_cell xs).
Proof.
  unfold strings_json. rewrite repr_from_arr.
  intros (l & vs & -> & Hl & Hvs). apply repr_items_strings in Hvs as ->.
  eauto.
Qed.

Lemma repr_object_ref (k : nat) (R : list obj) (ms : list (string * json))
    (v : value) :
  repr_from k R (JObj ms) v ->
  exists s ps, v = VRef (k + s) /\ R !! s = Some (OObj ps).
Proof. rewrite repr_from_obj. intros (l & ps & -> & Hl & _). eauto. Qed.

(** Taking a represented object apart, member by member. *)
Ltac repr_object H :=
  let l := fresh "l" in
  let ps := fresh "ps" in
  let Heq := fresh "Heq" in
  let Hl := fresh "Hl" in
  let Hps := fresh "Hps" in
  unfold member in H; simpl app in H;
  rewrite repr_from_obj in H;
  destruct H as (l & ps & Heq & Hl & Hps);
  lazymatch type of Heq with
  | VRef (_ + ?a) = VRef (_ + ?b) =>
      assert (a = b) by (injection Heq; lia); subst a; clear Heq
  | _ => subst
  end;
  repeat (let v := fresh "v" in
          let ps' := fresh "ps" in
          let Hv := fresh "Hv" in
          apply repr_members_cons in Hps as (v & ps' & -> & Hv & Hps);
          lazymatch type of Hv with
          | repr_from _ _ (JNum _) _ => simpl in Hv; subst v
          | repr_from _ _ (JStr _) _ => simpl in Hv; subst v
          | repr_from _ _ (JBool _) _ => simpl in Hv; subst v
          | _ => idtac
          end);
  apply repr_members_nil in Hps as ->.

Lemma lookup_above (h R : list obj) (l : nat) :
  drop 13 h = R -> h !! (13 + l) = R !! l.
Proof. intros <-. by rewrite lookup_drop. Qed.

(** ** The sections of the configuration, merged one by one *)

Lemma merge_ports (n : nat) (h R : list obj) (p0 : Z) (u : UserPorts)
    (s : nat) :
  drop 13 h = R -> h !! 0 = Some (ports_cell p0) ->
  repr_from 13 R (UserPorts_json u) (VRef (13 + s)) ->
  baseMerge (S n) None 0 (13 + s) h
  = Ok (<[0 := ports_cell (default p0 (u_primary u))]> h).
Proof.
  intros Hdrop Hd Hrepr. unfold UserPorts_json in Hrepr.
  destruct u as [[p|]]; subst R; repr_object Hrepr;
    (erewrite baseMerge_scalars; cycle 1;
     [lia | rewrite (lookup_above _ _ _ eq_refl); exact Hl | exact Hd
     | reflexivity | reflexivity]).
Qed.

Lemma merge_autoLaunch (n : nat) (h R : list obj) (a0 : AutoLaunch)
    (u : UserAutoLaunch) (s : nat) :
  drop 13 h = R -> h !! 1 = Some (AutoLaunch_cell a0) ->
  repr_from 13 R (UserAutoLaunch_json u) (VRef (13 + s)) ->
  baseMerge (S n) None 1 (13 + s) h
  = Ok (<[1 := AutoLaunch_cell (apply_AutoLaunch a0 u)]> h).
Proof.
  intros Hdrop Hd Hrepr. unfold UserAutoLaunch_json in Hrepr.
  destruct u as [[d|] [ver|] [st|]]; subst R; repr_object Hrepr;
    (erewrite baseMerge_scalars; cycle 1;
     [lia | rewrite (lookup_above _ _ _ eq_refl); exact Hl | exact Hd
     | reflexivity | reflexivity]).
Qed.

Lemma merge_testServer (n : nat) (h R : list obj) (t0 : TestServer)
    (u : UserTestServer) (s : nat) :
  drop 13 h = R -> h !! 3 = Some (TestServer_cell t0) ->
  repr_from 13 R (UserTestServer_json u) (VRef (13 + s)) ->
  baseMerge (S n) None 3 (13 + s) h
  = Ok (<[3 := TestServer_cell (apply_TestServer t0 u)]> h).
Proof.
  intros Hdrop Hd Hrepr. unfold UserTestServer_json in Hrepr.
  destruct t0 as [h0 p0 e0 [r0|]];
  destruct u as [[hst|] [p|] [e|] [r|]]; subst R; repr_object Hrepr;
    (erewrite baseMerge_scalars; cycle 1;
     [lia | rewrite (lookup_above _ _ _ eq_refl); exact Hl | exact Hd
     | reflexivity | reflexivity]).
Qed.

(** One key of the source holding a scalar. *)
Ltac step_scalar Hl :=
  erewrite baseFor_cons;
  [| eapply mergeKey_scalar;
     [ exact Hl | reflexivity | reflexivity | reflexivity ] ].

(** One key of the source holding an object, merged by [lemma] into the
    object of the destination. *)
Ltac step_object Hl Hchild merged :=
  erewrite baseFor_cons;
  [| eapply mergeKey_child;
     [ exact Hl | reflexivity | reflexivity | reflexivity
     | eexists; left; exact Hchild
     | merged
     | reflexivity ] ].

(** One key of the source holding an array of strings. *)
Ltac step_strings Hl Hchild :=
  erewrite baseFor_cons;
  [| eapply mergeKey_child;
     [ exact Hl | reflexivity | reflexivity | reflexivity
     | exists []; right; eexists _, _; split; [exact Hchild | reflexivity]
     | eapply baseMerge_items;
       [ apply passes_scalars_None | lia | exact Hchild | reflexivity
       | apply strings_scalar | apply strings_not_object ]
     | reflexivity ] ].

Lemma merge_controller (n : nat) (ctl : Controller) (ts : TestServer)
    (m sc : Globs) (R : list obj) (u : UserController) (s : nat) :
  repr_from 13 R (UserController_json u) (VRef (13 + s)) ->
  baseMerge (S (S n)) None 2 (13 + s) (heap_of ctl ts m sc ++ R)
  = Ok (heap_of (apply_Controller ctl u) ts m sc ++ R).
Proof.
  intros Hrepr. unfold UserController_json in Hrepr.
  destruct u as [[hst|] [up|] [ua|]]; repr_object Hrepr;
    repeat match goal with
      | H : repr_from _ _ (UserPorts_json _) ?v |- _ =>
          is_var v;
          let Hc := fresh "Hports" in
          destruct (repr_object_ref _ _ _ _ H) as (? & ? & -> & Hc)
      | H : repr_from _ _ (UserAutoLaunch_json _) ?v |- _ =>
          is_var v;
          let Hc := fresh "Hauto" in
          destruct (repr_object_ref _ _ _ _ H) as (? & ? & -> & Hc)
      end;
    (erewrite baseMerge_object; [| lia | exact Hl]); simpl fmap;
    try step_scalar Hl;
    try (step_object Hl Hports
           ltac:(eapply merge_ports; [reflexivity | reflexivity | eassumption]));
    try (step_object Hl Hauto
           ltac:(eapply merge_autoLaunch;
                 [reflexivity | reflexivity | eassumption]));
    reflexivity.
Qed.

Lemma merge_mocks (n : nat) (ctl : Controller) (ts : TestServer)
    (m sc : Globs) (R : list obj) (u : UserGlobs) (s : nat) :
  repr_from 13 R (UserGlobs_json u) (VRef (13 + s)) ->
  baseMerge (S (S n)) None 6 (13 + s) (heap_of ctl ts m sc ++ R)
  = Ok (heap_of ctl ts (apply_Globs m u) sc ++ R).
Proof.
  intros Hrepr. unfold UserGlobs_json in Hrepr.
  destruct u as [[ui|] [ue|]]; repr_object Hrepr;
    repeat match goal with
      | H : repr_from _ _ (strings_json _) ?v |- _ =>
          let Hc := fresh "Hstrings" in
          destruct (repr_strings _ _ _ _ H) as (? & -> & Hc); clear H
      end;
    (erewrite baseMerge_object; [| lia | exact Hl]); simpl fmap;
    repeat match goal with
      | H : _ !! _ = Some (strings_cell _) |- _ =>
          step_strings Hl H; clear H
      end;
    simpl baseFor; rewrite ?overlay_strings; reflexivity.
Qed.

Lemma merge_scripts (n : nat) (ctl : Controller) (ts : TestServer)
    (m sc : Globs) (R : list obj) (u : UserGlobs) (s : nat) :
  repr_from 13 R (UserGlobs_json u) (VRef (13 + s)) ->
  baseMerge (S (S n)) None 9 (13 + s) (heap_of ctl ts m sc ++ R)
  = Ok (heap_of ctl ts m (apply_Globs sc u) ++ R).
Proof.
  intros Hrepr. unfold UserGlobs_json in Hrepr.
  destruct u as [[ui|] [ue|]]; repr_object Hrepr;
    repeat match goal with
      | H : repr_from _ _ (strings_json _) ?v |- _ =>
          let Hc := fresh "Hstrings" in
          destruct (repr_strings _ _ _ _ H) as (? & -> & Hc); clear H
      end;
    (erewrite baseMerge_object; [| lia | exact Hl]); simpl fmap;
    repeat match goal with
      | H : _ !! _ = Some (strings_cell _) |- _ =>
          step_strings Hl H; clear H
      end;
    simpl baseFor; rewrite ?overlay_strings; reflexivity.
Qed.

Lemma merge_global (n : nat) (ctl : Controller) (ts : TestServer)
    (m sc : Globs) (R : list obj) (u : UserGlobal) (s : nat) :
  repr_from 13 R (UserGlobal_json u) (VRef (13 + s)) ->
  baseMerge (S (S (S n))) None 10 (13 + s) (heap_of ctl ts m sc ++ R)
  = Ok (heap_of ctl ts m (apply_scripts sc (u_scripts u)) ++ R).
Proof.
  intros Hrepr. unfold UserGlobal_json in Hrepr.
  destruct u as [[us|]]; repr_object Hrepr;
    repeat match goal with
      | H : repr_from _ _ (UserGlobs_json _) ?v |- _ =>
          is_var v;
          let Hc := fresh "Hchild" in
          destruct (repr_object_ref _ _ _ _ H) as (? & ? & -> & Hc)
      end;
    (erewrite baseMerge_object; [| lia | exact Hl]); simpl fmap;
    try (step_object Hl Hchild ltac:(eapply merge_scripts; eassumption));
    reflexivity.
Qed.

Lemma merge_sources (n : nat) (ctl : Controller) (ts : TestServer)
    (m sc : Globs) (R : list obj) (u : UserSources) (s : nat) :
  repr_from 13 R (UserSources_json u) (VRef (13 + s)) ->
  baseMerge (S (S (S (S n)))) None 11 (13 + s) (heap_of ctl ts m sc ++ R)
  = Ok (heap_of ctl ts m (apply_scripts sc (scripts_of u)) ++ R).
Proof.
  intros Hrepr. unfold UserSources_json in Hrepr.
  destruct u as [[ug|]]; repr_object Hrepr;
    repeat match goal with
      | H : repr_from _ _ (UserGlobal_json _) ?v |- _ =>
          is_var v;
          let Hc := fresh "Hchild" in
          destruct (repr_object_ref _ _ _ _ H) as (? & ? & -> & Hc)
      end;
    (erewrite baseMerge_object; [| lia | exact Hl]); simpl fmap;
    try (step_object Hl Hchild ltac:(eapply merge_global; eassumption));
    reflexivity.
Qed.

Lemma merge_testServer_cells (n : nat) (ctl : Controller) (ts : TestServer)
    (m sc : Globs) (R : list obj) (u : UserTestServer) (s : nat) :
  repr_from 13 R (UserTestServer_json u) (VRef (13 + s)) ->
  baseMerge (S n) None 3 (13 + s) (heap_of ctl ts m sc ++ R)
  = Ok (heap_of ctl (apply_TestServer ts u) m sc ++ R).
Proof.
  intros Hrepr.
  by erewrite merge_testServer; [| reflexivity | reflexivity | eassumption].
Qed.

(** ** [merge(config, userConfig)] on a typed user configuration *)

(** One key of the user configuration at the top level: its object is
    merged into the section of the defaults that [config] shares. *)
Ltac step_section Hl Htop Hchild merged :=
  erewrite baseFor_cons;
  [| eapply mergeKey_child;
     [ exact Hl | apply Htop | reflexivity | reflexivity
     | eexists; left; exact Hchild
     | merged
     | apply Htop ] ].

(** The user configuration lives in [U], the copy [config] of the
    defaults is the first cell after it: the merge rewrites the thirteen
    cells of the defaults, and nothing else. *)
Lemma merge_user (c : CliConfig) (u : UserConfig) (U X : list obj) (s : nat) :
  repr_from 13 U (UserConfig_json u) (VRef (13 + s)) ->
  X !! 0 = Some (OObj top_props) ->
  merge (VRef (13 + length U)) [VRef (13 + s)] (cells c ++ U ++ X)
  = Ok (cells (apply_user c u) ++ U ++ X).
Proof.
  intros Hrepr HX.
  assert (s < length U) as Hs.
  { apply repr_object_ref in Hrepr as (s' & ps & Heq & Hs').
    injection Heq as Heq. apply lookup_lt_Some in Hs'. lia. }
  apply (repr_from_app _ _ X) in Hrepr.
  assert (forall ctl ts m sc,
            (heap_of ctl ts m sc ++ U ++ X) !! (13 + length U)
            = Some (OObj top_props)) as Htop.
  { intros. rewrite (lookup_above _ (U ++ X)) by reflexivity.
    rewrite lookup_app_r by lia. by rewrite Nat.sub_diag. }
  unfold merge, createAssigner, assignSources, cells. simpl truthy.
  cbv iota.
  change (length (heap_of (controller c) (testServer c) (mocks c) (scripts c)
                  ++ U ++ X))
    with (13 + length (U ++ X)).
  generalize (length (U ++ X)). intros fuel.
  change (S (13 + fuel)) with (S (S (S (S (S (9 + fuel)))))).
  generalize (9 + fuel). clear fuel. intros fuel.
  revert Hrepr Htop. generalize (U ++ X). intros R Hrepr Htop.
  unfold UserConfig_json in Hrepr.
  destruct c as [ctl ts m sc]. simpl controller. simpl testServer.
  simpl mocks. simpl scripts.
  destruct u as [[uc|] [ut|] [um|] [us|]]; repr_object Hrepr;
    repeat match goal with
      | H : repr_from _ _ _ ?v |- _ =>
          is_var v;
          let Hc := fresh "Hchild" in
          destruct (repr_object_ref _ _ _ _ H) as (? & ? & -> & Hc);
          revert Hc
      end;
    intros;
    (erewrite baseMerge_object; [| lia | exact Hl]); simpl fmap;
    repeat match goal with
      | H : repr_from _ _ (UserController_json _) _,
        Hc : _ !! _ = Some (OObj _) |- _ =>
          step_section Hl Htop Hc ltac:(eapply merge_controller; exact H);
          clear H
      | H : repr_from _ _ (UserTestServer_json _) _,
        Hc : _ !! _ = Some (OObj _) |- _ =>
          step_section Hl Htop Hc
            ltac:(eapply merge_testServer_cells; exact H);
          clear H
      | H : repr_from _ _ (UserGlobs_json _) _,
        Hc : _ !! _ = Some (OObj _) |- _ =>
          step_section Hl Htop Hc ltac:(eapply merge_mocks; exact H);
          clear H
      | H : repr_from _ _ (UserSources_json _) _,
        Hc : _ !! _ = Some (OObj _) |- _ =>
          step_section Hl Htop Hc ltac:(eapply merge_sources; exact H);
          clear H
      end;
    reflexivity.
Qed.

(** ** The derivation of the bundler configuration *)

Lemma bind_Ok {A B : Type} (a : A) (f : A -> result B) : (Ok a ≫= f) = f a.
Proof. reflexivity. Qed.

#[local] Arguments module_heap : simpl never.

Lemma module_heap_cells : module_heap = cells defaults.
Proof. reflexivity. Qed.

Lemma lookup_tail (D U X : list obj) (i : nat) :
  (D ++ U ++ X) !! (length D + length U + i) = X !! i.
Proof.
  rewrite lookup_app_r by lia. rewrite lookup_app_r by lia. f_equal. lia.
Qed.

Lemma repr_truthy (k : nat) (R : list obj) (j : json) (v : value) :
  repr_from k R j v -> truthy v = json_truthy j.
Proof.
  destruct j; simpl; try (by intros ->).
  - by intros (? & ? & -> & _).
  - by intros (? & ? & -> & _).
Qed.

Lemma repr_members_lookup (k : nat) (R : list obj) (key : string)
    (ms : list (string * json)) (ps : list (string * value)) :
  repr_members k R ms ps ->
  match lookup_member key ms with
  | Some j => exists v, lookup_prop key ps = Some v /\ repr_from k R j v
  | None => lookup_prop key ps = None
  end.
Proof.
  revert ps. induction ms as [|[key' j] ms IH]; intros [|[key'' v] ps];
    try done.
  intros (<- & Hv & Hps). simpl.
  destruct (String.eqb_spec key key') as [_|_]; [eauto|]. by apply IH.
Qed.

(** The heap after [JSON.parse(contents)] and the spread copy of the
    defaults: the user's tree [U] above the thirteen cells of the
    defaults, then the copy. *)
Lemma parse_and_copy (user : json) :
  exists userConfig U,
    alloc_json user module_heap = (userConfig, module_heap ++ U)
    /\ repr_from 13 U user userConfig
    /\ spread (module_heap ++ U) defaultConfig
       = Ok (VRef (13 + length U), module_heap ++ U ++ [OObj top_props]).
Proof.
  destruct (alloc_json_repr user module_heap []) as (uv & U & Halloc & Hrepr).
  change ([] ++ U) with U in *. rewrite app_nil_r in Halloc.
  exists uv, U. split; [done|]. split; [done|].
  unfold spread. change defaultConfig with (VRef 12). cbv iota beta.
  rewrite (lookup_app_l_Some _ _ _ (OObj top_props)) by reflexivity.
  unfold alloc. rewrite length_app. by rewrite <- (assoc_L (++)).
Qed.

Lemma alloc_members_repr (ms : list (string * json)) (D R : list obj) :
  exists ps ext,
    alloc_members ms (D ++ R) = (ps, D ++ (R ++ ext))
    /\ repr_members (length D) (R ++ ext) ms ps.
Proof.
  revert R. induction ms as [|[key j] ms IH]; intros R.
  - exists [], []. by rewrite app_nil_r.
  - destruct (alloc_json_repr j D R) as (v & e1 & Hv & Hrv).
    destruct (IH (R ++ e1)) as (ps & e2 & Hps & Hrps).
    exists ((key, v) :: ps), (e1 ++ e2). simpl. rewrite Hv, Hps.
    rewrite <- !(assoc_L (++)). split; [done|]. split; [done|].
    split; [|by rewrite <- (assoc_L (++)) in Hrps].
    rewrite (assoc_L (++)). by apply repr_from_app.
Qed.

Lemma get_at (h : list obj) (l : nat) (ps : list (string * value))
    (k : string) :
  h !! l = Some (OObj ps) ->
  get h (VRef l) k = Ok (default VUndef (lookup_prop k ps)).
Proof. intros Hl. unfold get. by rewrite Hl. Qed.

Lemma lookup_after_user (U X : list obj) (i : nat) :
  (module_heap ++ U ++ X) !! (13 + length U + i) = X !! i.
Proof. apply (lookup_tail module_heap U X i). Qed.

Lemma lookup_config (U X : list obj) :
  (module_heap ++ U ++ X) !! (13 + length U) = X !! 0.
Proof. rewrite <- (lookup_after_user U X 0). f_equal. lia. Qed.

Lemma alloc_after_user (o : obj) (U X : list obj) :
  alloc o (module_heap ++ U ++ X)
  = (VRef (13 + length U + length X), module_heap ++ U ++ (X ++ [o])).
Proof.
  unfold alloc. rewrite !length_app, <- !(assoc_L (++)).
  by rewrite (assoc_L Nat.add).
Qed.

(** Without a bundle text the bundler configuration is made up, and its
    [sources] is the very object [config.sources] (and
    [defaultConfig.sources]) refers to. *)
Lemma derive_synthesized (w : world) (contents : string)
    (bundleContents : value) (user : json) :
  JSON_parse w contents = Some user ->
  truthy bundleContents = false ->
  exists userConfig U,
    repr_from 13 U user userConfig
    /\ deriveBundlerConfig w contents bundleContents module_heap
       = Ok (userConfig, VRef (13 + length U), VRef (13 + length U + 2),
             module_heap ++ U
             ++ [OObj top_props; default_options;
                 OObj [("sources", VRef 11);
                       ("options", VRef (13 + length U + 1))]]).
Proof.
  intros Hparse Hfalsy.
  destruct (parse_and_copy user) as (uv & U & Halloc & Hrepr & Hspread).
  exists uv, U. split; [done|].
  unfold deriveBundlerConfig, parse. rewrite Hparse, bind_Ok, Halloc.
  cbv beta iota. rewrite Hspread, bind_Ok. cbv beta iota.
  rewrite Hfalsy. unfold synthesized.
  rewrite (get_at _ _ top_props) by (by rewrite lookup_config).
  rewrite bind_Ok. simpl default.
  rewrite (alloc_after_user _ U [OObj top_props]). cbv beta iota.
  cbn [app length].
  rewrite (alloc_after_user _ U [OObj top_props; _]). cbn [app length].
  rewrite bind_Ok. cbv beta iota.
  rewrite (get_at _ _ [("sources", VRef 11);
                       ("options", VRef (13 + length U + 1))])
    by (by rewrite lookup_after_user).
  rewrite bind_Ok. simpl default. simpl truthy. simpl negb. cbv iota.
  by rewrite bind_Ok.
Qed.

(** ** Reading the merged configuration back *)

Lemma mapM_option_cons {A B : Type} (f : A -> option B) (x : A) (l : list A) :
  mapM f (x :: l) = y ← f x; k ← mapM f l; Some (y :: k).
Proof. reflexivity. Qed.

Lemma mapM_option_nil {A B : Type} (f : A -> option B) :
  mapM f [] = Some [].
Proof. reflexivity. Qed.

Lemma snapshot_strings (n : nat) (h : list obj) (xs : list string) :
  mapM (snapshot n h) (VStr <$> xs) = Some (JStr <$> xs).
Proof.
  induction xs as [|x xs IH]; [done|].
  rewrite !fmap_cons, mapM_option_cons, IH. by destruct n.
Qed.

Lemma snapshot_obj (n : nat) (h : list obj) (l : nat)
    (ps : list (string * value)) :
  h !! l = Some (OObj ps) ->
  snapshot (S n) h (VRef l)
  = JObj <$> mapM (fun kv => pair kv.1 <$> snapshot n h kv.2) ps.
Proof. intros Hl. simpl. by rewrite Hl. Qed.

Lemma snapshot_strings_cell (n : nat) (h : list obj) (l : nat)
    (xs : list string) :
  h !! l = Some (strings_cell xs) ->
  snapshot (S n) h (VRef l) = Some (strings_json xs).
Proof.
  intros Hl.
  assert (snapshot (S n) h (VRef l)
          = JArr <$> mapM (snapshot n h) (VStr <$> xs)) as ->
    by (simpl; by rewrite Hl).
  by rewrite snapshot_strings.
Qed.

Lemma snapshot_Globs (n : nat) (h : list obj) (l i e : nat) (g : Globs) :
  h !! l = Some (Globs_cell i e) ->
  h !! i = Some (strings_cell (include g)) ->
  h !! e = Some (strings_cell (exclude g)) ->
  snapshot (S (S n)) h (VRef l) = Some (Globs_json g).
Proof.
  intros Hl Hi He. rewrite (snapshot_obj _ _ _ _ Hl). rewrite !mapM_option_cons, mapM_option_nil; cbv beta; cbn [fst snd].
  by rewrite (snapshot_strings_cell _ _ _ _ Hi),
    (snapshot_strings_cell _ _ _ _ He).
Qed.

Lemma snapshot_str (n : nat) (h : list obj) (s : string) :
  snapshot (S n) h (VStr s) = Some (JStr s).
Proof. reflexivity. Qed.

Lemma snapshot_num (n : nat) (h : list obj) (z : Z) :
  snapshot (S n) h (VNum z) = Some (JNum z).
Proof. reflexivity. Qed.

Lemma snapshot_bool (n : nat) (h : list obj) (b : bool) :
  snapshot (S n) h (VBool b) = Some (JBool b).
Proof. reflexivity. Qed.

Ltac snapshot_props :=
  rewrite ?mapM_option_cons, ?mapM_option_nil; cbv beta; cbn [fst snd];
  rewrite ?snapshot_str, ?snapshot_num, ?snapshot_bool.

Lemma snapshot_cells (n : nat) (c : CliConfig) (R : list obj) (l : nat) :
  (cells c ++ R) !! l = Some (OObj top_props) ->
  snapshot (S (S (S (S (S n))))) (cells c ++ R) (VRef l)
  = Some (CliConfig_json c).
Proof.
  intros Hl. rewrite (snapshot_obj _ _ _ _ Hl). unfold top_props.
  snapshot_props.
  erewrite (snapshot_obj _ (cells c ++ R) 2); [|reflexivity].
  snapshot_props.
  erewrite (snapshot_obj _ (cells c ++ R) 0); [|reflexivity].
  erewrite (snapshot_obj _ (cells c ++ R) 1); [|reflexivity].
  snapshot_props.
  erewrite (snapshot_Globs _ (cells c ++ R) 6 4 5 (mocks c));
    [|reflexivity..].
  erewrite (snapshot_obj _ (cells c ++ R) 11); [|reflexivity].
  snapshot_props.
  erewrite (snapshot_obj _ (cells c ++ R) 10); [|reflexivity].
  snapshot_props.
  erewrite (snapshot_Globs _ (cells c ++ R) 9 7 8 (scripts c));
    [|reflexivity..].
  erewrite (snapshot_obj _ (cells c ++ R) 3); [|reflexivity].
  clear Hl. destruct c as [ctl [thst tp te [tr|]] m sc];
    cbn [testServer restartThreshold server_host port
         defaultExecutionTimeout app];
    snapshot_props; simpl; reflexivity.
Qed.

Lemma tree_of_cells (c : CliConfig) (R : list obj) (l : nat) :
  (cells c ++ R) !! l = Some (OObj top_props) ->
  tree_of (cells c ++ R) (VRef l) = Some (CliConfig_json c).
Proof.
  intros Hl. unfold tree_of.
  replace (S (length (cells c ++ R)))
    with (S (S (S (S (S (9 + length R))))))
    by (rewrite length_app; reflexivity).
  exact (snapshot_cells _ c R l Hl).
Qed.

(** ** The merged configuration of a typed user configuration *)

(** With no bundle text: where [configure] ends. *)
Lemma configure_typed (w : world) (contents : string) (bundleContents : value)
    (u : UserConfig) :
  JSON_parse w contents = Some (UserConfig_json u) ->
  truthy bundleContents = false ->
  exists U,
    configure w contents bundleContents module_heap
    = Ok (VRef (13 + length U), VRef (13 + length U + 2),
          cells (apply_user defaults u) ++ U
          ++ [OObj top_props; default_options;
              OObj [("sources", VRef 11);
                    ("options", VRef (13 + length U + 1))]]).
Proof.
  intros Hparse Hfalsy.
  destruct (derive_synthesized w contents bundleContents _ Hparse Hfalsy)
    as (uv & U & Hrepr & Hderive).
  exists U. unfold configure. rewrite Hderive, bind_Ok. cbv beta iota.
  destruct (repr_object_ref _ _ _ _ Hrepr) as (s & ps & -> & _).
  rewrite module_heap_cells.
  rewrite (merge_user defaults u U _ s Hrepr) by reflexivity.
  by rewrite bind_Ok.
Qed.

(** ** A bundle file that holds a JSON object *)

Lemma insert_after_user (o : obj) (U X : list obj) (i : nat) :
  <[13 + length U + i := o]> (module_heap ++ U ++ X)
  = module_heap ++ U ++ <[i := o]> X.
Proof.
  change 13 with (length module_heap).
  rewrite <- (assoc_L Nat.add). rewrite insert_app_r. by rewrite insert_app_r.
Qed.

(** Lines 114-116 when the bundle's object has no truthy [sources]: a
    fresh empty object is stored as its [sources]. *)
Lemma sources_made (U X0 : list obj) (psb : list (string * value)) :
  X0 !! 0 = Some (OObj top_props) ->
  truthy (default VUndef (lookup_prop "sources" psb)) = false ->
  let bundlerConfig := VRef (13 + length U + length X0) in
  let h := module_heap ++ U ++ (X0 ++ [OObj psb]) in
  exists X,
    X !! 0 = Some (OObj top_props)
    /\ (let '(empty, h0) := alloc (OObj []) h in
        put h0 bundlerConfig "sources" empty) = Ok (module_heap ++ U ++ X)
    /\ get (module_heap ++ U ++ X) bundlerConfig "sources"
       = Ok (VRef (13 + length U + S (length X0)))
    /\ (module_heap ++ U ++ X) !! (13 + length U + S (length X0))
       = Some (OObj []).
Proof.
  intros Htop Hfalsy bundlerConfig h. subst bundlerConfig h.
  assert (0 < length X0) as Hlen by (by eapply lookup_lt_Some).
  set (empty := VRef (13 + length U + S (length X0))).
  exists (<[length X0 := OObj (set_prop "sources" empty psb)]>
            ((X0 ++ [OObj psb]) ++ [OObj []])).
  split.
  { rewrite list_lookup_insert_ne by lia.
    rewrite <- (assoc_L (++)). by apply lookup_app_l_Some. }
  split.
  { rewrite alloc_after_user. rewrite length_app. cbn [length].
    rewrite Nat.add_1_r. fold empty. unfold put.
    rewrite lookup_after_user.
    rewrite (lookup_app_l_Some _ _ _ (OObj psb))
      by (by apply list_lookup_middle).
    by rewrite insert_after_user. }
  split.
  { erewrite get_at.
    - by rewrite lookup_set_prop.
    - rewrite lookup_after_user. apply list_lookup_insert_eq.
      rewrite !length_app. simpl. lia. }
  rewrite lookup_after_user. rewrite list_lookup_insert_ne by lia.
  apply list_lookup_middle. rewrite length_app. simpl. lia.
Qed.

Lemma derive_bundle (w : world) (contents text : string) (user : json)
    (ms : list (string * json)) :
  JSON_parse w contents = Some user ->
  text <> "" ->
  JSON_parse w text = Some (JObj ms) ->
  exists userConfig U X bundlerConfig sources,
    repr_from 13 U user userConfig
    /\ X !! 0 = Some (OObj top_props)
    /\ deriveBundlerConfig w contents (VStr text) module_heap
       = Ok (userConfig, VRef (13 + length U), bundlerConfig,
             module_heap ++ U ++ X)
    /\ get (module_heap ++ U ++ X) bundlerConfig "sources" = Ok sources
    /\ truthy sources = true
    /\ match lookup_member "sources" ms with
       | Some j =>
           if json_truthy j then repr_from 13 (U ++ X) j sources
           else empty_object (module_heap ++ U ++ X) sources
       | None => empty_object (module_heap ++ U ++ X) sources
       end.
Proof.
  intros Hparse Hne Hbundle.
  destruct (parse_and_copy user) as (uv & U & Halloc & Hrepr & Hspread).
  destruct (alloc_members_repr ms module_heap (U ++ [OObj top_props]))
    as (psb & ext & Hmembers & Hreprs).
  rewrite <- (assoc_L (++)) in Hmembers, Hreprs.
  set (X0 := [OObj top_props] ++ ext) in *.
  assert (X0 !! 0 = Some (OObj top_props)) as Htop by done.
  assert (deriveBundlerConfig w contents (VStr text) module_heap
          = (let bundlerConfig := VRef (13 + length U + length X0) in
             let h := module_heap ++ U ++ (X0 ++ [OObj psb]) in
             sources ← get h bundlerConfig "sources";
             h ← (if negb (truthy sources) then
                    let '(empty, h) := alloc (OObj []) h in
                    put h bundlerConfig "sources" empty
                  else Ok h);
             Ok (uv, VRef (13 + length U), bundlerConfig, h))) as Hderive.
  { unfold deriveBundlerConfig, parse. rewrite Hparse, bind_Ok, Halloc.
    cbv beta iota. rewrite Hspread, bind_Ok. cbv beta iota.
    replace (truthy (VStr text)) with true
      by (simpl; destruct (String.eqb_spec text ""); done).
    rewrite Hbundle, bind_Ok, alloc_json_obj, Hmembers.
    by rewrite alloc_after_user, bind_Ok. }
  cbv zeta in Hderive.
  assert ((module_heap ++ U ++ X0 ++ [OObj psb])
            !! (13 + length U + length X0) = Some (OObj psb)) as Hcell.
  { rewrite lookup_after_user. by apply list_lookup_middle. }
  rewrite (get_at _ _ _ _ Hcell), bind_Ok in Hderive.
  pose proof (repr_members_lookup _ _ "sources" _ _ Hreprs) as Hlookup.
  destruct (truthy (default VUndef (lookup_prop "sources" psb))) eqn:Htruthy.
  - (* the bundle's own [sources] stays *)
    exists uv, U, (X0 ++ [OObj psb]), (VRef (13 + length U + length X0)),
      (default VUndef (lookup_prop "sources" psb)).
    split; [done|]. split; [by apply lookup_app_l_Some|].
    split; [by rewrite Hderive|]. split; [by apply get_at|].
    split; [done|].
    destruct (lookup_member "sources" ms) as [j|].
    + destruct Hlookup as (v & Hv & Hj). rewrite Hv in Htruthy |- *.
      change (default VUndef (Some v)) with v in *. rewrite <- (repr_truthy _ _ _ _ Hj), Htruthy.
      rewrite (assoc_L (++)). by apply repr_from_app.
    + by rewrite Hlookup in Htruthy.
  - (* a fresh empty object takes its place *)
    destruct (sources_made U X0 psb Htop Htruthy)
      as (X & HX & Hput & Hget & Hempty).
    exists uv, U, X, (VRef (13 + length U + length X0)),
      (VRef (13 + length U + S (length X0))).
    split; [done|]. split; [done|].
    split; [by rewrite Hderive; simpl negb; cbv iota; rewrite Hput|].
    split; [done|]. split; [done|].
    assert (empty_object (module_heap ++ U ++ X)
              (VRef (13 + length U + S (length X0)))) as Hobj
      by (eexists; eauto).
    destruct (lookup_member "sources" ms) as [j|]; [|done].
    destruct Hlookup as (v & Hv & Hj). rewrite Hv in Htruthy.
    change (default VUndef (Some v)) with v in Htruthy.
    by rewrite <- (repr_truthy _ _ _ _ Hj), Htruthy.
Qed.

(** ** The concatenating merge of source sets *)

(** Cells added after [h]. *)
Lemma lookup_added (h T : list obj) (i : nat) :
  (h ++ T) !! (length h + i) = T !! i.
Proof. rewrite lookup_app_r by lia. f_equal. lia. Qed.

Lemma lookup_added_0 (h T : list obj) : (h ++ T) !! (length h) = T !! 0.
Proof. rewrite <- (lookup_added h T 0). f_equal. lia. Qed.

Lemma insert_added_0 (h T : list obj) (o : obj) :
  <[length h := o]> (h ++ T) = h ++ <[0 := o]> T.
Proof.
  replace (length h) with (length h + 0) at 1 by lia. apply insert_app_r.
Qed.

Lemma length_added (h T : list obj) : length (h ++ T) = length h + length T.
Proof. apply length_app. Qed.

Lemma customize_concat_scalar (h : list obj) (objValue srcValue : value) :
  isArray h objValue = false ->
  customize (Some concatArrays) h objValue srcValue = (VUndef, h).
Proof.
  intros Harr. unfold customize, concatArrays.
  destruct objValue; try done. by rewrite Harr.
Qed.

Lemma customize_concat_arrays (h : list obj) (dv sv : nat)
    (xs ys : list value) :
  h !! dv = Some (OArr xs) -> h !! sv = Some (OArr ys) ->
  customize (Some concatArrays) h (VRef dv) (VRef sv)
  = (VRef (length h), h ++ [OArr (xs ++ ys)]).
Proof.
  intros Hd Hs. unfold customize, concatArrays, isArray, Array_concat.
  by rewrite Hd, Hs.
Qed.

(** The source holds an array of scalars under a key the destination does
    not have yet: the array is copied into a fresh one. *)
Lemma mergeKey_copy_array (n : nat) (d s : nat) (h : list obj)
    (ps pd : list (string * value)) (k : string) (sv : nat)
    (ys : list value) :
  h !! s = Some (OObj ps) -> h !! d = Some (OObj pd) ->
  lookup_prop k ps = Some (VRef sv) -> lookup_prop k pd = None ->
  h !! sv = Some (OArr ys) -> Forall (fun v => scalar v = true) ys ->
  mergeKey (baseMerge (S n) (Some concatArrays)) (Some concatArrays) d s
    (KProp k) h
  = Ok (<[d := OObj (set_prop k (VRef (length h)) pd)]> (h ++ [OArr ys])).
Proof.
  intros Hs Hd Hks Hkd Hsv Hys.
  assert (d < length h) as Hdlt by (by eapply lookup_lt_Some).
  assert (sv < length h) as Hsvlt by (by eapply lookup_lt_Some).
  unfold mergeKey. cbv zeta.
  rewrite (safeGet_prop _ _ _ _ Hs), Hks. simpl default. simpl isObject.
  cbv iota. unfold baseMergeDeep. cbv zeta.
  rewrite (safeGet_prop _ _ _ _ Hs), (safeGet_prop _ _ _ _ Hd), Hks, Hkd.
  simpl default. rewrite customize_concat_scalar by done.
  simpl is_undef. cbv iota. rewrite Hsv. simpl isArray.
  simpl isArrayLikeObject. cbv iota. unfold alloc.
  assert (<[length h := OArr (overlay ys [])]> (h ++ [OArr []])
          = h ++ [OArr ys]) as Hcopy.
  { replace (length h) with (length h + 0) at 1 by lia.
    rewrite insert_app_r. simpl. unfold overlay.
    by rewrite drop_nil, app_nil_r. }
  rewrite (baseMerge_items n _ (length h) sv _ [] ys).
  - rewrite bind_Ok, Hcopy.
    apply assignMergeValue_prop; [|done]. by apply lookup_app_l_Some.
  - apply passes_scalars_concatArrays.
  - lia.
  - by apply lookup_app_l_Some.
  - by apply list_lookup_middle.
  - done.
  - done.
Qed.

(** Both hold an array under the key: the customizer answers their
    concatenation, a new array, and it replaces the destination's. *)
Lemma mergeKey_concat (mf : nat -> nat -> list obj -> result (list obj))
    (d s : nat) (h : list obj) (ps pd : list (string * value)) (k : string)
    (sv dv : nat) (xs ys : list value) :
  h !! s = Some (OObj ps) -> h !! d = Some (OObj pd) ->
  lookup_prop k ps = Some (VRef sv) -> lookup_prop k pd = Some (VRef dv) ->
  h !! sv = Some (OArr ys) -> h !! dv = Some (OArr xs) ->
  mergeKey mf (Some concatArrays) d s (KProp k) h
  = Ok (<[d := OObj (set_prop k (VRef (length h)) pd)]>
          (h ++ [OArr (xs ++ ys)])).
Proof.
  intros Hs Hd Hks Hkd Hsv Hdv.
  unfold mergeKey. cbv zeta.
  rewrite (safeGet_prop _ _ _ _ Hs), Hks. simpl default. simpl isObject.
  cbv iota. unfold baseMergeDeep. cbv zeta.
  rewrite (safeGet_prop _ _ _ _ Hs), (safeGet_prop _ _ _ _ Hd), Hks, Hkd.
  simpl default. rewrite (customize_concat_arrays _ _ _ _ _ Hdv Hsv).
  simpl is_undef. cbv iota.
  apply assignMergeValue_prop; [|done]. by apply lookup_app_l_Some.
Qed.

(** The source holds an object under a key the destination does not have
    yet: it is merged into a fresh [{}]. *)
Lemma mergeKey_copy_object (mf : nat -> nat -> list obj -> result (list obj))
    (d s : nat) (h h' : list obj) (ps pd ps' : list (string * value))
    (k : string) (sv : nat) :
  h !! s = Some (OObj ps) -> h !! d = Some (OObj pd) ->
  lookup_prop k ps = Some (VRef sv) -> lookup_prop k pd = None ->
  h !! sv = Some (OObj ps') ->
  mf (length h) sv (h ++ [OObj []]) = Ok h' -> h' !! d = Some (OObj pd) ->
  mergeKey mf (Some concatArrays) d s (KProp k) h
  = Ok (<[d := OObj (set_prop k (VRef (length h)) pd)]> h').
Proof.
  intros Hs Hd Hks Hkd Hsv Hmf Hd'.
  unfold mergeKey. cbv zeta.
  rewrite (safeGet_prop _ _ _ _ Hs), Hks. simpl default. simpl isObject.
  cbv iota. unfold baseMergeDeep. cbv zeta.
  rewrite (safeGet_prop _ _ _ _ Hs), (safeGet_prop _ _ _ _ Hd), Hks, Hkd.
  simpl default. rewrite customize_concat_scalar by done.
  simpl is_undef. cbv iota. rewrite Hsv. unfold alloc.
  rewrite Hmf, bind_Ok. by apply assignMergeValue_prop.
Qed.

(** Both hold an object under the key: the source's is merged into the
    destination's. *)
Lemma mergeKey_into_object (mf : nat -> nat -> list obj -> result (list obj))
    (d s : nat) (h h' : list obj) (ps pd ps' pd' : list (string * value))
    (k : string) (sv dv : nat) :
  h !! s = Some (OObj ps) -> h !! d = Some (OObj pd) ->
  lookup_prop k ps = Some (VRef sv) -> lookup_prop k pd = Some (VRef dv) ->
  h !! sv = Some (OObj ps') -> h !! dv = Some (OObj pd') ->
  mf dv sv h = Ok h' -> h' !! d = Some (OObj pd) ->
  mergeKey mf (Some concatArrays) d s (KProp k) h = Ok h'.
Proof.
  intros Hs Hd Hks Hkd Hsv Hdv Hmf Hd'.
  unfold mergeKey. cbv zeta.
  rewrite (safeGet_prop _ _ _ _ Hs), Hks. simpl default. simpl isObject.
  cbv iota. unfold baseMergeDeep. cbv zeta.
  rewrite (safeGet_prop _ _ _ _ Hs), (safeGet_prop _ _ _ _ Hd), Hks, Hkd.
  simpl default.
  rewrite customize_concat_scalar by (unfold isArray; by rewrite Hdv).
  simpl is_undef. cbv iota. rewrite Hsv, Hmf, bind_Ok.
  by apply (assignMergeValue_same _ _ pd).
Qed.

(** The first source set being copied into the fresh [{}], the second
    one's arrays are concatenated onto the copies. *)
Lemma baseMerge_copy_set (n : nat) (h T : list obj) (d a ai ae : nat)
    (xi xe : list string) :
  h !! a = Some (Globs_cell ai ae) ->
  h !! ai = Some (strings_cell xi) -> h !! ae = Some (strings_cell xe) ->
  T !! d = Some (OObj []) ->
  baseMerge (S (S n)) (Some concatArrays) (length h + d) a (h ++ T)
  = Ok (h ++ <[d := Globs_cell (length h + length T)
                      (length h + S (length T))]> T
          ++ [strings_cell xi; strings_cell xe]).
Proof.
  intros Ha Hai Hae Hd.
  assert (a < length h) by (by eapply lookup_lt_Some).
  assert (d < length T) as HdT by (by eapply lookup_lt_Some).
  erewrite baseMerge_object;
    [| lia | apply lookup_app_l_Some; exact Ha]. simpl fmap.
  erewrite baseFor_cons;
    [| eapply mergeKey_copy_array;
       [ apply lookup_app_l_Some; exact Ha | rewrite lookup_added; exact Hd
       | reflexivity | reflexivity | apply lookup_app_l_Some; exact Hai
       | apply strings_scalar ] ].
  rewrite <- (assoc_L (++)), insert_app_r, length_added.
  erewrite baseFor_cons;
    [| eapply mergeKey_copy_array;
       [ apply lookup_app_l_Some; exact Ha
       | rewrite lookup_added; apply list_lookup_insert_eq;
         rewrite length_app; simpl; lia
       | reflexivity | reflexivity | apply lookup_app_l_Some; exact Hae
       | apply strings_scalar ] ].
  simpl baseFor.
  rewrite <- (assoc_L (++)), insert_app_r, length_added, length_insert,
    length_app.
  cbn [length]. rewrite Nat.add_1_r.
  rewrite insert_app_l by (rewrite length_insert, length_app; lia).
  rewrite list_insert_insert_eq.
  rewrite insert_app_l by lia.
  rewrite <- !(assoc_L (++)). reflexivity.
Qed.

Lemma baseMerge_concat_set (n : nat) (h : list obj) (d b bi be di de : nat)
    (xi xe yi ye : list string) :
  d <> b ->
  h !! b = Some (Globs_cell bi be) ->
  h !! bi = Some (strings_cell yi) -> h !! be = Some (strings_cell ye) ->
  h !! d = Some (Globs_cell di de) ->
  h !! di = Some (strings_cell xi) -> h !! de = Some (strings_cell xe) ->
  baseMerge (S n) (Some concatArrays) d b h
  = Ok (<[d := Globs_cell (length h) (S (length h))]>
          (h ++ [strings_cell (xi ++ yi); strings_cell (xe ++ ye)])).
Proof.
  intros Hne Hb Hbi Hbe Hd Hdi Hde.
  assert (d < length h) by (by eapply lookup_lt_Some).
  assert (d <> be) by (intros ->; rewrite Hd in Hbe; discriminate).
  assert (d <> de) by (intros ->; rewrite Hd in Hde; discriminate).
  erewrite baseMerge_object; [| done | exact Hb]. simpl fmap.
  erewrite baseFor_cons;
    [| eapply mergeKey_concat;
       [ exact Hb | exact Hd | reflexivity | reflexivity | exact Hbi
       | exact Hdi ] ].
  erewrite baseFor_cons;
    [| eapply mergeKey_concat;
       [ rewrite list_lookup_insert_ne by done;
         apply lookup_app_l_Some; exact Hb
       | apply list_lookup_insert_eq; rewrite length_app; lia
       | reflexivity | reflexivity
       | rewrite list_lookup_insert_ne by done;
         apply lookup_app_l_Some; exact Hbe
       | rewrite list_lookup_insert_ne by done;
         apply lookup_app_l_Some; exact Hde ] ].
  simpl baseFor. rewrite length_insert, length_app. cbn [length].
  rewrite Nat.add_1_r.
  rewrite insert_app_l by (rewrite length_insert, length_app; lia).
  rewrite list_insert_insert_eq.
  rewrite !insert_app_l by lia. rewrite <- (assoc_L (++)).
  unfold strings_cell. by rewrite !fmap_app.
Qed.

(** What [mergeWith] does with two source sets [A] and [B] and a fresh
    destination: the cells it adds. *)
Lemma mergeWith_sets (h : list obj) (a b ai ae bi be : nat)
    (xi xe yi ye : list string) :
  h !! a = Some (Globs_cell ai ae) ->
  h !! ai = Some (strings_cell xi) -> h !! ae = Some (strings_cell xe) ->
  h !! b = Some (Globs_cell bi be) ->
  h !! bi = Some (strings_cell yi) -> h !! be = Some (strings_cell ye) ->
  mergeWith concatArrays (VRef (length h)) [VRef a; VRef b] (h ++ [OObj []])
  = Ok (h ++ [Globs_cell (length h + 3) (length h + 4);
              strings_cell xi; strings_cell xe;
              strings_cell (xi ++ yi); strings_cell (xe ++ ye)]).
Proof.
  intros Ha Hai Hae Hb Hbi Hbe.
  assert (b < length h) by (by eapply lookup_lt_Some).
  unfold mergeWith, createAssigner, assignSources. simpl truthy. cbv iota.
  rewrite length_app. cbn [length]. rewrite Nat.add_1_r.
  replace (length h) with (length h + 0) at 2 by lia.
  rewrite (baseMerge_copy_set _ h [OObj []] 0 a ai ae xi xe) by done.
  rewrite bind_Ok. cbn [length list_insert insert app].
  erewrite (baseMerge_concat_set _ _ (length h) b bi be
              (length h + 1) (length h + 2) xi xe yi ye).
  - rewrite bind_Ok. rewrite !length_app. cbn [length].
    replace (length h) with (length h + 0) at 1 by lia.
    rewrite <- (assoc_L (++)), insert_app_r. cbn [list_insert insert app].
    replace (S (length h + 3)) with (length h + 4) by lia. done.
  - lia.
  - by apply lookup_app_l_Some.
  - by apply lookup_app_l_Some.
  - by apply lookup_app_l_Some.
  - rewrite lookup_added_0. reflexivity.
  - by rewrite lookup_added.
  - by rewrite lookup_added.
Qed.

(** The same one level up, for the [global] objects the driver merges:
    each holds the source set under [scripts]. *)
Lemma mergeWith_globals (h : list obj) (ga sa ai ae gb sb bi be : nat)
    (xi xe yi ye : list string) :
  h !! ga = Some (OObj [("scripts", VRef sa)]) ->
  h !! sa = Some (Globs_cell ai ae) ->
  h !! ai = Some (strings_cell xi) -> h !! ae = Some (strings_cell xe) ->
  h !! gb = Some (OObj [("scripts", VRef sb)]) ->
  h !! sb = Some (Globs_cell bi be) ->
  h !! bi = Some (strings_cell yi) -> h !! be = Some (strings_cell ye) ->
  mergeWith concatArrays (VRef (length h)) [VRef ga; VRef gb]
    (h ++ [OObj []])
  = Ok (h ++ [OObj [("scripts", VRef (length h + 1))];
              Globs_cell (length h + 4) (length h + 5);
              strings_cell xi; strings_cell xe;
              strings_cell (xi ++ yi); strings_cell (xe ++ ye)]).
Proof.
  intros Hga Hsa Hai Hae Hgb Hsb Hbi Hbe.
  assert (ga < length h) by (by eapply lookup_lt_Some).
  assert (gb < length h) by (by eapply lookup_lt_Some).
  assert (sb < length h) by (by eapply lookup_lt_Some).
  unfold mergeWith, createAssigner, assignSources. simpl truthy. cbv iota.
  rewrite length_app. cbn [length]. rewrite Nat.add_1_r.
  replace (S (S (length h))) with (S (S (S (length h - 1)))) by lia.
  (* the first source: a copy *)
  erewrite baseMerge_object; [| lia | apply lookup_app_l_Some; exact Hga].
  simpl fmap.
  erewrite baseFor_cons;
    [| eapply mergeKey_copy_object;
       [ apply lookup_app_l_Some; exact Hga
       | rewrite lookup_added_0; reflexivity
       | reflexivity | reflexivity
       | apply lookup_app_l_Some; exact Hsa
       | rewrite <- (assoc_L (++)), length_app; cbn [length app];
         apply (baseMerge_copy_set _ h [OObj []; OObj []] 1 sa ai ae xi xe);
         [exact Hsa | exact Hai | exact Hae | reflexivity]
       | rewrite lookup_added_0; reflexivity ] ].
  simpl baseFor. rewrite bind_Ok.
  rewrite insert_added_0, length_app.
  cbn [length list_insert insert app set_prop].
  (* the second source: concatenation *)
  rewrite length_app. cbn [length].
  replace (S (length h + 4)) with (S (S (length h + 3))) by lia.
  erewrite baseMerge_object; [| lia | apply lookup_app_l_Some; exact Hgb].
  simpl fmap.
  erewrite baseFor_cons;
    [| eapply mergeKey_into_object;
       [ apply lookup_app_l_Some; exact Hgb
       | rewrite lookup_added_0; reflexivity
       | reflexivity | reflexivity
       | apply lookup_app_l_Some; exact Hsb
       | rewrite (lookup_added h _ 1); reflexivity
       | eapply (baseMerge_concat_set _ _ (length h + 1) sb bi be
                   (length h + 2) (length h + 3) xi xe yi ye);
         [ lia | by apply lookup_app_l_Some | by apply lookup_app_l_Some
         | by apply lookup_app_l_Some | by rewrite lookup_added
         | by rewrite lookup_added | by rewrite lookup_added ]
       | rewrite list_lookup_insert_ne by lia;
         rewrite <- (assoc_L (++)), lookup_added_0; reflexivity ] ].
  simpl baseFor. rewrite bind_Ok.
  rewrite <- (assoc_L (++)), insert_app_r, length_app.
  cbn [length list_insert insert app].
  replace (S (length h + 4)) with (length h + 5) by lia.
  by replace (S (length h)) with (length h + 1) by lia.
Qed.

(** ** The claims about the configuration pipeline *)

Lemma lookup_cells_config (c : CliConfig) (U X : list obj) :
  X !! 0 = Some (OObj top_props) ->
  (cells c ++ U ++ X) !! (13 + length U) = Some (OObj top_props).
Proof.
  intros HX. rewrite <- HX. rewrite <- (lookup_tail (cells c) U X 0).
  f_equal. simpl. lia.
Qed.

(** Where [configure] ends for a typed user configuration, with or
    without a bundle file. *)
Lemma configure_merged (w : world) (contents : string)
    (bundleContents : value) (u : UserConfig) :
  JSON_parse w contents = Some (UserConfig_json u) ->
  no_bundle_or_object w bundleContents ->
  exists U X bundlerConfig,
    X !! 0 = Some (OObj top_props)
    /\ configure w contents bundleContents module_heap
       = Ok (VRef (13 + length U), bundlerConfig,
             cells (apply_user defaults u) ++ U ++ X).
Proof.
  intros Hparse [Hfalsy | (text & ms & -> & Hne & Hbundle)].
  - destruct (configure_typed w contents bundleContents u Hparse Hfalsy)
      as (U & Hconfigure).
    eexists U, _, _. split; [|exact Hconfigure]. reflexivity.
  - destruct (derive_bundle w contents text _ ms Hparse Hne Hbundle)
      as (uv & U & X & bc & sources & Hrepr & HX & Hderive & _).
    exists U, X, bc. split; [done|].
    unfold configure. rewrite Hderive, bind_Ok. cbv beta iota.
    destruct (repr_object_ref _ _ _ _ Hrepr) as (s & ps & -> & _).
    rewrite module_heap_cells.
    rewrite (merge_user defaults u U X s Hrepr HX). by rewrite bind_Ok.
Qed.

Lemma strings_json_inj (xs ys : list string) :
  JStr <$> xs = JStr <$> ys -> xs = ys.
Proof.
  revert ys.
  induction xs as [|x xs IH]; intros [|y ys]; try done.
  rewrite !fmap_cons. intros [= -> H]. f_equal. by apply IH.
Qed.

Lemma CliConfig_json_inj (a b : CliConfig) :
  CliConfig_json a = CliConfig_json b -> a = b.
Proof.
  destruct a as [[h1 p1 [d1 v1 s1]] [th1 tp1 te1 tr1] [mi1 me1] [si1 se1]].
  destruct b as [[h2 p2 [d2 v2 s2]] [th2 tp2 te2 tr2] [mi2 me2] [si2 se2]].
  unfold CliConfig_json, Globs_json. simpl.
  intros [= -> -> -> -> -> -> -> -> Ht Hmi Hme Hsi Hse].
  apply strings_json_inj in Hmi as ->. apply strings_json_inj in Hme as ->.
  apply strings_json_inj in Hsi as ->. apply strings_json_inj in Hse as ->.
  destruct tr1, tr2; simpl in Ht; by simplify_eq.
Qed.

(** C5, as the code has it: for every user configuration of the
    interface, merged onto the defaults with or without a bundle file,
    [config] is a complete configuration (a JSON tree: no field is
    [undefined]) in which a scalar present in the user configuration
    replaces the default, an array present in it replaces the default's
    elements position by position ([overlay]: the default's elements
    beyond its length stay), and every absent field keeps its default. *)
Theorem merged_configuration (w : world) (contents : string)
    (bundleContents : value) (u : UserConfig) :
  JSON_parse w contents = Some (UserConfig_json u) ->
  no_bundle_or_object w bundleContents ->
  exists config bundlerConfig h,
    configure w contents bundleContents module_heap
      = Ok (config, bundlerConfig, h)
    /\ tree_of h config = Some (CliConfig_json (apply_user defaults u)).
Proof.
  intros Hparse Hbundle.
  destruct (configure_merged w contents bundleContents u Hparse Hbundle)
    as (U & X & bc & HX & Hconfigure).
  eexists _, _, _. split; [exact Hconfigure|].
  apply tree_of_cells. by apply lookup_cells_config.
Qed.

(** C10: [config] is a copy of [defaultConfig] one level deep, a distinct
    object whose every property is the property of [defaultConfig], the
    same value.  After the merge the [defaultConfig] constant itself
    reads as the merged configuration; whenever that differs from the
    defaults, the constant has changed. *)
Theorem defaults_are_mutated (w : world) (contents : string)
    (bundleContents : value) (u : UserConfig) :
  JSON_parse w contents = Some (UserConfig_json u) ->
  no_bundle_or_object w bundleContents ->
  exists config bundlerConfig h,
    configure w contents bundleContents module_heap
      = Ok (config, bundlerConfig, h)
    /\ config <> defaultConfig
    /\ (forall k, get h config k = get h defaultConfig k)
    /\ tree_of module_heap defaultConfig = Some (CliConfig_json defaults)
    /\ tree_of h defaultConfig
       = Some (CliConfig_json (apply_user defaults u))
    /\ (apply_user defaults u <> defaults ->
        tree_of h defaultConfig <> tree_of module_heap defaultConfig).
Proof.
  intros Hparse Hbundle.
  destruct (configure_merged w contents bundleContents u Hparse Hbundle)
    as (U & X & bc & HX & Hconfigure).
  eexists _, _, _. split; [exact Hconfigure|].
  assert (tree_of (cells (apply_user defaults u) ++ U ++ X) defaultConfig
          = Some (CliConfig_json (apply_user defaults u))) as Hafter
    by (by apply tree_of_cells).
  assert (tree_of module_heap defaultConfig = Some (CliConfig_json defaults))
    as Hbefore by reflexivity.
  split; [|split; [|split; [|split]]].
  - change defaultConfig with (VRef 12). intros Heq. injection Heq. lia.
  - intros k. rewrite (get_at _ _ top_props)
      by (by apply lookup_cells_config).
    change defaultConfig with (VRef 12).
    by rewrite (get_at _ 12 top_props) by reflexivity.
  - exact Hbefore.
  - exact Hafter.
  - intros Hchanged. rewrite Hafter, Hbefore. intros Heq.
    apply Hchanged, CliConfig_json_inj. congruence.
Qed.

(** C6, as the code has it: whenever the derivation completes (there is
    no bundle text, or the bundle text is a JSON object) the bundler
    configuration's [sources] is truthy, hence never [undefined].  With no
    bundle text it is the very object [config.sources] refers to; with a
    bundle object that has no [sources], or a falsy one, it is a fresh
    empty object; otherwise it is the value the bundle file gives, object
    or not. *)
Theorem bundler_sources_defined (w : world) (contents : string)
    (bundleContents : value) (user : json) :
  JSON_parse w contents = Some user ->
  no_bundle_or_object w bundleContents ->
  exists userConfig config bundlerConfig h sources,
    deriveBundlerConfig w contents bundleContents module_heap
      = Ok (userConfig, config, bundlerConfig, h)
    /\ get h bundlerConfig "sources" = Ok sources
    /\ truthy sources = true
    /\ (truthy bundleContents = false ->
        get h config "sources" = Ok sources /\ plain_object h sources)
    /\ (forall text ms,
          bundleContents = VStr text -> text <> "" ->
          JSON_parse w text = Some (JObj ms) ->
          match lookup_member "sources" ms with
          | Some j =>
              if json_truthy j
              then exists R, h = module_heap ++ R /\ repr_from 13 R j sources
              else empty_object h sources
          | None => empty_object h sources
          end).
Proof.
  intros Hparse [Hfalsy | (text & ms & -> & Hne & Hbundle)].
  - destruct (derive_synthesized w contents bundleContents user Hparse Hfalsy)
      as (uv & U & Hrepr & Hderive).
    eexists _, _, _, _, (VRef 11). split; [exact Hderive|].
    split; [by erewrite get_at by (by rewrite lookup_after_user)|].
    split; [done|]. split.
    + intros _. split.
      * by rewrite (get_at _ _ top_props) by (by rewrite lookup_config).
      * by exists 11, [("global", VRef 10)].
    + intros text ms -> Hne. simpl in Hfalsy.
      by destruct (String.eqb_spec text "").
  - destruct (derive_bundle w contents text user ms Hparse Hne Hbundle)
      as (uv & U & X & bc & sources & Hrepr & HX & Hderive & Hget & Htruthy
          & Hsources).
    eexists _, _, _, _, sources. split; [exact Hderive|].
    split; [done|]. split; [done|]. split.
    + simpl. by destruct (String.eqb_spec text "").
    + intros text' ms' [= <-] _ Hbundle'.
      rewrite Hbundle in Hbundle'. injection Hbundle' as <-.
      destruct (lookup_member "sources" ms) as [j|]; [|done].
      destruct (json_truthy j); [|done]. by exists (U ++ X).
Qed.

Lemma holds_Globs_app (h T : list obj) (v : value) (g : Globs) :
  holds_Globs h v g -> holds_Globs (h ++ T) v g.
Proof.
  intros (l & i & e & -> & Hl & Hi & He).
  exists l, i, e. repeat split; by apply lookup_app_l_Some.
Qed.

(** C4: for any two source sets [A] and [B] in the heap, the
    concatenating merge of [A] then [B] into a fresh object yields a
    source set whose [include] is [A]'s followed by [B]'s, of length the
    sum of the two lengths, and likewise for [exclude]; [A] and [B] are
    left as they were. *)
Theorem concat_merge_of_source_sets (h : list obj) (a b : value)
    (A B : Globs) :
  holds_Globs h a A -> holds_Globs h b B ->
  exists merged h0 h',
    alloc (OObj []) h = (merged, h0)
    /\ mergeWith concatArrays merged [a; b] h0 = Ok h'
    /\ holds_Globs h' merged (concat_Globs A B)
    /\ tree_of h' merged = Some (Globs_json (concat_Globs A B))
    /\ length (include (concat_Globs A B))
       = length (include A) + length (include B)
    /\ length (exclude (concat_Globs A B))
       = length (exclude A) + length (exclude B)
    /\ holds_Globs h' a A /\ holds_Globs h' b B.
Proof.
  intros HA HB.
  pose proof HA as (la & ai & ae & -> & Hla & Hai & Hae).
  pose proof HB as (lb & bi & be & -> & Hlb & Hbi & Hbe).
  eexists _, _, _. split; [reflexivity|].
  split; [by apply (mergeWith_sets h la lb ai ae bi be)|].
  assert (holds_Globs
            (h ++ [Globs_cell (length h + 3) (length h + 4);
                   strings_cell (include A); strings_cell (exclude A);
                   strings_cell (include A ++ include B);
                   strings_cell (exclude A ++ exclude B)])
            (VRef (length h)) (concat_Globs A B)) as Hmerged.
  { exists (length h), (length h + 3), (length h + 4).
    split; [done|]. split; [by rewrite lookup_added_0|].
    split; by rewrite lookup_added. }
  split; [exact Hmerged|]. split.
  - destruct Hmerged as (l & i & e & [= <-] & Hl & Hi & He).
    unfold tree_of. rewrite length_app. cbn [length].
    replace (S (length h + 5)) with (S (S (length h + 4))) by lia.
    by apply (snapshot_Globs _ _ _ i e).
  - unfold concat_Globs. simpl. rewrite !length_app.
    repeat split; by apply holds_Globs_app.
Qed.

(** ** Without a bundle file *)

Lemma prog_bind_lift {A B : Type} (a : A) (f : A -> prog B) :
  (lift (Ok a) ≫= f) = f a.
Proof. unfold lift, mbind, prog_bind. simpl. by destruct (f a). Qed.

Lemma lookup_cells_after (c : CliConfig) (U X : list obj) (i : nat) :
  (cells c ++ U ++ X) !! (13 + length U + i) = X !! i.
Proof. apply (lookup_tail (cells c) U X i). Qed.

(** The source-set merge when the bundler configuration was made up: both
    sources are the one [global] object of the defaults, and the merged
    copy replaces it there. *)
Lemma mergeSources_aliased (c : CliConfig) (U X : list obj) :
  X !! 0 = Some (OObj top_props) ->
  X !! 2 = Some (OObj [("sources", VRef 11);
                       ("options", VRef (13 + length U + 1))]) ->
  let h := cells c ++ U ++ X in
  mergeSources (VRef (13 + length U)) (VRef (13 + length U + 2)) h
  = Ok (<[11 := OObj [("global", VRef (length h))]]>
          (h ++ [OObj [("scripts", VRef (length h + 1))];
                 Globs_cell (length h + 4) (length h + 5);
                 strings_cell (include (scripts c));
                 strings_cell (exclude (scripts c));
                 strings_cell (include (scripts c) ++ include (scripts c));
                 strings_cell (exclude (scripts c) ++ exclude (scripts c))])).
Proof.
  intros H0 H2 h.
  assert (h !! (13 + length U) = Some (OObj top_props)) as Hconfig
    by (by apply lookup_cells_config).
  assert (h !! (13 + length U + 2)
          = Some (OObj [("sources", VRef 11);
                        ("options", VRef (13 + length U + 1))])) as Hbundler
    by (unfold h; by rewrite lookup_cells_after).
  assert (h !! 11 = Some (OObj [("global", VRef 10)])) as H11 by reflexivity.
  unfold mergeSources, alloc.
  rewrite (get_at _ _ _ _ (lookup_app_l_Some _ _ _ _ Hbundler)), bind_Ok.
  simpl default.
  rewrite (get_at _ _ _ _ (lookup_app_l_Some _ _ _ _ H11)), bind_Ok.
  simpl default.
  rewrite (get_at _ _ _ _ (lookup_app_l_Some _ _ _ _ Hconfig)), bind_Ok.
  simpl default.
  rewrite (get_at _ _ _ _ (lookup_app_l_Some _ _ _ _ H11)), bind_Ok.
  simpl default.
  rewrite (mergeWith_globals h 10 9 7 8 10 9 7 8
             (include (scripts c)) (exclude (scripts c))
             (include (scripts c)) (exclude (scripts c)))
    by reflexivity.
  rewrite bind_Ok.
  rewrite (get_at _ _ _ _ (lookup_app_l_Some _ _ _ _ Hbundler)), bind_Ok.
  simpl default. unfold put.
  by rewrite (lookup_app_l_Some _ _ _ _ H11).
Qed.

(** C3: with no bundle file, [bundlerConfig.sources] is the object
    [config.sources] (and [defaultConfig.sources]) refers to, not a copy.
    The source-set merge therefore concatenates the global source set
    with itself: for every user configuration, each of the merged include
    and exclude lists appears twice over in
    [bundlerConfig.sources.global]. *)
Theorem no_bundle_doubles_sources (w : world) (contents : string)
    (bundleContents : value) (u : UserConfig) :
  JSON_parse w contents = Some (UserConfig_json u) ->
  truthy bundleContents = false ->
  exists events config bundlerConfig h sources,
    resolve w contents bundleContents module_heap
      = (events, Ok (config, bundlerConfig, h))
    /\ get h bundlerConfig "sources" = Ok sources
    /\ get h config "sources" = Ok sources
    /\ get h defaultConfig "sources" = Ok sources
    /\ plain_object h sources
    /\ tree_at h bundlerConfig ["sources"; "global"; "scripts"]
       = Some (Globs_json
                 (concat_Globs (scripts (apply_user defaults u))
                    (scripts (apply_user defaults u)))).
Proof.
  intros Hparse Hfalsy.
  destruct (configure_typed w contents bundleContents u Hparse Hfalsy)
    as (U & Hconfigure).
  set (c := apply_user defaults u) in *.
  set (X := [OObj top_props; default_options;
             OObj [("sources", VRef 11);
                   ("options", VRef (13 + length U + 1))];
             OObj [("config", VRef (13 + length U))]]).
  set (h := cells c ++ U ++ X).
  set (T := [OObj [("scripts", VRef (length h + 1))];
             Globs_cell (length h + 4) (length h + 5);
             strings_cell (include (scripts c));
             strings_cell (exclude (scripts c));
             strings_cell (include (scripts c) ++ include (scripts c));
             strings_cell (exclude (scripts c) ++ exclude (scripts c))]).
  assert (13 <= length h) as Hlen
    by (unfold h; rewrite length_app; simpl; lia).
  assert (h !! (13 + length U) = Some (OObj top_props)) as Hconfig
    by (by apply lookup_cells_config).
  assert (h !! (13 + length U + 2)
          = Some (OObj [("sources", VRef 11);
                        ("options", VRef (13 + length U + 1))])) as Hbundler
    by (unfold h; by rewrite lookup_cells_after).
  assert (resolve w contents bundleContents module_heap
          = ([LoggerDebug "urtest-cli launched with config"
                (VRef (13 + length U + 3))],
             Ok (VRef (13 + length U), VRef (13 + length U + 2),
                 <[11 := OObj [("global", VRef (length h))]]> (h ++ T))))
    as Hresolve.
  { unfold resolve. rewrite Hconfigure, prog_bind_lift. unfold alloc.
    rewrite <- !(assoc_L (++)). cbn [app]. fold X. fold h.
    pose proof (mergeSources_aliased c U X eq_refl eq_refl) as Hmerge.
    cbv zeta in Hmerge. fold h in Hmerge. fold T in Hmerge. rewrite Hmerge.
    rewrite !length_app. cbn [length].
    unfold emit, mbind, prog_bind, lift, mret, prog_ret. cbn [fst snd app].
    repeat f_equal; unfold cells; simpl length; lia. }
  assert (h !! 12 = Some (OObj top_props)) as H12 by reflexivity.
  clearbody h.
  assert (forall i, i <> 11 ->
                    (<[11 := OObj [("global", VRef (length h))]]> (h ++ T)) !! i
                    = (h ++ T) !! i) as Hother
    by (intros i Hi; by rewrite list_lookup_insert_ne).
  assert ((<[11 := OObj [("global", VRef (length h))]]> (h ++ T)) !! 11
          = Some (OObj [("global", VRef (length h))])) as H11
    by (apply list_lookup_insert_eq; rewrite length_app; lia).
  assert (forall k, get (<[11 := OObj [("global", VRef (length h))]]> (h ++ T))
                      (VRef (13 + length U)) k
                    = Ok (default VUndef (lookup_prop k top_props)))
    as Hget_config.
  { intros k. apply get_at. rewrite Hother by lia.
    by apply lookup_app_l_Some. }
  eexists _, _, _, _, (VRef 11). split; [exact Hresolve|].
  split.
  { erewrite get_at; cycle 1.
    - rewrite Hother by lia. apply lookup_app_l_Some. exact Hbundler.
    - reflexivity. }
  split; [by rewrite Hget_config|].
  split.
  { change defaultConfig with (VRef 12).
    rewrite (get_at _ _ top_props); [reflexivity|].
    rewrite Hother by lia. apply lookup_app_l_Some. exact H12. }
  split; [by eexists 11, _|].
  unfold tree_at, get_path.
  erewrite get_at;
    [| rewrite Hother by lia; apply lookup_app_l_Some; exact Hbundler].
  rewrite bind_Ok. simpl default.
  rewrite (get_at _ _ _ _ H11), bind_Ok. simpl default.
  erewrite get_at; [| rewrite Hother by lia; by rewrite lookup_added_0].
  rewrite bind_Ok. simpl default.
  unfold tree_of. rewrite length_insert, length_app.
  change (length T) with 6.
  replace (S (length h + 6)) with (S (S (length h + 5))) by lia.
  apply (snapshot_Globs _ _ _ (length h + 4) (length h + 5)
           (concat_Globs (scripts c) (scripts c)));
    rewrite Hother by lia; by rewrite lookup_added.
Qed.

(** ** The driver's exits *)

(** C9: with no [--config] option ([undefined], or any falsy value) the
    driver prints the six lines of the usage text, in the order of lines
    19-26, and calls [process.exit(0)]; it does nothing else: its trace
    holds no file read and no logged error. *)
Theorem help_without_config (w : world) (args : argv) :
  truthy (config_opt args) = false ->
  trace (main w args)
    = [ConsoleLog
         "Usage: npx urscript-tester [--config <config.json>] [--bundle <config.json>] [path]";
       ConsoleLog "Tool used to generate unique script bundles";
       ConsoleLog "Options:";
       ConsoleLog "--config Test configuration file";
       ConsoleLog "--bundle Optional bundle configuration file";
       ConsoleLog
         "Expression (glob format) used to determine tests to execute"]
  /\ outcome (main w args) = Exit 0
  /\ forallb (fun e => negb (is_ReadFile e)) (trace (main w args)) = true
  /\ existsb is_ConsoleLogError (trace (main w args)) = false.
Proof.
  intros Hfalsy. unfold main. rewrite Hfalsy. simpl. auto.
Qed.

Lemma help_without_config_witness :
  let args := {| positional := []; config_opt := VUndef; bundle_opt := VUndef |} in
  let w := {| readFileSync := files []; JSON_parse := parses [];
              execute := fun _ _ => true |} in
  truthy (config_opt args) = false
  /\ trace (main w args)
     = [ConsoleLog
          "Usage: npx urscript-tester [--config <config.json>] [--bundle <config.json>] [path]";
        ConsoleLog "Tool used to generate unique script bundles";
        ConsoleLog "Options:";
        ConsoleLog "--config Test configuration file";
        ConsoleLog "--bundle Optional bundle configuration file";
        ConsoleLog
          "Expression (glob format) used to determine tests to execute"]
  /\ outcome (main w args) = Exit 0
  /\ forallb (fun e => negb (is_ReadFile e)) (trace (main w args)) = true
  /\ existsb is_ConsoleLogError (trace (main w args)) = false.
Proof.
  intros args w. split; [reflexivity|].
  apply (help_without_config w args). reflexivity.
Defined.

(** The [catch] block: whatever the body of the [try] throws is printed
    and the process exits with code 1. *)
Lemma guarded_catches (w : world) (args : argv) (contents : string)
    (bundleContents : value) (h : heap) (events : list event) (e : error) :
  body w args contents bundleContents h = (events, Throw e) ->
  trace (guarded w args contents bundleContents h)
    = events ++ [ConsoleLogError e]
  /\ outcome (guarded w args contents bundleContents h) = Exit 1.
Proof.
  intros Hbody. unfold guarded. rewrite Hbody. simpl. auto.
Qed.

(** A configuration text that is not JSON is caught: the SyntaxError is
    printed and the exit code is 1. *)
Lemma parse_error_exits_1 (w : world) (args : argv) (contents : string) :
  truthy (config_opt args) = true ->
  truthy (bundle_opt args) = false ->
  readFileSync w (config_opt args) = Some contents ->
  JSON_parse w contents = None ->
  trace (main w args)
    = [ReadFile (config_opt args); ConsoleLogError (SyntaxError contents)]
  /\ outcome (main w args) = Exit 1.
Proof.
  intros Hc Hb Hread Hparse. unfold main. rewrite Hc, Hread, Hb. simpl.
  unfold guarded, body, resolve, configure, deriveBundlerConfig, parse.
  rewrite Hparse. simpl. auto.
Qed.

(** A rejected [execute] is caught as well. *)
Lemma execution_error_exits_1 :
  let w := {| readFileSync := files [("cfg.json", "cfg")];
              JSON_parse := parses [("cfg", JObj [])];
              execute := fun _ _ => false |} in
  let r := main w {| positional := []; config_opt := VStr "cfg.json";
                     bundle_opt := VUndef |} in
  outcome r = Exit 1
  /\ last (trace r) = Some (ConsoleLogError ExecutionError).
Proof. vm_compute. split; reflexivity. Qed.

(** C1, on the input where it fails: when reading the [--config] file
    throws, [main] has not yet entered its [try] block (the reads are at
    lines 89-95, the [try] starts at line 97).  Nothing is printed, no
    [process.exit(1)] is reached, and the promise of [main] rejects. *)
Theorem read_error_escapes (w : world) (args : argv) :
  truthy (config_opt args) = true ->
  readFileSync w (config_opt args) = None ->
  outcome (main w args) = Rejected (ReadError (config_opt args))
  /\ trace (main w args) = [ReadFile (config_opt args)]
  /\ existsb is_ConsoleLogError (trace (main w args)) = false.
Proof.
  intros Hc Hread. unfold main. rewrite Hc, Hread. simpl. auto.
Qed.

Lemma read_error_escapes_witness :
  let args := {| positional := []; config_opt := VStr "missing.json";
                 bundle_opt := VUndef |} in
  let w := {| readFileSync := files []; JSON_parse := parses [];
              execute := fun _ _ => true |} in
  outcome (main w args) = Rejected (ReadError (VStr "missing.json"))
  /\ trace (main w args) = [ReadFile (VStr "missing.json")]
  /\ existsb is_ConsoleLogError (trace (main w args)) = false.
Proof.
  intros args w. apply (read_error_escapes w args); reflexivity.
Defined.

(** The same for the [--bundle] file. *)
Lemma bundle_read_error_escapes (w : world) (args : argv) (contents : string) :
  truthy (config_opt args) = true ->
  readFileSync w (config_opt args) = Some contents ->
  truthy (bundle_opt args) = true ->
  readFileSync w (bundle_opt args) = None ->
  outcome (main w args) = Rejected (ReadError (bundle_opt args)).
Proof.
  intros Hc Hread Hb Hbundle. unfold main.
  rewrite Hc, Hread, Hb, Hbundle. reflexivity.
Qed.

(** ** The test pattern *)

Lemma lastIndexOf_from_range (c : ascii) (s : string) (i : Z) :
  (0 <= i)%Z ->
  lastIndexOf_from c s i = (-1)%Z
  \/ (i <= lastIndexOf_from c s i < i + Z.of_nat (String.length s))%Z.
Proof.
  revert i. induction s as [|a s IH]; intros i Hi; simpl; [by left|].
  destruct (IH (i + 1)%Z ltac:(lia)) as [-> | Hr].
  - simpl. destruct (Ascii.eqb a c); [right; lia | by left].
  - destruct (Z.eqb_spec (lastIndexOf_from c s (i + 1)) (-1)); [lia|].
    right. lia.
Qed.

Lemma lastIndexOf_from_last (c : ascii) (s : string) (i : Z) :
  (0 <= i)%Z -> s <> "" ->
  lastIndexOf_from c s i = (i + Z.of_nat (String.length s) - 1)%Z
  <-> last_char s = Some c.
Proof.
  revert i. induction s as [|a s IH]; intros i Hi Hne; [done|].
  destruct s as [|b s].
  - simpl. destruct (Ascii.eqb_spec a c) as [->|Hac].
    + split; [done | intros _; lia].
    + split; [lia | intros [= ?]; done].
  - change (last_char (String a (String b s))) with (last_char (String b s)).
    rewrite <- (IH (i + 1)%Z) by (done || lia).
    change (lastIndexOf_from c (String a (String b s)) i) with
      (let r := lastIndexOf_from c (String b s) (i + 1) in
       if (r =? -1)%Z then (if Ascii.eqb a c then i else (-1)%Z) else r).
    cbv zeta.
    destruct (lastIndexOf_from_range c (String b s) (i + 1) ltac:(lia))
      as [Hr | Hr].
    + rewrite Hr. simpl String.length in *.
      destruct (Ascii.eqb a c); simpl; lia.
    + destruct (Z.eqb_spec (lastIndexOf_from c (String b s) (i + 1)) (-1));
        [lia|].
      simpl String.length in *. lia.
Qed.

Lemma append_assoc (a b c : string) : (a +:+ b) +:+ c = a +:+ (b +:+ c).
Proof.
  induction a as [|x a IH]; [done|].
  change (String x ((a +:+ b) +:+ c) = String x (a +:+ (b +:+ c))).
  by rewrite IH.
Qed.

(** C8, as the code has it: for a non-empty argument without an
    extension the pattern is the argument, one separator unless the
    argument already ends with one, and ["**/*.test.script"]; ["dir/"] and
    ["dir"] both give ["dir/**/*.test.script"]; no argument gives
    ["**/*.test.script"].  Line 67 looks at the last character only. *)
Theorem getTestPattern_directory (p : string) :
  p <> "" ->
  extname p = "" ->
  getTestPattern (VStr p)
    = Ok ((if ends_with_separator p then p else p +:+ "/")
          +:+ "**/*.test.script")
  /\ getTestPattern (VStr "dir/") = Ok "dir/**/*.test.script"
  /\ getTestPattern (VStr "dir") = Ok "dir/**/*.test.script"
  /\ getTestPattern VUndef = Ok "**/*.test.script".
Proof.
  intros Hne Hext. split; [|by repeat split].
  unfold getTestPattern. rewrite Hext.
  change (truthy (VStr "")) with false.
  replace (truthy (VStr p)) with true
    by (simpl; destruct (String.eqb_spec p ""); done).
  cbv iota.
  unfold lastIndexOf, ends_with_separator, suffixPattern.
  pose proof (lastIndexOf_from_last "/" p 0 ltac:(lia) Hne) as Hlast.
  destruct (Z.eqb_spec (lastIndexOf_from "/" p 0)
              (Z.of_nat (String.length p) - 1)) as [Heq | Hneq].
  - destruct Hlast as [Hlast _]. rewrite Hlast by lia. reflexivity.
  - assert (last_char p <> Some "/"%char) as Hnot
      by (intros Hc; apply Hlast in Hc; lia).
    replace (match last_char p with
             | Some c => Ascii.eqb c "/"
             | None => false
             end) with false.
    + by rewrite append_assoc.
    + destruct (last_char p) as [c|]; [|done].
      destruct (Ascii.eqb_spec c "/"); congruence.
Qed.

Lemma getTestPattern_directory_witness :
  "src/lib" <> "" /\ extname "src/lib" = ""
  /\ getTestPattern (VStr "src/lib") = Ok "src/lib/**/*.test.script".
Proof.
  split; [done|]. split; [reflexivity|].
  exact (proj1 (getTestPattern_directory "src/lib" ltac:(done) eq_refl)).
Defined.

(** C8 as stated fails: ["dir//"] is a non-empty argument without an
    extension, and its pattern keeps both separators.  The pattern is not
    ["dir/**/*.test.script"], and it is no name that does not end with a
    separator followed by one separator and ["**/*.test.script"]. *)
Lemma double_separator_kept :
  "dir//" <> "" /\ extname "dir//" = ""
  /\ getTestPattern (VStr "dir//") = Ok "dir//**/*.test.script"
  /\ getTestPattern (VStr "dir//") <> Ok "dir/**/*.test.script"
  /\ ~ exists d,
        ends_with_separator d = false
        /\ getTestPattern (VStr "dir//")
           = Ok (d +:+ "/" +:+ "**/*.test.script").
Proof.
  split; [done|]. split; [reflexivity|]. split; [reflexivity|].
  split; [discriminate|].
  intros (d & Hd & Heq).
  change (getTestPattern (VStr "dir//")) with
    (Ok (A := string) ("dir/" +:+ "/" +:+ "**/*.test.script")) in Heq.
  injection Heq as Heq.
  do 4 (destruct d as [|? d]; [discriminate Heq|];
        injection Heq as Hc Heq; subst).
  destruct d as [|? d]; [by vm_compute in Hd|].
  injection Heq as Hc Heq; subst.
  apply (f_equal String.length) in Heq.
  do 16 (destruct d as [|? d]; [discriminate Heq|];
         apply Nat.succ_inj in Heq).
  destruct d; discriminate Heq.
Qed.

(** ** The scenarios *)

(** C2, as the code has it: with ["a.script"] in the test configuration
    and ["b.script"] in the bundle configuration, the merged
    [bundlerConfig.sources.global.scripts.include] is
    [["b.script"; "a.script"]]: the bundle's element first, then the test
    configuration's, none dropped. *)
Theorem bundle_then_cli_include (w : world) (contents bundleText : string) :
  JSON_parse w contents = Some (include_only "a.script") ->
  bundleText <> "" ->
  JSON_parse w bundleText = Some (include_only "b.script") ->
  exists events config bundlerConfig h,
    resolve w contents (VStr bundleText) module_heap
      = (events, Ok (config, bundlerConfig, h))
    /\ tree_at h bundlerConfig ["sources"; "global"; "scripts"; "include"]
       = Some (strings_json ["b.script"; "a.script"]).
Proof.
  intros Hcfg Hne Hbundle.
  unfold resolve, configure, deriveBundlerConfig, parse.
  rewrite Hcfg.
  replace (truthy (VStr bundleText)) with true
    by (simpl; destruct (String.eqb_spec bundleText ""); done).
  rewrite Hbundle.
  do 4 eexists. split; [vm_compute; reflexivity|]. vm_compute. reflexivity.
Qed.

Lemma bundle_then_cli_include_witness :
  exists events config bundlerConfig h,
    resolve (scenario (include_only "a.script") (include_only "b.script"))
      "cfg" (VStr "bundle") module_heap
      = (events, Ok (config, bundlerConfig, h))
    /\ tree_at h bundlerConfig ["sources"; "global"; "scripts"; "include"]
       = Some (strings_json ["b.script"; "a.script"]).
Proof.
  apply (bundle_then_cli_include
           (scenario (include_only "a.script") (include_only "b.script"))
           "cfg" "bundle"); [reflexivity | done | reflexivity].
Defined.

(** C2 as stated fails: in that scenario the include list is not
    [["a.script"; "b.script"]]. *)
Lemma include_not_cli_then_bundle :
  ~ exists events config bundlerConfig h,
      resolve (scenario (include_only "a.script") (include_only "b.script"))
        "cfg" (VStr "bundle") module_heap
        = (events, Ok (config, bundlerConfig, h))
      /\ tree_at h bundlerConfig ["sources"; "global"; "scripts"; "include"]
         = Some (strings_json ["a.script"; "b.script"]).
Proof.
  intros (events & config & bundlerConfig & h & Hres & Htree).
  vm_compute in Hres. injection Hres as <- <- <- <-.
  vm_compute in Htree. discriminate.
Qed.

(** C7: a user configuration that only sets [controller.ports.primary] to
    40001 gives a script runner configuration with that port, host
    ["localhost"], [autoLaunch] true (the negated [disabled] flag),
    controller version ["5.3.1"] and [autoStop] false. *)
Theorem primary_port_scenario (w : world) (contents : string) :
  JSON_parse w contents = Some (primary_only 40001) ->
  exists events config bundlerConfig h scriptRunnerConfig h',
    resolve w contents VUndef module_heap
      = (events, Ok (config, bundlerConfig, h))
    /\ scriptRunnerConfig_of config h = Ok (scriptRunnerConfig, h')
    /\ tree_of h' scriptRunnerConfig
       = Some (JObj [("host", JStr "localhost"); ("port", JNum 40001);
                     ("controller",
                      JObj [("autoLaunch", JBool true);
                            ("controllerVersion", JStr "5.3.1");
                            ("autoStop", JBool false)])]).
Proof.
  intros Hcfg.
  unfold resolve, configure, deriveBundlerConfig, parse.
  rewrite Hcfg.
  do 6 eexists. split; [vm_compute; reflexivity|].
  split; vm_compute; reflexivity.
Qed.

Lemma primary_port_scenario_witness :
  exists events config bundlerConfig h scriptRunnerConfig h',
    resolve (scenario (primary_only 40001) JNull) "cfg" VUndef module_heap
      = (events, Ok (config, bundlerConfig, h))
    /\ scriptRunnerConfig_of config h = Ok (scriptRunnerConfig, h')
    /\ tree_of h' scriptRunnerConfig
       = Some (JObj [("host", JStr "localhost"); ("port", JNum 40001);
                     ("controller",
                      JObj [("autoLaunch", JBool true);
                            ("controllerVersion", JStr "5.3.1");
                            ("autoStop", JBool false)])]).
Proof.
  apply (primary_port_scenario (scenario (primary_only 40001) JNull) "cfg").
  reflexivity.
Defined.

(** C5 as stated fails: an empty [mocks.include] in the user
    configuration does not replace the default list. *)
Lemma empty_include_keeps_default :
  match configure (scenario (JObj [("mocks", JObj [("include", JArr [])])])
                     JNull) "cfg" VUndef module_heap with
  | Ok (config, _, h) =>
      tree_at h config ["mocks"; "include"]
        = Some (strings_json ["__mocks__/**/*.mock.script"])
      /\ tree_at h config ["mocks"; "include"] <> Some (strings_json [])
  | _ => False
  end.
Proof. vm_compute. split; [reflexivity | discriminate]. Qed.

(** C6 as stated fails: a bundle file whose [sources] is the number 5
    keeps it; the bundler configuration's [sources] is then defined but
    not an object. *)
Lemma number_sources_kept :
  match deriveBundlerConfig (scenario (JObj []) (JObj [("sources", JNum 5)]))
          "cfg" (VStr "bundle") module_heap with
  | Ok (_, _, bundlerConfig, h) =>
      get h bundlerConfig "sources" = Ok (VNum 5)
      /\ isObject (VNum 5) = false
  | _ => False
  end.
Proof. vm_compute. split; reflexivity. Qed.

(** ** The trace of a run *)

Lemma prog_bind_events {A B : Type} (P : event -> bool) (m : prog A)
    (f : A -> prog B) :
  forallb P m.1 = true -> (forall a, forallb P (f a).1 = true) ->
  forallb P (m ≫= f).1 = true.
Proof.
  intros Hm Hf. unfold mbind, prog_bind.
  destruct m as [events [a| | |]]; simpl in *; try done.
  rewrite forallb_app, Hm. by rewrite Hf.
Qed.

Lemma new_events (P : event -> bool) (cls : string) (args : list value)
    (h : heap) :
  P (Construct cls args) = true -> forallb P (new cls args h).1 = true.
Proof. intros HP. unfold new. simpl. by rewrite HP. Qed.

Lemma resolve_events (w : world) (contents : string) (bundleContents : value)
    (h : heap) :
  forallb of_body (resolve w contents bundleContents h).1 = true.
Proof.
  unfold resolve. apply prog_bind_events; [reflexivity|].
  intros [[config bundlerConfig] h1]. unfold alloc.
  apply prog_bind_events; [reflexivity|]. intros _.
  apply prog_bind_events; [reflexivity|]. intros h2. reflexivity.
Qed.

(** The body of the [try] block reads no file and prints nothing. *)
Lemma body_events (w : world) (args : argv) (contents : string)
    (bundleContents : value) (h : heap) :
  forallb of_body (body w args contents bundleContents h).1 = true.
Proof.
  unfold body. apply prog_bind_events; [apply resolve_events|].
  intros [[config bundlerConfig] h1].
  apply prog_bind_events; [reflexivity|]. intros [src h2].
  apply prog_bind_events.
  { unfold testRunnerConfig_of.
    apply prog_bind_events; [by apply new_events|]. intros [runner h3].
    repeat (apply prog_bind_events; [reflexivity|]; intros ?).
    reflexivity. }
  intros [trc h3].
  apply prog_bind_events.
  { unfold executionConfig_of.
    apply prog_bind_events; [by apply new_events|]. intros [runner h4].
    repeat (apply prog_bind_events; [reflexivity|]; intros ?).
    by destruct select (value * list obj)%type. }
  intros [ec h4].
  apply prog_bind_events; [by apply new_events|]. intros [executor h5].
  apply prog_bind_events; [reflexivity|]. intros _.
  by destruct (execute w h5 ec).
Qed.

Lemma truthy_nonempty (s : string) : s <> "" -> truthy (VStr s) = true.
Proof. intros Hne. simpl. by destruct (String.eqb_spec s ""). Qed.

Lemma of_body_not_error (events : list event) :
  forallb of_body events = true ->
  existsb is_ConsoleLogError events = false.
Proof.
  induction events as [|e events IH]; [done|]. simpl.
  intros [He Hrest]%andb_prop. rewrite (IH Hrest). by destruct e.
Qed.

Lemma of_body_quiet (events : list event) :
  forallb of_body events = true ->
  forallb (fun e => negb (is_ReadFile e) && negb (is_ConsoleLog e)) events
  = true.
Proof.
  induction events as [|e events IH]; [done|]. simpl.
  intros [He Hrest]%andb_prop. rewrite (IH Hrest). by destruct e.
Qed.

Lemma quiet_app_error (events : list event) (e : error) :
  forallb of_body events = true ->
  forallb (fun e => negb (is_ReadFile e) && negb (is_ConsoleLog e))
    (events ++ [ConsoleLogError e]) = true.
Proof.
  intros Hev. rewrite forallb_app, (of_body_quiet _ Hev). reflexivity.
Qed.

Lemma quiet_no_help (rest : list event) :
  forallb (fun e => negb (is_ReadFile e) && negb (is_ConsoleLog e)) rest
  = true ->
  existsb is_ConsoleLog rest = false.
Proof.
  induction rest as [|e rest IH]; [done|]. simpl.
  intros [He Hrest]%andb_prop. rewrite (IH Hrest). by destruct e.
Qed.

(** What the [try] block and its [catch] leave in the trace: the events
    of the body, and the logged error exactly when the exit code is 1. *)
Lemma guarded_run (w : world) (args : argv) (contents : string)
    (bundleContents : value) (h : heap) :
  let r := guarded w args contents bundleContents h in
  exists events,
    forallb of_body events = true
    /\ ((outcome r = Exit 1
         /\ exists e, trace r = events ++ [ConsoleLogError e])
        \/ (outcome r <> Exit 1 /\ outcome r <> Exit 0 /\ trace r = events)).
Proof.
  intros r. subst r. unfold guarded.
  pose proof (body_events w args contents bundleContents h) as Hev.
  destruct (body w args contents bundleContents h) as [events [h'|e|what|]];
    simpl in *; exists events; (split; [done|]);
    first [ by right | left; split; [done|]; by eexists ].
Qed.

(** X1: in every run this development covers, the driver logs an error
    exactly when it exits with code 1, and that log is the last thing it
    does: no error is logged before it. *)
Theorem error_logged_iff_exit_1 (w : world) (args : argv) :
  within (main w args) = true ->
  (outcome (main w args) = Exit 1
   <-> existsb is_ConsoleLogError (trace (main w args)) = true)
  /\ (outcome (main w args) = Exit 1 ->
      exists events e,
        trace (main w args) = events ++ [ConsoleLogError e]
        /\ existsb is_ConsoleLogError events = false).
Proof.
  intros _. unfold main.
  destruct (truthy (config_opt args)); simpl; [|by split; [split|]].
  destruct (readFileSync w (config_opt args)) as [contents|];
    [|by split; [split|]].
  destruct (truthy (bundle_opt args)).
  - destruct (readFileSync w (bundle_opt args)) as [text|];
      [|by split; [split|]].
    destruct (guarded_run w args contents (VStr text) module_heap)
      as (events & Hev & [[Hout [e Htr]] | (Hout & _ & Htr)]); simpl.
    + rewrite Hout, Htr. split.
      * split; [|done]. intros _. rewrite !existsb_app. simpl.
        by rewrite orb_true_r.
      * intros _. exists (ReadFile (config_opt args)
                          :: ReadFile (bundle_opt args) :: events), e.
        split; [done|]. simpl. by apply of_body_not_error.
    + rewrite Htr. rewrite (of_body_not_error _ Hev). by split; [split|].
  - destruct (guarded_run w args contents VUndef module_heap)
      as (events & Hev & [[Hout [e Htr]] | (Hout & _ & Htr)]); simpl.
    + rewrite Hout, Htr. split.
      * split; [|done]. intros _. rewrite !existsb_app. simpl.
        by rewrite orb_true_r.
      * intros _. exists (ReadFile (config_opt args) :: events), e.
        split; [done|]. simpl. by apply of_body_not_error.
    + rewrite Htr. rewrite (of_body_not_error _ Hev). by split; [split|].
Qed.

(** The only [process.exit] of the [try] block and its [catch] is the
    [process.exit(1)] of line 182. *)
Lemma guarded_exit (w : world) (args : argv) (contents : string)
    (bundleContents : value) (h : heap) (code : Z) :
  outcome (guarded w args contents bundleContents h) = Exit code ->
  code = 1%Z.
Proof.
  unfold guarded.
  destruct (body w args contents bundleContents h) as [events [h'|e|what|]];
    simpl; congruence.
Qed.

(** X2: with a [--config] option, in every run this development covers,
    the usage text is never printed and [process.exit(0)] is never
    called: the only [process.exit] the driver reaches is the
    [process.exit(1)] of the [catch].  The driver starts by reading the
    configuration file, reads at most one more file, the bundle file,
    right after it, and no file after that. *)
Theorem config_given_no_help (w : world) (args : argv) :
  truthy (config_opt args) = true ->
  within (main w args) = true ->
  (forall code, outcome (main w args) = Exit code -> code = 1%Z)
  /\ existsb is_ConsoleLog (trace (main w args)) = false
  /\ exists rest,
       (trace (main w args) = ReadFile (config_opt args) :: rest
        \/ trace (main w args)
           = ReadFile (config_opt args) :: ReadFile (bundle_opt args) :: rest)
       /\ forallb (fun e => negb (is_ReadFile e) && negb (is_ConsoleLog e))
            rest = true.
Proof.
  intros Hc _. split.
  - intros code. unfold main. rewrite Hc. simpl.
    destruct (readFileSync w (config_opt args)) as [contents|]; [|done].
    destruct (truthy (bundle_opt args)).
    + destruct (readFileSync w (bundle_opt args)) as [text|]; [|done].
      apply guarded_exit.
    + apply guarded_exit.
  - unfold main. rewrite Hc. simpl.
    destruct (readFileSync w (config_opt args)) as [contents|]; simpl.
    2: { split; [done|]. exists []. split; [by left|done]. }
    destruct (truthy (bundle_opt args)).
    + destruct (readFileSync w (bundle_opt args)) as [text|]; simpl.
      2: { split; [done|]. exists []. split; [by right|done]. }
      destruct (guarded_run w args contents (VStr text) module_heap)
        as (events & Hev & [[Hout [e Htr]] | (Hout & Hout0 & Htr)]).
      * rewrite Htr.
        pose proof (quiet_app_error events e Hev) as Hq.
        split; [by apply quiet_no_help|]. eexists. split; [by right|done].
      * rewrite Htr.
        pose proof (of_body_quiet events Hev) as Hq.
        split; [by apply quiet_no_help|]. eexists. split; [by right|done].
    + destruct (guarded_run w args contents VUndef module_heap)
        as (events & Hev & [[Hout [e Htr]] | (Hout & Hout0 & Htr)]); simpl.
      * rewrite Htr.
        pose proof (quiet_app_error events e Hev) as Hq.
        split; [by apply quiet_no_help|]. eexists. split; [by left|done].
      * rewrite Htr.
        pose proof (of_body_quiet events Hev) as Hq.
        split; [by apply quiet_no_help|]. eexists. split; [by left|done].
Qed.

(** ** Errors before and inside the [try] block *)

Lemma guarded_Ok (w : world) (args : argv) (contents : string) (b : value)
    (h h' : heap) (events : list event) :
  body w args contents b h = (events, Ok h') ->
  guarded w args contents b h
  = {| trace := events; outcome := Resolved; final := h' |}.
Proof. intros Hbody. unfold guarded. by rewrite Hbody. Qed.

Lemma guarded_Throw (w : world) (args : argv) (contents : string) (b : value)
    (h : heap) (events : list event) (e : error) :
  body w args contents b h = (events, Throw e) ->
  guarded w args contents b h
  = {| trace := events ++ [ConsoleLogError e]; outcome := Exit 1;
       final := heap_at_stop w args contents b h |}.
Proof. intros Hbody. unfold guarded. by rewrite Hbody. Qed.

(** X3: a configuration text that is not JSON is caught whether or not a
    bundle file was named and read: after the reads the SyntaxError is
    logged and the exit code is 1; the bundle text is not parsed and
    nothing is constructed. *)
Theorem config_syntax_error_exits_1 (w : world) (args : argv)
    (contents : string) :
  truthy (config_opt args) = true ->
  readFileSync w (config_opt args) = Some contents ->
  (truthy (bundle_opt args) = true ->
   is_Some (readFileSync w (bundle_opt args))) ->
  JSON_parse w contents = None ->
  outcome (main w args) = Exit 1
  /\ trace (main w args)
     = reads args ++ [ConsoleLogError (SyntaxError contents)].
Proof.
  intros Hc Hread Hbundle Hparse. unfold main, reads.
  rewrite Hc, Hread. simpl.
  assert (forall b, body w args contents b module_heap
                    = ([], Throw (SyntaxError contents))) as Hbody.
  { intros b. unfold body, resolve, configure, deriveBundlerConfig, parse.
    by rewrite Hparse. }
  destruct (truthy (bundle_opt args)).
  - destruct (Hbundle eq_refl) as [text ->].
    rewrite (guarded_Throw _ _ _ _ _ _ _ (Hbody _)). simpl. auto.
  - rewrite (guarded_Throw _ _ _ _ _ _ _ (Hbody _)). simpl. auto.
Qed.

(** X4: a bundle text that is not JSON is caught as well, after the
    configuration text was parsed: the SyntaxError of the bundle text is
    logged and the exit code is 1. *)
Theorem bundle_syntax_error_exits_1 (w : world) (args : argv)
    (contents text : string) (user : json) :
  truthy (config_opt args) = true ->
  readFileSync w (config_opt args) = Some contents ->
  truthy (bundle_opt args) = true ->
  readFileSync w (bundle_opt args) = Some text ->
  text <> "" ->
  JSON_parse w contents = Some user ->
  JSON_parse w text = None ->
  outcome (main w args) = Exit 1
  /\ trace (main w args)
     = [ReadFile (config_opt args); ReadFile (bundle_opt args);
        ConsoleLogError (SyntaxError text)].
Proof.
  intros Hc Hread Hb Hbread Hne Hparse Hbundle. unfold main.
  rewrite Hc, Hread, Hb, Hbread. simpl.
  destruct (parse_and_copy user) as (uv & U & Halloc & Hrepr & Hspread).
  assert (body w args contents (VStr text) module_heap
          = ([], Throw (SyntaxError text))) as Hbody.
  { unfold body, resolve, configure, deriveBundlerConfig, parse.
    rewrite Hparse, bind_Ok, Halloc. cbv beta iota.
    rewrite Hspread, bind_Ok. cbv beta iota.
    by rewrite (truthy_nonempty _ Hne), Hbundle. }
  rewrite (guarded_Throw _ _ _ _ _ _ _ Hbody). simpl. auto.
Qed.

(** X5: the read of the bundle file is outside the [try] block, like
    the read of the configuration file.  When it throws, the promise of
    [main] rejects and nothing is logged, whatever the configuration
    file holds: its text is not parsed before the bundle file is read. *)
Theorem bundle_read_error_rejects (w : world) (args : argv)
    (contents : string) :
  truthy (config_opt args) = true ->
  readFileSync w (config_opt args) = Some contents ->
  truthy (bundle_opt args) = true ->
  readFileSync w (bundle_opt args) = None ->
  outcome (main w args) = Rejected (ReadError (bundle_opt args))
  /\ trace (main w args)
     = [ReadFile (config_opt args); ReadFile (bundle_opt args)].
Proof.
  intros Hc Hread Hb Hbundle. unfold main.
  rewrite Hc, Hread, Hb, Hbundle. simpl. auto.
Qed.

(** X6: line 101 tests the text of the bundle file, not its name.  An
    empty bundle file is therefore no bundle file: after the extra read
    the run is the run without the [--bundle] option, and the empty text
    is never handed to [JSON.parse]. *)
Theorem empty_bundle_is_no_bundle (w : world) (args : argv)
    (contents : string) :
  truthy (config_opt args) = true ->
  readFileSync w (config_opt args) = Some contents ->
  truthy (bundle_opt args) = true ->
  readFileSync w (bundle_opt args) = Some "" ->
  let without := {| positional := positional args;
                    config_opt := config_opt args; bundle_opt := VUndef |} in
  outcome (main w args) = outcome (main w without)
  /\ final (main w args) = final (main w without)
  /\ exists rest,
       trace (main w without) = ReadFile (config_opt args) :: rest
       /\ trace (main w args)
          = ReadFile (config_opt args) :: ReadFile (bundle_opt args) :: rest.
Proof.
  intros Hc Hread Hb Hbundle without. unfold main.
  cbn [config_opt bundle_opt without].
  rewrite Hc, Hread, Hb, Hbundle. cbn [negb truthy].
  assert (guarded w args contents (VStr "") module_heap
          = guarded w without contents VUndef module_heap) as ->
    by reflexivity.
  cbn [trace outcome final app]. eauto.
Qed.

(** X7: a bundle text that parses to [null], a boolean, a number or a
    string gives a TypeError that is caught: [null] has no properties to
    read, and the [sources] of line 115 cannot be created on a
    primitive. *)
Theorem scalar_bundle_exits_1 (w : world) (args : argv)
    (contents text : string) (user j : json) :
  truthy (config_opt args) = true ->
  readFileSync w (config_opt args) = Some contents ->
  truthy (bundle_opt args) = true ->
  readFileSync w (bundle_opt args) = Some text ->
  text <> "" ->
  JSON_parse w contents = Some user ->
  JSON_parse w text = Some j ->
  json_scalar j = true ->
  outcome (main w args) = Exit 1
  /\ trace (main w args)
     = [ReadFile (config_opt args); ReadFile (bundle_opt args);
        ConsoleLogError TypeError].
Proof.
  intros Hc Hread Hb Hbread Hne Hparse Hbundle Hscalar. unfold main.
  rewrite Hc, Hread, Hb, Hbread. simpl.
  destruct (parse_and_copy user) as (uv & U & Halloc & Hrepr & Hspread).
  assert (body w args contents (VStr text) module_heap
          = ([], Throw TypeError)) as Hbody.
  { unfold body, resolve, configure, deriveBundlerConfig, parse.
    rewrite Hparse, bind_Ok, Halloc. cbv beta iota.
    rewrite Hspread, bind_Ok. cbv beta iota.
    rewrite (truthy_nonempty _ Hne), Hbundle, bind_Ok.
    by destruct j. }
  rewrite (guarded_Throw _ _ _ _ _ _ _ Hbody). simpl. auto.
Qed.

(** ** Paths with and without an extension *)

(** *** Strings as lists of characters *)

Lemma list_ascii_app (a b : string) :
  list_ascii_of_string (a +:+ b)
  = list_ascii_of_string a ++ list_ascii_of_string b.
Proof.
  induction a as [|x a IH]; [done|].
  change (x :: list_ascii_of_string (a +:+ b)
          = x :: (list_ascii_of_string a ++ list_ascii_of_string b)).
  by rewrite IH.
Qed.

Lemma length_list_ascii (s : string) :
  length (list_ascii_of_string s) = String.length s.
Proof. induction s as [|x s IH]; [done|]. simpl. by rewrite IH. Qed.

Lemma string_length_app (a b : string) :
  String.length (a +:+ b) = String.length a + String.length b.
Proof.
  induction a as [|x a IH]; [done|].
  change (S (String.length (a +:+ b)) = S (String.length a + String.length b)).
  by rewrite IH.
Qed.

Lemma substring_prefix (b c : string) :
  substring 0 (String.length b) (b +:+ c) = b.
Proof.
  induction b as [|x b IH]; [by destruct c|].
  change (String x (substring 0 (String.length b) (b +:+ c)) = String x b).
  by rewrite IH.
Qed.

Lemma substring_middle (a b c : string) :
  substring (String.length a) (String.length b) (a +:+ b +:+ c) = b.
Proof.
  induction a as [|x a IH]; [exact (substring_prefix b c)|].
  change (substring (String.length a) (String.length b) (a +:+ b +:+ c) = b).
  exact IH.
Qed.

Lemma list_ascii_slashes (k : nat) :
  list_ascii_of_string (slashes k) = replicate k "/"%char.
Proof. induction k as [|k IH]; [done|]. simpl. by rewrite IH. Qed.

Lemma length_slashes (k : nat) : String.length (slashes k) = k.
Proof. induction k as [|k IH]; [done|]. simpl. by rewrite IH. Qed.

Lemma rev_replicate_same {A : Type} (k : nat) (x : A) :
  rev (replicate k x) = replicate k x.
Proof.
  induction k as [|k IH]; [done|]. simpl. rewrite IH.
  clear IH. induction k as [|k IH]; [done|]. simpl. by rewrite IH.
Qed.

(** *** The scan of [extname] *)

(** Trailing separators are skipped. *)
Lemma scan_slashes (k : nat) (rest : list ascii) (i : Z) (st : ext_state) :
  matchedSlash st = true ->
  extname_scan (replicate k "/"%char ++ rest) i st
  = extname_scan rest (i - Z.of_nat k) st.
Proof.
  intros Hms. revert i. induction k as [|k IH]; intros i.
  - simpl. f_equal. lia.
  - simpl replicate. cbn [app extname_scan]. simpl Ascii.eqb. cbv iota.
    rewrite Hms. simpl negb. cbv iota. rewrite IH. f_equal. lia.
Qed.

(** The state the scan starts from. *)
Lemma extname_unfold (path : string) :
  extname path
  = let st :=
      extname_scan (rev (list_ascii_of_string path))
        (Z.of_nat (String.length path) - 1) (mk_ext (-1) 0 (-1) true 0) in
    if (startDot st =? -1)%Z || (end_ st =? -1)%Z || (preDotState st =? 0)%Z
       || ((preDotState st =? 1)%Z && (startDot st =? end_ st - 1)%Z
           && (startDot st =? startPart st + 1)%Z)
    then ""
    else substring (Z.to_nat (startDot st))
           (Z.to_nat (end_ st - startDot st)) path.
Proof. reflexivity. Qed.

Lemma plain_chars_cons (x : ascii) (xs : list ascii) :
  plain_chars (x :: xs) = true ->
  Ascii.eqb x "/" = false /\ Ascii.eqb x "." = false
  /\ plain_chars xs = true.
Proof.
  unfold plain_chars. simpl. intros [Hx Hxs]%andb_prop.
  apply andb_prop in Hx as [Hslash Hdot].
  by apply negb_true_iff in Hslash, Hdot.
Qed.

Lemma plain_chars_rev (xs : list ascii) :
  plain_chars xs = true -> plain_chars (rev xs) = true.
Proof.
  unfold plain_chars. rewrite !forallb_forall. intros H x Hx.
  apply H. by apply in_rev.
Qed.

(** Once the end of the last component is marked, characters that are
    neither separators nor dots change nothing before the first dot. *)
Lemma scan_name (xs rest : list ascii) (i e : Z) :
  plain_chars xs = true -> e <> (-1)%Z ->
  extname_scan (xs ++ rest) i (mk_ext (-1) 0 e false 0)
  = extname_scan rest (i - Z.of_nat (length xs)) (mk_ext (-1) 0 e false 0).
Proof.
  intros Hxs He. revert i. induction xs as [|x xs IH]; intros i.
  - simpl. f_equal. lia.
  - apply plain_chars_cons in Hxs as (Hslash & Hdot & Hxs).
    cbn [app extname_scan]. rewrite Hslash, Hdot. cbv iota zeta.
    cbn [end_ startDot startPart matchedSlash preDotState].
    replace (e =? -1)%Z with false by (symmetry; by apply Z.eqb_neq).
    cbn [end_ startDot startPart matchedSlash preDotState].
    simpl Z.eqb. simpl negb. cbv iota. rewrite (IH Hxs). f_equal.
    simpl length. lia.
Qed.

(** From the start: the extension, read backwards, up to its dot. *)
Lemma scan_ext (lext rest : list ascii) (i j : Z) :
  plain_chars lext = true -> (0 <= j)%Z ->
  i = (j + Z.of_nat (length lext))%Z ->
  extname_scan (rev lext ++ "."%char :: rest) i (mk_ext (-1) 0 (-1) true 0)
  = extname_scan rest (j - 1) (mk_ext j 0 (i + 1) false 0).
Proof.
  intros Hplain Hj ->. apply plain_chars_rev in Hplain.
  rewrite <- (length_rev lext).
  destruct (rev lext) as [|x xs].
  - simpl length. rewrite Z.add_0_r. reflexivity.
  - apply plain_chars_cons in Hplain as (Hslash & Hdot & Hxs).
    cbn [app extname_scan]. rewrite Hslash, Hdot. cbv iota zeta.
    cbn [end_ startDot startPart matchedSlash preDotState].
    simpl Z.eqb. simpl negb. cbv iota.
    cbn [end_ startDot startPart matchedSlash preDotState].
    rewrite (scan_name xs _ _ _ Hxs) by (simpl length; lia).
    cbn [extname_scan]. simpl Ascii.eqb. cbv iota zeta.
    cbn [end_ startDot startPart matchedSlash preDotState].
    replace (j + Z.of_nat (length (x :: xs)) + 1 =? -1)%Z with false
      by (symmetry; apply Z.eqb_neq; lia).
    cbn [end_ startDot startPart matchedSlash preDotState].
    simpl Z.eqb. cbv iota. f_equal; [simpl length; lia|].
    f_equal. simpl length. lia.
Qed.

(** After the dot and a character before it: whatever comes before keeps
    the dot and the end, and leaves the state of the component's start
    such that the extension is not dropped. *)
Lemma scan_rest (rest : list ascii) (i : Z) (st : ext_state) :
  i = (Z.of_nat (length rest) - 1)%Z ->
  startDot st <> (-1)%Z -> end_ st <> (-1)%Z -> matchedSlash st = false ->
  preDotState st <> 0%Z -> startPart st = 0%Z ->
  let st' := extname_scan rest i st in
  startDot st' = startDot st /\ end_ st' = end_ st
  /\ preDotState st' <> 0%Z
  /\ (startPart st' <= i + 1)%Z
  /\ (startPart st' = (i + 1)%Z -> preDotState st' = preDotState st).
Proof.
  revert i st. induction rest as [|x rest IH];
    intros i st -> Hsd He Hms Hpds Hsp st'; subst st'.
  - simpl. rewrite Hsp. repeat split; done || lia.
  - cbn [extname_scan].
    destruct (Ascii.eqb x "/") eqn:Hslash.
    + rewrite Hms. simpl negb. cbv iota.
      cbn [end_ startDot startPart matchedSlash preDotState].
      repeat split; done || lia.
    + cbv zeta.
      replace (end_ st =? -1)%Z with false
        by (symmetry; by apply Z.eqb_neq).
      replace (startDot st =? -1)%Z with false
        by (symmetry; by apply Z.eqb_neq).
      simpl negb. cbv iota.
      match goal with
      | |- context [extname_scan rest ?i' ?st1] =>
          destruct (IH i' st1) as (H1 & H2 & H3 & H4 & H5)
      end.
      * simpl length. lia.
      * destruct (Ascii.eqb x "."), (negb (preDotState st =? 1)%Z);
          by cbn [startDot].
      * destruct (Ascii.eqb x "."), (negb (preDotState st =? 1)%Z);
          by cbn [end_].
      * destruct (Ascii.eqb x "."), (negb (preDotState st =? 1)%Z);
          by cbn [matchedSlash].
      * destruct (Ascii.eqb x "."), (negb (preDotState st =? 1)%Z);
          cbn [preDotState]; done.
      * destruct (Ascii.eqb x "."), (negb (preDotState st =? 1)%Z);
          by cbn [startPart].
      * rewrite H1, H2.
        split; [by destruct (Ascii.eqb x "."),
                    (negb (preDotState st =? 1)%Z)|].
        split; [by destruct (Ascii.eqb x "."),
                    (negb (preDotState st =? 1)%Z)|].
        split; [done|]. simpl length in *. split; [lia|]. lia.
Qed.

Lemma plain_name_chars (s : string) :
  plain_name s = true -> plain_chars (list_ascii_of_string s) = true.
Proof. done. Qed.

Lemma nonempty_length (s : string) : 0 < String.length s -> s <> "".
Proof. by destruct s; [simpl; lia|]. Qed.

(** The argument has no extension: the directory form of the pattern. *)
Lemma pattern_without_extension (p : string) :
  p <> "" -> extname p = "" ->
  getTestPattern (VStr p)
  = Ok ((if ends_with_separator p then p else p +:+ "/")
        +:+ "**/*.test.script").
Proof.
  intros Hne Hext. unfold getTestPattern. rewrite Hext.
  change (truthy (VStr "")) with false.
  rewrite (truthy_nonempty _ Hne). cbv iota.
  unfold lastIndexOf, ends_with_separator, suffixPattern.
  pose proof (lastIndexOf_from_last "/" p 0 ltac:(lia) Hne) as Hlast.
  destruct (Z.eqb_spec (lastIndexOf_from "/" p 0)
              (Z.of_nat (String.length p) - 1)) as [Heq | Hneq].
  - destruct Hlast as [Hlast _]. rewrite Hlast by lia. reflexivity.
  - assert (last_char p <> Some "/"%char) as Hnot
      by (intros Hc; apply Hlast in Hc; lia).
    destruct (last_char p) as [c|]; [|by rewrite append_assoc].
    destruct (Ascii.eqb_spec c "/"); [congruence|]. by rewrite append_assoc.
Qed.

(** X8: a path that ends, before any trailing separators, with a
    character other than a separator or a dot, then a dot, then
    characters that are neither has that dot and those characters as its
    extension; the pattern is then the path, trailing separators
    included, followed by a star. *)
Theorem getTestPattern_extension (pre ext : string) (c : ascii) (k : nat) :
  c <> "/"%char -> c <> "."%char -> plain_name ext = true ->
  let p := pre +:+ String c ("." +:+ ext) +:+ slashes k in
  extname p = "." +:+ ext
  /\ getTestPattern (VStr p) = Ok (p +:+ "*").
Proof.
  intros Hslash Hdot Hext p.
  assert (p = (pre +:+ String c "") +:+ ("." +:+ ext) +:+ slashes k) as Hp
    by (unfold p; by rewrite append_assoc).
  set (a := Z.of_nat (String.length pre)).
  set (n := Z.of_nat (String.length ext)).
  assert (Z.of_nat (String.length p) = a + 2 + n + Z.of_nat k)%Z as Hlen.
  { unfold p, a, n. rewrite !string_length_app. simpl String.length.
    rewrite string_length_app, length_slashes. simpl String.length. lia. }
  assert (rev (list_ascii_of_string p)
          = replicate k "/"%char
            ++ rev (list_ascii_of_string ext)
            ++ "."%char :: c :: rev (list_ascii_of_string pre)) as Hrev.
  { unfold p. rewrite list_ascii_app.
    change (list_ascii_of_string (String c ("." +:+ ext) +:+ slashes k))
      with (c :: "."%char :: list_ascii_of_string (ext +:+ slashes k)).
    rewrite list_ascii_app, list_ascii_slashes.
    rewrite rev_app_distr. simpl rev. rewrite rev_app_distr, rev_replicate_same.
    by rewrite <- !(assoc_L (++)). }
  assert (extname p = "." +:+ ext) as Hextname.
  { rewrite extname_unfold. cbv zeta. rewrite Hrev.
    rewrite scan_slashes by done.
    rewrite (scan_ext _ _ _ (a + 1)%Z (plain_name_chars _ Hext))
      by (rewrite ?length_list_ascii; unfold a, n in *; lia).
    replace (a + 1 - 1)%Z with a by lia.
    replace (Z.of_nat (String.length p) - 1 - Z.of_nat k + 1)%Z
      with (a + 2 + n)%Z by lia.
    cbn [extname_scan].
    replace (Ascii.eqb c "/") with false
      by (symmetry; by apply Ascii.eqb_neq).
    replace (Ascii.eqb c ".") with false
      by (symmetry; by apply Ascii.eqb_neq).
    assert ((a + 2 + n =? -1)%Z = false) as Hf1
      by (apply Z.eqb_neq; unfold a, n; lia).
    assert ((a + 1 =? -1)%Z = false) as Hf2
      by (apply Z.eqb_neq; unfold a; lia).
    cbv iota zeta.
    repeat (cbn [end_ startDot startPart matchedSlash preDotState];
            rewrite ?Hf1, ?Hf2; simpl negb; cbv iota).
    destruct (scan_rest (rev (list_ascii_of_string pre)) (a - 1)
                (mk_ext (a + 1) 0 (a + 2 + n) false (-1)))
      as (Hsd & He & Hpds & Hsp & Hsame);
      try done;
      try (cbn [end_ startDot startPart matchedSlash preDotState];
           unfold a, n; lia).
    { rewrite length_rev, length_list_ascii. unfold a. lia. }
    cbn [end_ startDot startPart matchedSlash preDotState] in *.
    rewrite Hsd, He, Hf1, Hf2.
    replace (preDotState _ =? 0)%Z with false
      by (symmetry; by apply Z.eqb_neq).
    replace ((preDotState _ =? 1)%Z && (a + 1 =? a + 2 + n - 1)%Z
             && (a + 1 =? startPart _ + 1)%Z) with false.
    2: { symmetry. apply andb_false_iff.
         destruct (Z.eqb_spec (a + 1)
                     (startPart
                        (extname_scan (rev (list_ascii_of_string pre))
                           (a - 1)
                           (mk_ext (a + 1) 0 (a + 2 + n) false (-1))) + 1))
           as [Heq | Hneq]; [|by right].
         left. apply andb_false_iff. left. apply Z.eqb_neq.
         rewrite Hsame by lia. done. }
    simpl orb. cbv iota.
    replace (Z.to_nat (a + 1)) with (String.length (pre +:+ String c ""))
      by (rewrite string_length_app; simpl String.length; unfold a; lia).
    replace (Z.to_nat (a + 2 + n - (a + 1)))
      with (String.length ("." +:+ ext))
      by (change ("." +:+ ext) with (String "." ext); simpl String.length;
          unfold a, n; lia).
    rewrite Hp. apply substring_middle. }
  split; [exact Hextname|].
  unfold getTestPattern. rewrite Hextname.
  rewrite truthy_nonempty by (apply nonempty_length; lia).
  by rewrite truthy_nonempty by done.
Qed.

Lemma scan_no_dot (xs : list ascii) (i : Z) (st : ext_state) :
  forallb (fun c => negb (Ascii.eqb c ".")) xs = true ->
  startDot st = (-1)%Z ->
  startDot (extname_scan xs i st) = (-1)%Z.
Proof.
  revert i st. induction xs as [|x xs IH]; intros i st Hxs Hsd; [done|].
  simpl in Hxs. apply andb_prop in Hxs as [Hx Hxs].
  apply negb_true_iff in Hx.
  cbn [extname_scan]. rewrite Hx.
  destruct (Ascii.eqb x "/"); [destruct (negb (matchedSlash st))|].
  - done.
  - by apply IH.
  - cbv zeta. apply IH; [done|].
    destruct (end_ st =? -1)%Z;
      cbn [startDot]; rewrite Hsd; by simpl.
Qed.

(** X9: a non-empty path without any dot has no extension, so it is
    taken for a directory: the pattern is the path, a separator unless
    the path ends with one, and ["**/*.test.script"]. *)
Theorem getTestPattern_no_dot (p : string) :
  p <> "" -> no_dot p = true ->
  extname p = ""
  /\ getTestPattern (VStr p)
     = Ok ((if ends_with_separator p then p else p +:+ "/")
           +:+ "**/*.test.script").
Proof.
  intros Hne Hdots.
  assert (extname p = "") as Hext.
  { rewrite extname_unfold. cbv zeta. rewrite scan_no_dot; [done| |done].
    unfold no_dot in Hdots. rewrite forallb_forall in *.
    intros x Hx. apply Hdots. by apply in_rev. }
  split; [exact Hext|]. by apply pattern_without_extension.
Qed.

Lemma last_char_rev (s : string) (c : ascii) :
  last_char s = Some c ->
  exists l, rev (list_ascii_of_string s) = c :: l.
Proof.
  induction s as [|x s IH]; [done|].
  destruct s as [|y s].
  - intros [= ->]. by exists [].
  - change (last_char (String x (String y s))) with (last_char (String y s)).
    intros Hlast. destruct (IH Hlast) as [l Hl].
    exists (l ++ [x]).
    change (rev (list_ascii_of_string (String y s)) ++ [x] = c :: l ++ [x]).
    by rewrite Hl.
Qed.

(** X10: a last component that starts with its only dot (a hidden file
    or directory, or ["."]) has no extension either, trailing separators
    or not, and is taken for a directory. *)
Theorem getTestPattern_hidden (dir name : string) (k : nat) :
  dir = "" \/ ends_with_separator dir = true ->
  plain_name name = true ->
  let p := dir +:+ "." +:+ name +:+ slashes k in
  extname p = ""
  /\ getTestPattern (VStr p)
     = Ok ((if ends_with_separator p then p else p +:+ "/")
           +:+ "**/*.test.script").
Proof.
  intros Hdir Hname p.
  set (a := Z.of_nat (String.length dir)).
  set (n := Z.of_nat (String.length name)).
  assert (Z.of_nat (String.length p) = a + 1 + n + Z.of_nat k)%Z as Hlen.
  { unfold p, a, n. rewrite !string_length_app, length_slashes.
    simpl String.length. lia. }
  assert (rev (list_ascii_of_string p)
          = replicate k "/"%char
            ++ rev (list_ascii_of_string name)
            ++ "."%char :: rev (list_ascii_of_string dir)) as Hrev.
  { unfold p. rewrite !list_ascii_app, list_ascii_slashes.
    change (list_ascii_of_string ".") with ["."%char].
    rewrite !rev_app_distr, rev_replicate_same. simpl rev.
    by rewrite <- !(assoc_L (++)). }
  assert (extname p = "") as Hext.
  { rewrite extname_unfold. cbv zeta. rewrite Hrev.
    rewrite scan_slashes by done.
    rewrite (scan_ext _ _ _ a (plain_name_chars _ Hname))
      by (rewrite ?length_list_ascii; unfold a, n in *; lia).
    assert (forall st, preDotState st = 0%Z ->
              (startDot st =? -1)%Z || (end_ st =? -1)%Z
              || (preDotState st =? 0)%Z
              || ((preDotState st =? 1)%Z && (startDot st =? end_ st - 1)%Z
                  && (startDot st =? startPart st + 1)%Z) = true) as Hdrop.
    { intros st ->. simpl Z.eqb. by rewrite orb_true_r. }
    destruct Hdir as [Hempty | Hsep].
    - subst dir. simpl rev. cbn [extname_scan]. by rewrite Hdrop.
    - unfold ends_with_separator in Hsep.
      destruct (last_char dir) as [c|] eqn:Hlast; [|done].
      apply Ascii.eqb_eq in Hsep as ->.
      destruct (last_char_rev _ _ Hlast) as [l ->].
      cbn [extname_scan]. simpl Ascii.eqb. cbv iota.
      cbn [matchedSlash negb]. by rewrite Hdrop. }
  split; [exact Hext|]. apply pattern_without_extension; [|done].
  apply nonempty_length. lia.
Qed.

(** ** Configuration texts without keys *)

(** X11: a configuration text that is valid JSON but holds [null], a
    boolean, a number or the empty string is accepted: nothing is merged,
    and the configuration (and the [defaultConfig] constant) is the
    defaults. *)
Theorem keyless_config_keeps_defaults (w : world) (contents : string)
    (b : value) (j : json) :
  JSON_parse w contents = Some j ->
  keyless j = true ->
  truthy b = false ->
  exists config bundlerConfig h,
    configure w contents b module_heap = Ok (config, bundlerConfig, h)
    /\ tree_of h config = Some (CliConfig_json defaults)
    /\ tree_of h defaultConfig = Some (CliConfig_json defaults).
Proof.
  intros Hparse Hkeyless Hfalsy.
  destruct (derive_synthesized w contents b j Hparse Hfalsy)
    as (uv & U & Hrepr & Hderive).
  assert (merge (VRef (13 + length U)) [uv]
            (module_heap ++ U
             ++ [OObj top_props; default_options;
                 OObj [("sources", VRef 11);
                       ("options", VRef (13 + length U + 1))]])
          = Ok (module_heap ++ U
                ++ [OObj top_props; default_options;
                    OObj [("sources", VRef 11);
                          ("options", VRef (13 + length U + 1))]]))
    as Hmerge.
  { destruct j as [| |n|[|? ?]| |]; try done; simpl in Hrepr; subst uv;
      unfold merge, createAssigner, assignSources; try done.
    - by destruct b0.
    - simpl truthy. by destruct (negb (n =? 0)%Z). }
  eexists _, _, _. split.
  { unfold configure. rewrite Hderive, bind_Ok. cbv beta iota.
    rewrite Hmerge. by rewrite bind_Ok. }
  rewrite module_heap_cells.
  split; apply tree_of_cells; [by apply lookup_cells_config | reflexivity].
Qed.

(** ** The runner and execution configurations *)

Lemma holds_config_app (h T : heap) (config : value) (c : CliConfig) :
  holds_config h config c -> holds_config (h ++ T) config c.
Proof.
  intros (l & -> & Hl & H0 & H1 & H2 & H3).
  exists l. repeat split; by apply lookup_app_l_Some.
Qed.

Lemma get_config (h : heap) (config : value) (c : CliConfig) (k : string) :
  holds_config h config c ->
  get h config k = Ok (default VUndef (lookup_prop k top_props)).
Proof. intros (l & -> & Hl & _). by apply get_at. Qed.

Lemma scriptRunnerConfig_of_config (h : heap) (config : value)
    (c : CliConfig) :
  holds_config h config c ->
  scriptRunnerConfig_of config h
  = Ok (VRef (length h + 1),
        h ++ take 2 (assembled (length h) c "" VUndef)).
Proof.
  intros Hc. pose proof Hc as (l & -> & Hl & H0 & H1 & H2 & H3).
  unfold scriptRunnerConfig_of.
  repeat first
    [ rewrite (get_config _ _ _ _ Hc) | rewrite (get_at _ _ _ _ H2)
    | rewrite (get_at _ _ _ _ H0) | rewrite (get_at _ _ _ _ H1)
    | rewrite bind_Ok | progress simpl default ].
  unfold alloc. cbn [truthy take assembled].
  rewrite length_app. cbn [length]. by rewrite <- (assoc_L (++)).
Qed.

Lemma new_at (cls : string) (args : list value) (h : heap) :
  new cls args h
  = ([Construct cls args], Ok (VRef (length h), h ++ [OInst cls args])).
Proof. reflexivity. Qed.

Lemma prog_bind_Ok {A B : Type} (events : list event) (a : A)
    (f : A -> prog B) :
  ((events, Ok a) ≫= f) = (events ++ (f a).1, (f a).2).
Proof. reflexivity. Qed.

Lemma get_TestServer (h : heap) (l : nat) (t : TestServer) :
  h !! l = Some (TestServer_cell t) ->
  get h (VRef l) "host" = Ok (VStr (server_host t))
  /\ get h (VRef l) "port" = Ok (VNum (port t))
  /\ get h (VRef l) "defaultExecutionTimeout"
     = Ok (VNum (defaultExecutionTimeout t))
  /\ get h (VRef l) "restartThreshold" = Ok (threshold_value t).
Proof.
  intros Hl. unfold get. rewrite Hl. unfold TestServer_cell, threshold_value.
  by destruct (restartThreshold t).
Qed.

Lemma testRunnerConfig_of_config (h : heap) (config src : value)
    (c : CliConfig) (pattern : string) (bundlerConfig : value) (n : nat) :
  holds_config h config c ->
  length h = n + 2 -> src = VRef (n + 1) ->
  testRunnerConfig_of config src h
  = ([Construct "URScriptRunner" [src]],
     Ok (VRef (n + 3),
         h ++ take 2 (drop 2 (assembled n c pattern bundlerConfig)))).
Proof.
  intros Hc Hlen ->. unfold testRunnerConfig_of. rewrite new_at, prog_bind_Ok.
  cbv beta iota.
  apply (holds_config_app _ [OInst "URScriptRunner" [VRef (n + 1)]]) in Hc.
  pose proof Hc as (l & -> & Hl & H0 & H1 & H2 & H3).
  destruct (get_TestServer _ _ _ H3) as (Hhost & Hport & Htime & Hthr).
  repeat first
    [ rewrite (get_config _ _ _ _ Hc) | rewrite Hport | rewrite Htime
    | rewrite Hthr | rewrite prog_bind_lift | progress simpl default ].
  unfold alloc, mret, prog_ret. cbn [fst snd app take drop assembled].
  rewrite length_app, Hlen. cbn [length].
  rewrite <- (assoc_L (++)). cbn [app].
  replace (n + 2 + 1) with (n + 3) by lia. reflexivity.
Qed.

Lemma executionConfig_of_config (args : argv) (h : heap)
    (config bundlerConfig trc : value) (c : CliConfig) (pattern : string)
    (n : nat) :
  holds_config h config c ->
  length h = n + 4 -> trc = VRef (n + 3) ->
  getTestPattern (default VUndef (positional args !! 0)) = Ok pattern ->
  executionConfig_of args config bundlerConfig trc h
  = ([Construct "TestRunner" [trc]; Construct "TestResultWriter" []],
     Ok (VRef (n + 10),
         h ++ take 7 (drop 4 (assembled n c pattern bundlerConfig)))).
Proof.
  intros Hc Hlen -> Hpattern. unfold executionConfig_of.
  rewrite new_at, prog_bind_Ok. cbv beta iota.
  apply (holds_config_app _ [OInst "TestRunner" [VRef (n + 3)]]) in Hc.
  pose proof Hc as (l & -> & Hl & H0 & H1 & H2 & H3).
  destruct (get_TestServer _ _ _ H3) as (Hhost & Hport & Htime & Hthr).
  repeat first
    [ rewrite (get_config _ _ _ _ Hc) | rewrite Hhost | rewrite Hport
    | rewrite Hpattern | rewrite prog_bind_lift | progress simpl default ].
  rewrite new_at, prog_bind_Ok. cbv beta iota.
  unfold alloc, mret, prog_ret. cbn [fst snd app take drop assembled].
  rewrite !length_app, Hlen. cbn [length].
  rewrite <- !(assoc_L (++)). cbn [app].
  rewrite <- !Nat.add_assoc. reflexivity.
Qed.

Lemma executionConfig_of_throws (args : argv) (h : heap)
    (config bundlerConfig trc : value) (c : CliConfig) (e : error) :
  holds_config h config c ->
  getTestPattern (default VUndef (positional args !! 0)) = Throw e ->
  executionConfig_of args config bundlerConfig trc h
  = ([Construct "TestRunner" [trc]], Throw e).
Proof.
  intros Hc Hpattern. unfold executionConfig_of.
  rewrite new_at, prog_bind_Ok. cbv beta iota.
  apply (holds_config_app _ [OInst "TestRunner" [trc]]) in Hc.
  pose proof Hc as (l & -> & Hl & H0 & H1 & H2 & H3).
  destruct (get_TestServer _ _ _ H3) as (Hhost & Hport & Htime & Hthr).
  repeat first
    [ rewrite (get_config _ _ _ _ Hc) | rewrite Hhost | rewrite Hport
    | rewrite prog_bind_lift | progress simpl default ].
  rewrite Hpattern. reflexivity.
Qed.

(** The body of the [try] block once the configuration is resolved:
    lines 140-179. *)
Lemma body_assembles (w : world) (args : argv) (contents : string)
    (b : value) (h0 H : heap) (events : list event)
    (config bundlerConfig : value) (c : CliConfig) (pattern : string) :
  resolve w contents b h0 = (events, Ok (config, bundlerConfig, H)) ->
  holds_config H config c ->
  getTestPattern (default VUndef (positional args !! 0)) = Ok pattern ->
  let n := length H in
  let H' := H ++ assembled n c pattern bundlerConfig in
  body w args contents b h0
  = (events ++ [Construct "URScriptRunner" [VRef (n + 1)];
                Construct "TestRunner" [VRef (n + 3)];
                Construct "TestResultWriter" [];
                Construct "TestExecutionService" [VRef (n + 10)];
                Execute (VRef (n + 10))],
     if execute w H' (VRef (n + 10)) then Ok H' else Throw ExecutionError).
Proof.
  intros Hresolve Hc Hpattern n H'. unfold body.
  rewrite Hresolve, prog_bind_Ok. cbv beta iota.
  rewrite (scriptRunnerConfig_of_config _ _ _ Hc), prog_bind_lift.
  cbv beta iota. fold n.
  rewrite (testRunnerConfig_of_config _ _ _ c pattern bundlerConfig n);
    [| by apply holds_config_app | rewrite length_app; simpl; lia | done].
  rewrite prog_bind_Ok. cbv beta iota.
  rewrite (executionConfig_of_config _ _ _ _ _ c pattern n);
    [| by do 2 apply holds_config_app
     | rewrite !length_app; simpl; lia | done | done].
  rewrite prog_bind_Ok. cbv beta iota.
  rewrite new_at, prog_bind_Ok. cbv beta iota.
  unfold emit. rewrite prog_bind_Ok. cbv beta iota.
  assert ((((H ++ take 2 (assembled n c "" VUndef))
            ++ take 2 (drop 2 (assembled n c pattern bundlerConfig)))
           ++ take 7 (drop 4 (assembled n c pattern bundlerConfig)))
          ++ [OInst "TestExecutionService" [VRef (n + 10)]] = H') as ->
    by (unfold H'; by rewrite <- !(assoc_L (++))).
  by destruct (execute w H' (VRef (n + 10))).
Qed.

Lemma body_pattern_throws (w : world) (args : argv) (contents : string)
    (b : value) (h0 H : heap) (events : list event)
    (config bundlerConfig : value) (c : CliConfig) (e : error) :
  resolve w contents b h0 = (events, Ok (config, bundlerConfig, H)) ->
  holds_config H config c ->
  getTestPattern (default VUndef (positional args !! 0)) = Throw e ->
  body w args contents b h0
  = (events ++ [Construct "URScriptRunner" [VRef (length H + 1)];
                Construct "TestRunner" [VRef (length H + 3)]],
     Throw e).
Proof.
  intros Hresolve Hc Hpattern. unfold body.
  rewrite Hresolve, prog_bind_Ok. cbv beta iota.
  rewrite (scriptRunnerConfig_of_config _ _ _ Hc), prog_bind_lift.
  cbv beta iota.
  rewrite (testRunnerConfig_of_config _ _ _ c "" VUndef (length H));
    [| by apply holds_config_app | rewrite length_app; simpl; lia | done].
  rewrite prog_bind_Ok. cbv beta iota.
  rewrite (executionConfig_of_throws _ _ _ _ _ c e);
    [| by do 2 apply holds_config_app | done].
  reflexivity.
Qed.

(** ** The heap at the [catch] *)

(** The followed stages give what the stages give: the same value and
    heap, or the same failure. *)

Lemma settle_Ok {A : Type} (x : result A * heap) (a : A) (h : heap) :
  settle x = Ok (a, h) -> x = (Ok a, h).
Proof. destruct x as [[| | |] ?]; unfold settle; simpl; congruence. Qed.

Lemma settle_ret {A : Type} (a : A) (h : heap) :
  settle (mret (M := tracked) a h) = Ok (a, h).
Proof. reflexivity. Qed.

Lemma settle_bind {A B : Type} (m : tracked A) (f : A -> tracked B)
    (h : heap) :
  settle ((m ≫= f) h) = ('(a, h') ← settle (m h); settle (f a h')).
Proof.
  unfold mbind, tracked_bind, settle. by destruct (m h) as [[| | |] ?].
Qed.

Lemma settle_peek {A : Type} (g : heap -> result A) (h : heap) :
  settle (peek g h) = (a ← g h; Ok (a, h)).
Proof. reflexivity. Qed.

Lemma settle_grow {A : Type} (g : heap -> A * heap) (h : heap) :
  settle (grow g h) = Ok (g h).
Proof. unfold settle, grow. simpl. by destruct (g h). Qed.

Lemma settle_commit {A : Type} (g : heap -> result (A * heap)) (h : heap) :
  settle (commit g h) = g h.
Proof. unfold settle, commit. by destruct (g h) as [[? ?]| | |]. Qed.

Lemma settle_store (g : heap -> result heap) (h : heap) :
  settle (store g h) = (h' ← g h; Ok (tt, h')).
Proof. unfold store. by rewrite settle_commit. Qed.

Lemma bind_bind {A B C : Type} (r : result A) (f : A -> result B)
    (g : B -> result C) :
  ((r ≫= f) ≫= g) = (r ≫= fun a => f a ≫= g).
Proof. by destruct r. Qed.

(** One statement of a followed stage against the same statement of the
    stage. *)
Ltac settle_head :=
  rewrite settle_bind;
  first [ rewrite settle_peek | rewrite settle_grow | rewrite settle_store
        | rewrite settle_commit ];
  rewrite ?bind_bind;
  try rewrite bind_Ok.

Ltac same_head :=
  match goal with
  | E : ?r = Ok _ |- mbind _ ?r = _ => rewrite E, !bind_Ok
  | |- mbind _ ?r = _ =>
      destruct r as [?| | |] eqn:?; [rewrite !bind_Ok | done..]
  end.

Lemma follow_deriveBundlerConfig_agrees (w : world) (contents : string)
    (b : value) (h : heap) :
  settle (follow_deriveBundlerConfig w contents b h)
  = deriveBundlerConfig w contents b h.
Proof.
  unfold follow_deriveBundlerConfig, deriveBundlerConfig.
  settle_head. same_head. cbv beta.
  settle_head. destruct (alloc_json a h) as [userConfig h1]. cbv beta iota.
  settle_head. same_head. destruct a0 as [config h2]. cbv beta iota.
  rewrite settle_bind.
  assert (settle ((if truthy b
                   then match b with
                        | VStr text =>
                            j ← peek (fun _ => parse w text);
                            grow (alloc_json j)
                        | _ => peek (fun _ =>
                                 Unmodelled
                                   "bundle contents that are not a string")
                        end
                   else commit (synthesized config)) h2)
          = (if truthy b
             then match b with
                  | VStr text => j ← parse w text; Ok (alloc_json j h2)
                  | _ => Unmodelled "bundle contents that are not a string"
                  end
             else synthesized config h2)) as ->.
  { destruct (truthy b); [|by rewrite settle_commit].
    destruct b; try done.
    settle_head. same_head. by rewrite settle_grow. }
  same_head. destruct a0 as [bundlerConfig h3]. cbv beta iota.
  settle_head. same_head. cbv beta.
  rewrite settle_bind.
  destruct (negb (truthy a0)).
  - rewrite settle_bind, settle_grow, bind_Ok. unfold alloc.
    cbv beta iota. rewrite settle_store, !bind_bind. same_head.
    by rewrite settle_ret.
  - by rewrite settle_ret.
Qed.

Lemma follow_configure_agrees (w : world) (contents : string) (b : value)
    (h : heap) :
  settle (follow_configure w contents b h) = configure w contents b h.
Proof.
  unfold follow_configure, configure.
  rewrite settle_bind, follow_deriveBundlerConfig_agrees.
  same_head. destruct a as [[[userConfig config] bundlerConfig] h1].
  settle_head. same_head. by rewrite settle_ret.
Qed.

Lemma follow_mergeSources_agrees (config bundlerConfig : value) (h : heap) :
  settle (follow_mergeSources config bundlerConfig h)
  = (h' ← mergeSources config bundlerConfig h; Ok (tt, h')).
Proof.
  unfold follow_mergeSources, mergeSources.
  settle_head. unfold alloc. cbv beta iota.
  do 4 (settle_head; same_head; cbv beta).
  settle_head. same_head. cbv beta.
  settle_head. same_head. cbv beta.
  by rewrite settle_store.
Qed.

Lemma prog_bind_result {A B : Type} (m : prog A) (f : A -> prog B) :
  (m ≫= f).2 = (a ← m.2; (f a).2).
Proof. destruct m as [events [| | |]]; reflexivity. Qed.

Lemma follow_resolve_agrees (w : world) (contents : string) (b : value)
    (h : heap) :
  settle (follow_resolve w contents b h)
  = (resolve w contents b h).2.
Proof.
  unfold follow_resolve, resolve.
  rewrite settle_bind, follow_configure_agrees. unfold lift, emit.
  destruct (configure w contents b h) as [[[config bundlerConfig] h1]| | |];
    [|done..].
  rewrite bind_Ok, prog_bind_Ok. cbv beta iota.
  settle_head. unfold alloc. cbv beta iota.
  rewrite prog_bind_Ok. cbn [fst snd app].
  rewrite settle_bind, follow_mergeSources_agrees, bind_bind.
  destruct (mergeSources config bundlerConfig
              (h1 ++ [OObj [("config", config)]])) as [h2| | |]; done.
Qed.

Lemma prog_bind_lift_result {A B : Type} (r : result A) (f : A -> prog B) :
  (lift r ≫= f).2 = (a ← r; (f a).2).
Proof. by destruct r. Qed.

Ltac prog_head :=
  settle_head; rewrite prog_bind_lift_result; same_head; cbv beta iota.

Lemma follow_testRunnerConfig_of_agrees (config src : value) (h : heap) :
  settle (follow_testRunnerConfig_of config src h)
  = (testRunnerConfig_of config src h).2.
Proof.
  unfold follow_testRunnerConfig_of, testRunnerConfig_of.
  settle_head. rewrite new_at, prog_bind_Ok. unfold alloc at 1.
  cbn [fst snd]. cbv beta iota.
  do 6 prog_head.
  by rewrite settle_grow.
Qed.

Lemma follow_executionConfig_of_agrees (args : argv)
    (config bundlerConfig trc : value) (h : heap) :
  settle (follow_executionConfig_of args config bundlerConfig trc h)
  = (executionConfig_of args config bundlerConfig trc h).2.
Proof.
  unfold follow_executionConfig_of, executionConfig_of.
  settle_head. rewrite new_at, prog_bind_Ok. unfold alloc at 1.
  cbn [fst snd]. cbv beta iota.
  do 6 prog_head.
  settle_head. rewrite new_at, prog_bind_Ok. unfold alloc.
  cbn [fst snd]. cbv beta iota.
  do 4 (rewrite settle_bind, settle_grow, bind_Ok; cbv beta iota).
  by rewrite settle_grow.
Qed.

(** The followed body ends as the body does, and on the same heap when
    the body runs to its end. *)
Lemma follow_body_agrees (w : world) (args : argv) (contents : string)
    (b : value) (h : heap) :
  (body w args contents b h).2
  = ('(_, h') ← settle (follow_body w args contents b h); Ok h').
Proof.
  unfold follow_body, body.
  rewrite settle_bind, follow_resolve_agrees, prog_bind_result.
  same_head. destruct a as [[config bundlerConfig] h1]. cbv beta iota.
  rewrite prog_bind_lift_result.
  rewrite settle_bind, settle_commit. same_head.
  destruct a as [src h2]. cbv beta iota.
  rewrite prog_bind_result.
  rewrite settle_bind, follow_testRunnerConfig_of_agrees. same_head.
  destruct a as [trc h3]. cbv beta iota.
  rewrite prog_bind_result.
  rewrite settle_bind, follow_executionConfig_of_agrees. same_head.
  destruct a as [ec h4]. cbv beta iota.
  rewrite new_at, prog_bind_Ok. cbv beta iota. cbn [snd].
  settle_head. unfold alloc. cbv beta iota. cbn [fst snd].
  unfold emit. rewrite prog_bind_Ok. cbn [snd]. rewrite settle_peek.
  by destruct (execute w (h4 ++ [OInst "TestExecutionService" [ec]]) ec).
Qed.

(** lodash's merges end in a heap or leave what is modelled; they do not
    throw. *)
Lemma baseAssignValue_no_throw (h : heap) (l : loc) (k : key) (v : value)
    (e : error) :
  baseAssignValue h l k v <> Throw e.
Proof. unfold baseAssignValue. by destruct (h !! l) as [[| |]|], k. Qed.

Lemma assignMergeValue_no_throw (h : heap) (l : loc) (k : key) (v : value)
    (e : error) :
  assignMergeValue h l k v <> Throw e.
Proof.
  unfold assignMergeValue. case_match; [|done].
  apply baseAssignValue_no_throw.
Qed.

Lemma then_assign_no_throw (r : result heap) (l : loc) (k : key) (v : value)
    (e : error) :
  r <> Throw e ->
  (h ← r; assignMergeValue h l k v) <> Throw e.
Proof.
  destruct r as [h| | |]; try done. intros _.
  apply assignMergeValue_no_throw.
Qed.

Lemma baseFor_no_throw {A : Type} (iteratee : key -> A -> result A)
    (props : list key) (a : A) (e : error) :
  (forall k a, iteratee k a <> Throw e) ->
  baseFor iteratee props a <> Throw e.
Proof.
  intros Hit. revert a. induction props as [|k props IH]; intros a; [done|].
  simpl. pose proof (Hit k a). destruct (iteratee k a); try done.
  apply IH.
Qed.

Lemma baseMergeDeep_no_throw (mergeFunc : loc -> loc -> heap -> result heap)
    (c : option customizer) (object source : loc) (k : key) (h : heap)
    (e : error) :
  (forall d s h, mergeFunc d s h <> Throw e) ->
  baseMergeDeep mergeFunc c object source k h <> Throw e.
Proof.
  intros Hf. unfold baseMergeDeep.
  destruct (customize c h (safeGet h object k) (safeGet h source k))
    as [newValue h1].
  repeat case_match; subst;
    first [ apply assignMergeValue_no_throw
          | by apply then_assign_no_throw
          | done
          | idtac ].
  all: unfold alloc in *; simplify_eq; by apply then_assign_no_throw.
Qed.

Lemma mergeKey_no_throw (mergeFunc : loc -> loc -> heap -> result heap)
    (c : option customizer) (object source : loc) (k : key) (h : heap)
    (e : error) :
  (forall d s h, mergeFunc d s h <> Throw e) ->
  mergeKey mergeFunc c object source k h <> Throw e.
Proof.
  intros Hf. unfold mergeKey. case_match.
  - by apply baseMergeDeep_no_throw.
  - destruct (customize c h (safeGet h object k) (safeGet h source k)).
    apply assignMergeValue_no_throw.
Qed.

Lemma baseMerge_no_throw (fuel : nat) (c : option customizer)
    (object source : loc) (h : heap) (e : error) :
  baseMerge fuel c object source h <> Throw e.
Proof.
  revert object source h.
  induction fuel as [|fuel IH]; intros object source h; [done|].
  simpl. case_match; [done|].
  destruct (h !! source) as [[ps|xs|cls args]|]; try done;
    apply baseFor_no_throw; intros k a; by apply mergeKey_no_throw.
Qed.

Lemma createAssigner_no_throw (c : option customizer) (object : value)
    (sources : list value) (h : heap) (e : error) :
  createAssigner c object sources h <> Throw e.
Proof.
  unfold createAssigner. destruct object as [| | | | |l]; try done.
  revert h. induction sources as [|source sources IH]; intros h; [done|].
  simpl.
  assert ((if truthy source
           then match source with
                | VRef s => baseMerge (S (length h)) c l s h
                | VStr _ => Unmodelled "string as a source"
                | _ => Ok h
                end
           else Ok h) <> Throw e) as Hhead.
  { case_match; [|done]. destruct source; try done.
    apply baseMerge_no_throw. }
  destruct (if truthy source then _ else _); try done. apply IH.
Qed.

(** ** The heap a run without errors before [execute] stops on *)

Lemma tracked_bind_Ok {A B : Type} (m : tracked A) (f : A -> tracked B)
    (h h' : heap) (a : A) :
  m h = (Ok a, h') -> (m ≫= f) h = f a h'.
Proof. intros Hm. unfold mbind, tracked_bind. by rewrite Hm. Qed.

Lemma follow_body_assembles (w : world) (args : argv) (contents : string)
    (b : value) (h0 H : heap) (events : list event)
    (config bundlerConfig : value) (c : CliConfig) (pattern : string) :
  resolve w contents b h0 = (events, Ok (config, bundlerConfig, H)) ->
  holds_config H config c ->
  getTestPattern (default VUndef (positional args !! 0)) = Ok pattern ->
  let n := length H in
  let H' := H ++ assembled n c pattern bundlerConfig in
  follow_body w args contents b h0
  = (if execute w H' (VRef (n + 10)) then Ok tt else Throw ExecutionError,
     H').
Proof.
  intros Hresolve Hc Hpattern n H'. unfold follow_body.
  erewrite tracked_bind_Ok;
    [| apply settle_Ok; by rewrite follow_resolve_agrees, Hresolve].
  cbv beta iota.
  erewrite tracked_bind_Ok;
    [| apply settle_Ok;
       by rewrite settle_commit, (scriptRunnerConfig_of_config _ _ _ Hc)].
  fold n.
  erewrite tracked_bind_Ok;
    [| apply settle_Ok; rewrite follow_testRunnerConfig_of_agrees;
       by rewrite (testRunnerConfig_of_config _ _ _ c pattern bundlerConfig n);
         [| apply holds_config_app | rewrite length_app; simpl; lia |]].
  erewrite tracked_bind_Ok;
    [| apply settle_Ok; rewrite follow_executionConfig_of_agrees;
       by rewrite (executionConfig_of_config _ _ _ _ _ c pattern n);
         [| do 2 apply holds_config_app
          | rewrite !length_app; simpl; lia | |]].
  erewrite tracked_bind_Ok; [| apply settle_Ok; by rewrite settle_grow].
  unfold peek, alloc. cbn [fst snd].
  assert ((((H ++ take 2 (assembled n c "" VUndef))
            ++ take 2 (drop 2 (assembled n c pattern bundlerConfig)))
           ++ take 7 (drop 4 (assembled n c pattern bundlerConfig)))
          ++ [OInst "TestExecutionService" [VRef (n + 10)]] = H') as ->
    by (unfold H'; by rewrite <- !(assoc_L (++))).
  reflexivity.
Qed.

(** ** A whole run without a bundle file *)

(** Where [resolve] ends for a typed user configuration and no bundle
    text. *)
Lemma resolve_typed (w : world) (contents : string) (b : value)
    (u : UserConfig) :
  JSON_parse w contents = Some (UserConfig_json u) ->
  truthy b = false ->
  exists U,
    let c := apply_user defaults u in
    let h := cells c ++ U ++ synthesized_cells U in
    resolve w contents b module_heap
    = ([LoggerDebug "urtest-cli launched with config"
          (VRef (13 + length U + 3))],
       Ok (VRef (13 + length U), VRef (13 + length U + 2),
           <[11 := OObj [("global", VRef (length h))]]>
             (h ++ merged_sets (length h) (scripts c) (scripts c)))).
Proof.
  intros Hparse Hfalsy.
  destruct (configure_typed w contents b u Hparse Hfalsy) as (U & Hconfigure).
  exists U. intros c h.
  unfold resolve. rewrite Hconfigure, prog_bind_lift. unfold alloc.
  rewrite <- !(assoc_L (++)). cbn [app].
  pose proof (mergeSources_aliased c U (synthesized_cells U) eq_refl eq_refl)
    as Hmerge.
  cbv zeta in Hmerge. fold h in Hmerge.
  change (cells (apply_user defaults u) ++ U
          ++ [OObj top_props; default_options;
              OObj [("sources", VRef 11);
                    ("options", VRef (13 + length U + 1))];
              OObj [("config", VRef (13 + length U))]]) with h.
  rewrite Hmerge.
  rewrite !length_app. cbn [length].
  unfold emit, mbind, prog_bind, lift, mret, prog_ret. cbn [fst snd app].
  repeat f_equal; unfold cells; simpl length; lia.
Qed.

Lemma holds_config_resolved (c : CliConfig) (U T : heap) (o : obj) :
  let h := cells c ++ U ++ synthesized_cells U in
  holds_config (<[11 := o]> (h ++ T)) (VRef (13 + length U)) c.
Proof.
  intros h. exists (13 + length U). split; [done|].
  assert (h !! (13 + length U) = Some (OObj top_props)) as Hconfig
    by (by apply lookup_cells_config).
  repeat split; (rewrite list_lookup_insert_ne by lia);
    by apply lookup_app_l_Some.
Qed.

Lemma main_plain (w : world) (args : argv) (u : UserConfig) :
  plain_run w args u ->
  exists contents,
    JSON_parse w contents = Some (UserConfig_json u)
    /\ main w args
       = let r := guarded w args contents VUndef module_heap in
         {| trace := ReadFile (config_opt args) :: trace r;
            outcome := outcome r; final := final r |}.
Proof.
  intros (Hc & Hb & contents & Hread & Hparse). exists contents.
  split; [done|]. unfold main. by rewrite Hc, Hread, Hb.
Qed.

(** A run without a bundle file on a path argument that gives a pattern:
    what it does, and the heap [execute] is called on. *)
Lemma plain_run_trace (w : world) (args : argv) (u : UserConfig)
    (pattern : string) :
  plain_run w args u ->
  getTestPattern (default VUndef (positional args !! 0)) = Ok pattern ->
  exists U,
    let c := apply_user defaults u in
    let n := length (resolved_heap c U) in
    let h := final_heap c U pattern in
    let ok := execute w h (VRef (n + 10)) in
    trace (main w args)
    = [ReadFile (config_opt args);
       LoggerDebug "urtest-cli launched with config"
         (VRef (13 + length U + 3));
       Construct "URScriptRunner" [VRef (n + 1)];
       Construct "TestRunner" [VRef (n + 3)];
       Construct "TestResultWriter" [];
       Construct "TestExecutionService" [VRef (n + 10)];
       Execute (VRef (n + 10))]
      ++ (if ok then [] else [ConsoleLogError ExecutionError])
    /\ outcome (main w args) = (if ok then Resolved else Exit 1)
    /\ final (main w args) = h.
Proof.
  intros Hrun Hpattern.
  destruct (main_plain w args u Hrun) as (contents & Hparse & ->).
  destruct (resolve_typed w contents VUndef u Hparse eq_refl)
    as (U & Hresolve).
  exists U. intros c n h ok. cbv zeta in Hresolve.
  pose proof (body_assembles w args contents VUndef module_heap _ _ _ _
                c pattern Hresolve
                (holds_config_resolved c U _ _) Hpattern) as Hbody.
  pose proof (follow_body_assembles w args contents VUndef module_heap _ _
                _ _ c pattern Hresolve
                (holds_config_resolved c U _ _) Hpattern) as Hstop.
  cbv zeta in Hbody, Hstop. fold c in Hbody, Hstop.
  change (<[11:=OObj [("global",
                       VRef (length (cells c ++ U ++ synthesized_cells U)))]]>
            ((cells c ++ U ++ synthesized_cells U)
             ++ merged_sets (length (cells c ++ U ++ synthesized_cells U))
                  (scripts c) (scripts c)))
    with (resolved_heap c U) in Hbody, Hstop.
  fold n in Hbody, Hstop.
  change (resolved_heap c U
          ++ assembled n c pattern (VRef (13 + length U + 2)))
    with h in Hbody, Hstop.
  fold ok in Hbody, Hstop. cbv zeta.
  destruct ok.
  - rewrite (guarded_Ok _ _ _ _ _ _ _ Hbody). by rewrite app_nil_r.
  - rewrite (guarded_Throw _ _ _ _ _ _ _ Hbody).
    unfold heap_at_stop. by rewrite Hstop.
Qed.

(** *** Reading the final heap *)

Lemma length_resolved (c : CliConfig) (U : heap) :
  length (resolved_heap c U) = 13 + length U + 10.
Proof.
  unfold resolved_heap. cbv zeta.
  rewrite length_insert, !length_app. simpl. lia.
Qed.

Lemma final_heap_cells (c : CliConfig) (U : heap) (pattern : string)
    (i : nat) (o : obj) :
  i <> 11 -> cells c !! i = Some o -> final_heap c U pattern !! i = Some o.
Proof.
  intros Hi Ho. unfold final_heap, resolved_heap. cbv zeta.
  apply lookup_app_l_Some. rewrite list_lookup_insert_ne by lia.
  by do 2 apply lookup_app_l_Some.
Qed.

Lemma final_heap_synthesized (c : CliConfig) (U : heap) (pattern : string)
    (i : nat) (o : obj) :
  synthesized_cells U !! i = Some o ->
  final_heap c U pattern !! (13 + length U + i) = Some o.
Proof.
  intros Ho. unfold final_heap, resolved_heap. cbv zeta.
  apply lookup_app_l_Some. rewrite list_lookup_insert_ne by lia.
  apply lookup_app_l_Some. by rewrite lookup_cells_after.
Qed.

(** Reading what lines 140-177 assembled, above any heap [H] of [n]
    cells. *)
Lemma lookup_assembled (H : heap) (n : nat) (c : CliConfig)
    (pattern : string) (bc : value) (i : nat) :
  n = length H ->
  (H ++ assembled n c pattern bc) !! (n + i)
  = assembled n c pattern bc !! i.
Proof. intros ->. apply lookup_added. Qed.

Lemma tree_of_assembled (H : heap) (n : nat) (c : CliConfig)
    (pattern : string) (bc : value) (v : value) :
  n = length H ->
  tree_of (H ++ assembled n c pattern bc) v
  = snapshot (S (S (S (S (n + 9))))) (H ++ assembled n c pattern bc) v.
Proof.
  intros Hn. unfold tree_of. rewrite length_app, <- Hn.
  change (length (assembled n c pattern bc)) with 12. f_equal. lia.
Qed.

(** The script runner configuration. *)
Lemma assembled_src (H : heap) (n : nat) (c : CliConfig)
    (pattern : string) (bc : value) :
  n = length H ->
  tree_of (H ++ assembled n c pattern bc) (VRef (n + 1))
  = Some (ScriptRunnerConfig_json (controller c)).
Proof.
  intros Hn. rewrite tree_of_assembled by done.
  rewrite (snapshot_obj _ _ _ _
             (eq_trans (lookup_assembled H n c pattern bc 1 Hn) eq_refl)).
  snapshot_props.
  assert ((H ++ assembled n c pattern bc) !! n
          = assembled n c pattern bc !! 0) as H0
    by (rewrite <- (lookup_assembled H n c pattern bc 0 Hn); f_equal; lia).
  rewrite (snapshot_obj _ _ _ _ (eq_trans H0 eq_refl)).
  snapshot_props. reflexivity.
Qed.

Lemma get_assembled (H : heap) (n : nat) (c : CliConfig) (pattern : string)
    (bc : value) (i : nat) (ps : list (string * value)) (k : string) :
  n = length H ->
  assembled n c pattern bc !! i = Some (OObj ps) ->
  get (H ++ assembled n c pattern bc) (VRef (n + i)) k
  = Ok (default VUndef (lookup_prop k ps)).
Proof.
  intros Hn Hi. apply get_at. by rewrite lookup_assembled.
Qed.

Lemma snapshot_assembled (H : heap) (n : nat) (c : CliConfig)
    (pattern : string) (bc : value) (i : nat) (ps : list (string * value))
    (fuel : nat) :
  n = length H ->
  assembled n c pattern bc !! i = Some (OObj ps) ->
  snapshot (S fuel) (H ++ assembled n c pattern bc) (VRef (n + i))
  = JObj <$> mapM (fun kv => pair kv.1
                               <$> snapshot fuel
                                     (H ++ assembled n c pattern bc) kv.2) ps.
Proof.
  intros Hn Hi. apply snapshot_obj. by rewrite lookup_assembled.
Qed.

(** The environment and the test pattern of the execution
    configuration. *)
Lemma assembled_environment (H : heap) (n : nat) (c : CliConfig)
    (pattern : string) (bc : value) :
  n = length H ->
  tree_at (H ++ assembled n c pattern bc) (VRef (n + 10)) ["environment"]
  = Some (JObj [("server",
                 JObj [("host", JStr (server_host (testServer c)));
                       ("port", JNum (port (testServer c)))])])
  /\ tree_at (H ++ assembled n c pattern bc) (VRef (n + 10)) ["test"]
     = Some (JObj [("pattern", JStr pattern)]).
Proof.
  intros Hn. unfold tree_at, get_path.
  rewrite !(get_assembled H n c pattern bc 10 _ _ Hn eq_refl), !bind_Ok.
  simpl default. rewrite !tree_of_assembled by done.
  rewrite (snapshot_assembled H n c pattern bc 7 _ _ Hn eq_refl).
  rewrite (snapshot_assembled H n c pattern bc 8 _ _ Hn eq_refl).
  snapshot_props.
  rewrite (snapshot_assembled H n c pattern bc 6 _ _ Hn eq_refl).
  snapshot_props. split; reflexivity.
Qed.

Lemma tree_of_default_options (h : heap) (l : nat) :
  h !! l = Some default_options ->
  tree_of h (VRef l)
  = Some (JObj [("bundleKey", JStr "test-harness");
                ("bundleOutputFile", JStr "default");
                ("outputDir", JStr ".urscript-test");
                ("scriptSuffix", JStr "script");
                ("writeToDisk", JBool true)]).
Proof.
  intros Hl. unfold tree_of. rewrite (snapshot_obj _ _ _ _ Hl).
  destruct (length h); by snapshot_props.
Qed.

Lemma length_final (c : CliConfig) (U : heap) (pattern : string) :
  length (final_heap c U pattern) = 13 + length U + 22.
Proof.
  unfold final_heap. rewrite length_app, length_resolved.
  change (length (assembled _ _ _ _)) with 12. lia.
Qed.

Lemma final_heap_mocks (c : CliConfig) (U : heap) (pattern : string) :
  tree_of (final_heap c U pattern) (VRef 6) = Some (Globs_json (mocks c)).
Proof.
  unfold tree_of.
  replace (S (length (final_heap c U pattern)))
    with (S (S (length (final_heap c U pattern) - 1)))
    by (rewrite length_final; lia).
  apply (snapshot_Globs _ _ 6 4 5 (mocks c));
    by apply final_heap_cells.
Qed.


(** X13: a numeric path argument (minimist hands over numbers) other than
    0 makes [extname] throw.  The TypeError is caught: it is logged and
    the exit code is 1, after the script runner and the test runner were
    constructed; the execution service is never constructed and
    [execute] never called. *)
Theorem numeric_path_exits_1 (w : world) (args : argv) (u : UserConfig)
    (n : Z) :
  plain_run w args u ->
  positional args !! 0 = Some (VNum n) -> n <> 0%Z ->
  outcome (main w args) = Exit 1
  /\ exists payload src trc,
       trace (main w args)
       = [ReadFile (config_opt args);
          LoggerDebug "urtest-cli launched with config" payload;
          Construct "URScriptRunner" [src];
          Construct "TestRunner" [trc];
          ConsoleLogError TypeError].
Proof.
  intros Hrun Hpos Hn.
  destruct (main_plain w args u Hrun) as (contents & Hparse & ->).
  destruct (resolve_typed w contents VUndef u Hparse eq_refl)
    as (U & Hresolve).
  cbv zeta in Hresolve.
  assert (getTestPattern (default VUndef (positional args !! 0))
          = Throw TypeError) as Hpattern.
  { rewrite Hpos. unfold getTestPattern. simpl.
    by destruct (Z.eqb_spec n 0). }
  pose proof (body_pattern_throws w args contents VUndef module_heap _ _ _ _
                (apply_user defaults u) TypeError Hresolve
                (holds_config_resolved _ U _ _) Hpattern) as Hbody.
  cbv zeta. rewrite (guarded_Throw _ _ _ _ _ _ _ Hbody).
  split; [done|]. by eexists _, _, _.
Qed.

(** X14: the script runner configuration of such a run, for every user
    configuration: host and port are the merged ones, [autoLaunch] is the
    negation of the merged [disabled] flag. *)
Theorem script_runner_config_of_run (w : world) (args : argv)
    (u : UserConfig) (pattern : string) :
  plain_run w args u ->
  getTestPattern (default VUndef (positional args !! 0)) = Ok pattern ->
  (forall h v, execute w h v = true) ->
  exists src,
    In (Construct "URScriptRunner" [src]) (trace (main w args))
    /\ tree_of (final (main w args)) src
       = Some (ScriptRunnerConfig_json (controller (apply_user defaults u))).
Proof.
  intros Hrun Hpattern Hexec.
  destruct (plain_run_trace w args u pattern Hrun Hpattern)
    as (U & Htrace & Hout & Hfinal).
  cbv zeta in *. rewrite Hexec in *. rewrite Htrace, Hfinal.
  eexists. split; [simpl; tauto|].
  by apply assembled_src.
Qed.

(** X15: the test runner configuration of such a run: its runner is the
    script runner constructed before it, its port and execution timeout
    are the merged [testServer] ones, and its [restartThreshold] is the
    user's, [undefined] when the user configuration has none. *)
Theorem test_runner_config_of_run (w : world) (args : argv)
    (u : UserConfig) (pattern : string) :
  plain_run w args u ->
  getTestPattern (default VUndef (positional args !! 0)) = Ok pattern ->
  (forall h v, execute w h v = true) ->
  let ts := testServer (apply_user defaults u) in
  let r := main w args in
  exists src trc runner,
    In (Construct "URScriptRunner" [src]) (trace r)
    /\ In (Construct "TestRunner" [trc]) (trace r)
    /\ get (final r) trc "runner" = Ok (VRef runner)
    /\ final r !! runner = Some (OInst "URScriptRunner" [src])
    /\ get (final r) trc "port" = Ok (VNum (port ts))
    /\ get (final r) trc "executionTimeout"
       = Ok (VNum (defaultExecutionTimeout ts))
    /\ get (final r) trc "restartThreshold"
       = Ok (match u_testServer u with
             | Some t => match u_restartThreshold t with
                         | Some n => VNum n
                         | None => VUndef
                         end
             | None => VUndef
             end).
Proof.
  intros Hrun Hpattern Hexec ts r. subst r.
  destruct (plain_run_trace w args u pattern Hrun Hpattern)
    as (U & Htrace & Hout & Hfinal).
  cbv zeta in *. rewrite Hexec in *. rewrite Htrace, Hfinal.
  set (c := apply_user defaults u) in *.
  set (n := length (resolved_heap c U)) in *.
  exists (VRef (n + 1)), (VRef (n + 3)), (n + 2).
  split; [simpl; tauto|]. split; [simpl; tauto|].
  unfold final_heap. fold n.
  rewrite !(get_assembled _ n c pattern _ 3 _ _ eq_refl eq_refl).
  rewrite (lookup_assembled _ n c pattern _ 2 eq_refl).
  repeat split.
  simpl default. unfold threshold_value, c. simpl.
  by destruct (u_testServer u) as [[? ? ? [?|]]|].
Qed.

(** X16: the execution configuration [execute] is called on in such a run:
    its runner is the test runner constructed before it, its environment
    and its test pattern are those of the merged configuration and of the
    path argument, its [mocks] is the very object [defaultConfig.mocks]
    refers to, and the options of its made-up bundler configuration are
    the five of lines 105-111, whatever the user configuration. *)
Theorem execution_config_of_run (w : world) (args : argv)
    (u : UserConfig) (pattern : string) :
  plain_run w args u ->
  getTestPattern (default VUndef (positional args !! 0)) = Ok pattern ->
  (forall h v, execute w h v = true) ->
  let c := apply_user defaults u in
  let r := main w args in
  exists trc ec runner writer shared,
    In (Construct "TestRunner" [trc]) (trace r)
    /\ In (Execute ec) (trace r)
    /\ get (final r) ec "runner" = Ok (VRef runner)
    /\ final r !! runner = Some (OInst "TestRunner" [trc])
    /\ tree_at (final r) ec ["environment"]
       = Some (JObj [("server",
                      JObj [("host", JStr (server_host (testServer c)));
                            ("port", JNum (port (testServer c)))])])
    /\ tree_at (final r) ec ["test"] = Some (JObj [("pattern", JStr pattern)])
    /\ get (final r) ec "mocks" = Ok shared
    /\ get (final r) defaultConfig "mocks" = Ok shared
    /\ tree_of (final r) shared = Some (Globs_json (mocks c))
    /\ tree_at (final r) ec ["bundlerConfig"; "options"]
       = Some (JObj [("bundleKey", JStr "test-harness");
                     ("bundleOutputFile", JStr "default");
                     ("outputDir", JStr ".urscript-test");
                     ("scriptSuffix", JStr "script");
                     ("writeToDisk", JBool true)])
    /\ get_path (final r) ec ["results"; "writer"] = Ok (VRef writer)
    /\ final r !! writer = Some (OInst "TestResultWriter" []).
Proof.
  intros Hrun Hpattern Hexec c r. subst r.
  destruct (plain_run_trace w args u pattern Hrun Hpattern)
    as (U & Htrace & Hout & Hfinal).
  cbv zeta in *. rewrite Hexec in *. rewrite Htrace, Hfinal.
  fold c in Htrace, Hfinal |- *.
  set (n := length (resolved_heap c U)) in *.
  exists (VRef (n + 3)), (VRef (n + 10)), (n + 4), (n + 5), (VRef 6).
  split; [simpl; tauto|]. split; [simpl; tauto|].
  destruct (assembled_environment (resolved_heap c U) n c pattern
              (VRef (13 + length U + 2)) eq_refl) as [Henv Htest].
  assert (forall k,
            get (final_heap c U pattern) (VRef (n + 10)) k
            = Ok (default VUndef
                    (lookup_prop k
                       [("runner", VRef (n + 4));
                        ("environment", VRef (n + 7));
                        ("test", VRef (n + 8)); ("mocks", VRef 6);
                        ("bundlerConfig", VRef (13 + length U + 2));
                        ("results", VRef (n + 9))]))) as Hec.
  { intros k. unfold final_heap. fold n.
    by rewrite (get_assembled _ n c pattern _ 10 _ _ eq_refl eq_refl). }
  split; [by rewrite Hec|].
  split; [unfold final_heap; fold n;
          by rewrite (lookup_assembled _ n c pattern _ 4 eq_refl)|].
  split; [exact Henv|]. split; [exact Htest|].
  split; [by rewrite Hec|].
  split.
  { change defaultConfig with (VRef 12).
    by rewrite (get_at _ _ top_props)
      by (by apply final_heap_cells). }
  split; [apply final_heap_mocks|].
  split.
  { unfold tree_at, get_path. rewrite Hec, bind_Ok. simpl default.
    erewrite get_at by (by apply final_heap_synthesized).
    rewrite bind_Ok. simpl default.
    apply tree_of_default_options.
    by apply final_heap_synthesized. }
  split.
  { unfold get_path. rewrite Hec, bind_Ok. simpl default.
    unfold final_heap. fold n.
    by rewrite (get_assembled _ n c pattern _ 9 _ _ eq_refl eq_refl). }
  unfold final_heap. fold n.
  by rewrite (lookup_assembled _ n c pattern _ 5 eq_refl).
Qed.

(** ** Trees read back from the heap *)

Lemma depth_arr (items : list json) :
  depth (JArr items) = S (depth_items items).
Proof. reflexivity. Qed.

Lemma depth_obj (members : list (string * json)) :
  depth (JObj members) = S (depth_members members).
Proof. reflexivity. Qed.

(** A tree held in the cells [R] from location [k] on reads back as
    itself from any heap that has those cells there, given fuel for its
    depth. *)
Lemma snapshot_repr (H : heap) (k : nat) (R : heap) (j : json) :
  (forall l o, R !! l = Some o -> H !! (k + l) = Some o) ->
  forall v fuel,
    repr_from k R j v -> depth j <= fuel -> snapshot fuel H v = Some j.
Proof.
  intros Hcells.
  induction j as [| | | |items IH|members IH] using json_induction;
    intros v fuel Hrepr Hfuel.
  - simpl in Hrepr. subst v. by destruct fuel.
  - simpl in Hrepr. subst v. by destruct fuel.
  - simpl in Hrepr. subst v. by destruct fuel.
  - simpl in Hrepr. subst v. by destruct fuel.
  - rewrite repr_from_arr in Hrepr. destruct Hrepr as (l & vs & -> & Hl & Hvs).
    rewrite depth_arr in Hfuel. destruct fuel as [|fuel]; [lia|].
    apply le_S_n in Hfuel. simpl. rewrite (Hcells _ _ Hl).
    assert (mapM (snapshot fuel H) vs = Some items) as ->; [|done].
    clear Hl. revert vs Hvs Hfuel.
    induction IH as [|j js Hj _ IHjs]; intros [|v vs] Hvs Hfuel; try done.
    destruct Hvs as [Hv Hvs]. unfold depth_items in Hfuel.
    rewrite mapM_option_cons, (Hj v fuel Hv) by lia. simpl.
    rewrite (IHjs vs Hvs) by (unfold depth_items; lia). done.
  - rewrite repr_from_obj in Hrepr. destruct Hrepr as (l & ps & -> & Hl & Hps).
    rewrite depth_obj in Hfuel. destruct fuel as [|fuel]; [lia|].
    apply le_S_n in Hfuel. simpl. rewrite (Hcells _ _ Hl).
    assert (mapM (fun kv => pair kv.1 <$> snapshot fuel H kv.2) ps
            = Some members) as ->; [|done].
    clear Hl. revert ps Hps Hfuel.
    induction IH as [|[key j] ms Hj _ IHms]; intros [|[key' v] ps] Hps Hfuel;
      try done.
    destruct Hps as (<- & Hv & Hps). unfold depth_members in Hfuel.
    simpl in Hj.
    rewrite mapM_option_cons. cbn [fst snd].
    rewrite (Hj v fuel Hv) by lia. simpl.
    rewrite (IHms ps Hps) by (unfold depth_members; lia). done.
Qed.

(** Allocation adds at least as many cells as the tree is deep. *)
Lemma alloc_json_depth (j : json) (h : heap) :
  exists v ext, alloc_json j h = (v, h ++ ext) /\ depth j <= length ext.
Proof.
  revert h. induction j as [| | | |items IH|members IH] using json_induction;
    intros h.
  - exists VNull, []. by rewrite app_nil_r.
  - exists (VBool b), []. by rewrite app_nil_r.
  - exists (VNum n), []. by rewrite app_nil_r.
  - exists (VStr s), []. by rewrite app_nil_r.
  - assert (exists vs ext,
              alloc_items items h = (vs, h ++ ext)
              /\ depth_items items <= length ext)
      as (vs & ext & Hitems & Hdepth).
    { clear -IH. revert h.
      induction IH as [|j js Hj _ IHjs]; intros h.
      - exists [], []. by rewrite app_nil_r.
      - destruct (Hj h) as (v & e1 & Hv & Hd1).
        destruct (IHjs (h ++ e1)) as (vs & e2 & Hvs & Hd2).
        exists (v :: vs), (e1 ++ e2). simpl. rewrite Hv, Hvs.
        rewrite <- (assoc_L (++)). split; [done|].
        rewrite length_app. unfold depth_items in *. lia. }
    exists (VRef (length (h ++ ext))), (ext ++ [OArr vs]).
    rewrite alloc_json_arr, Hitems. unfold alloc.
    rewrite <- (assoc_L (++)). split; [done|].
    rewrite depth_arr, length_app. simpl. lia.
  - assert (exists ps ext,
              alloc_members members h = (ps, h ++ ext)
              /\ depth_members members <= length ext)
      as (ps & ext & Hmembers & Hdepth).
    { clear -IH. revert h.
      induction IH as [|[key j] ms Hj _ IHms]; intros h.
      - exists [], []. by rewrite app_nil_r.
      - destruct (Hj h) as (v & e1 & Hv & Hd1).
        destruct (IHms (h ++ e1)) as (ps & e2 & Hps & Hd2).
        exists ((key, v) :: ps), (e1 ++ e2). simpl in *. rewrite Hv, Hps.
        rewrite <- (assoc_L (++)). split; [done|].
        rewrite length_app. unfold depth_members in *. lia. }
    exists (VRef (length (h ++ ext))), (ext ++ [OObj ps]).
    rewrite alloc_json_obj, Hmembers. unfold alloc.
    rewrite <- (assoc_L (++)). split; [done|].
    rewrite depth_obj, length_app. simpl. lia.
Qed.

(** The members of an object are allocated in segments. *)
Lemma alloc_members_segments (ms : list (string * json)) (D : heap) :
  exists ps E,
    alloc_members ms D = (ps, D ++ E) /\ segments (length D) ms ps E.
Proof.
  revert D. induction ms as [|[key j] ms IH]; intros D.
  - exists [], []. by rewrite app_nil_r.
  - destruct (alloc_json_repr j D []) as (v & e & Hv & Hrepr).
    rewrite app_nil_r in Hv. cbn [app] in Hv, Hrepr.
    destruct (alloc_json_depth j D) as (v' & e' & Hv' & Hdepth).
    rewrite Hv in Hv'. injection Hv' as <- He.
    apply app_inv_head in He as <-.
    destruct (IH (D ++ e)) as (ps & E' & Hps & Hsegs).
    exists ((key, v) :: ps), (e ++ E'). simpl. rewrite Hv, Hps.
    rewrite <- (assoc_L (++)). split; [done|]. split; [done|].
    exists e, E'. rewrite length_app in Hsegs. done.
Qed.

(** A member found under a key: its segment. *)
Lemma segments_lookup (k : nat) (ms : list (string * json))
    (ps : list (string * value)) (E : heap) (key : string) (j : json) :
  segments k ms ps E -> lookup_member key ms = Some j ->
  exists v off e,
    lookup_prop key ps = Some v /\ repr_from (k + off) e j v
    /\ depth j <= length e
    /\ off + length e <= length E
    /\ (forall l o, e !! l = Some o -> E !! (off + l) = Some o).
Proof.
  revert k ps E. induction ms as [|[key' j'] ms IH]; intros k ps E; [done|].
  destruct ps as [|[key'' v'] ps]; [done|].
  intros (<- & e1 & E' & -> & Hrepr & Hdepth & Hsegs). simpl.
  destruct (String.eqb_spec key key') as [_ | _].
  - intros [= <-]. exists v', 0, e1. rewrite Nat.add_0_r.
    split; [done|]. split; [done|]. split; [done|].
    split; [rewrite length_app; lia|].
    intros l o Hl. by apply lookup_app_l_Some.
  - intros Hfind.
    destruct (IH _ _ _ Hsegs Hfind)
      as (v & off & e & Hv & Hr & Hd & Hlen & Hcells).
    exists v, (length e1 + off), e.
    split; [done|]. split; [by rewrite (assoc_L Nat.add)|].
    split; [done|]. split; [rewrite length_app; lia|].
    intros l o Hl. rewrite <- (assoc_L Nat.add), lookup_added.
    by apply Hcells.
Qed.
(** Two members found under different keys: their segments are apart. *)
Lemma segments_lookup_apart (k : nat) (ms : list (string * json))
    (ps : list (string * value)) (E : heap) (key1 key2 : string)
    (j1 j2 : json) :
  segments k ms ps E -> key1 <> key2 ->
  lookup_member key1 ms = Some j1 -> lookup_member key2 ms = Some j2 ->
  exists v1 off1 e1 v2 off2 e2,
    (lookup_prop key1 ps = Some v1 /\ repr_from (k + off1) e1 j1 v1
     /\ depth j1 <= length e1 /\ off1 + length e1 <= length E
     /\ (forall l o, e1 !! l = Some o -> E !! (off1 + l) = Some o))
    /\ (lookup_prop key2 ps = Some v2 /\ repr_from (k + off2) e2 j2 v2
        /\ off2 + length e2 <= length E)
    /\ (off1 + length e1 <= off2 \/ off2 + length e2 <= off1).
Proof.
  revert k ps E. induction ms as [|[key' j'] ms IH]; intros k ps E; [done|].
  destruct ps as [|[key'' v'] ps]; [done|].
  intros (<- & e & E' & -> & Hrepr & Hdepth & Hsegs) Hne. simpl.
  destruct (String.eqb_spec key1 key') as [-> | Hne1];
    destruct (String.eqb_spec key2 key') as [-> | Hne2]; try done.
  - intros [= <-] Hfind2.
    destruct (segments_lookup _ _ _ _ _ _ Hsegs Hfind2)
      as (v2 & off2 & e2 & Hv2 & Hr2 & _ & Hlen2 & _).
    exists v', 0, e, v2, (length e + off2), e2.
    rewrite Nat.add_0_r. split.
    { split; [done|]. split; [done|]. split; [done|].
      split; [rewrite length_app; lia|].
      intros l o Hl. by apply lookup_app_l_Some. }
    split; [|left; lia].
    split; [done|]. split; [by rewrite (assoc_L Nat.add)|].
    rewrite length_app. lia.
  - intros Hfind1 [= <-].
    destruct (segments_lookup _ _ _ _ _ _ Hsegs Hfind1)
      as (v1 & off1 & e1 & Hv1 & Hr1 & Hd1 & Hlen1 & Hcells1).
    exists v1, (length e + off1), e1, v', 0, e.
    rewrite Nat.add_0_r. split.
    { split; [done|]. split; [by rewrite (assoc_L Nat.add)|].
      split; [done|]. split; [rewrite length_app; lia|].
      intros l o Hl. rewrite <- (assoc_L Nat.add), lookup_added.
      by apply Hcells1. }
    split; [|right; lia].
    split; [done|]. split; [done|]. rewrite length_app. lia.
  - intros Hfind1 Hfind2.
    destruct (IH _ _ _ Hsegs Hne Hfind1 Hfind2)
      as (v1 & off1 & e1 & v2 & off2 & e2
          & (Hv1 & Hr1 & Hd1 & Hlen1 & Hcells1)
          & (Hv2 & Hr2 & Hlen2) & Hapart).
    exists v1, (length e + off1), e1, v2, (length e + off2), e2.
    split.
    { split; [done|]. split; [by rewrite (assoc_L Nat.add)|].
      split; [done|]. split; [rewrite length_app; lia|].
      intros l o Hl. rewrite <- (assoc_L Nat.add), lookup_added.
      by apply Hcells1. }
    split; [|lia].
    split; [done|]. split; [by rewrite (assoc_L Nat.add)|].
    rewrite length_app. lia.
Qed.

Lemma lookup_set_prop_ne (k k' : string) (v : value)
    (ps : list (string * value)) :
  k <> k' -> lookup_prop k (set_prop k' v ps) = lookup_prop k ps.
Proof.
  intros Hne. induction ps as [|[k'' v''] ps IH]; simpl.
  - by destruct (String.eqb_spec k k').
  - destruct (String.eqb_spec k' k'') as [<- | Hne']; simpl.
    + by destruct (String.eqb_spec k k').
    + destruct (String.eqb_spec k k''); [done | exact IH].
Qed.


(** ** The source sets of a run with a bundle file *)

(** The source-set merge when the bundler's [sources] has no [global]:
    the configuration's global source set is copied. *)
Lemma mergeWith_copy_global (h : heap) (gb sb bi be : nat)
    (yi ye : list string) :
  h !! gb = Some (OObj [("scripts", VRef sb)]) ->
  h !! sb = Some (Globs_cell bi be) ->
  h !! bi = Some (strings_cell yi) -> h !! be = Some (strings_cell ye) ->
  mergeWith concatArrays (VRef (length h)) [VUndef; VRef gb]
    (h ++ [OObj []])
  = Ok (h ++ [OObj [("scripts", VRef (length h + 1))];
              Globs_cell (length h + 2) (length h + 3);
              strings_cell yi; strings_cell ye]).
Proof.
  intros Hgb Hsb Hbi Hbe.
  assert (gb < length h) by (by eapply lookup_lt_Some).
  unfold mergeWith, createAssigner, assignSources. simpl truthy. cbv iota.
  rewrite bind_Ok.
  rewrite length_app. cbn [length]. rewrite Nat.add_1_r.
  replace (S (S (length h))) with (S (S (S (length h - 1)))) by lia.
  erewrite baseMerge_object; [| lia | apply lookup_app_l_Some; exact Hgb].
  simpl fmap.
  erewrite baseFor_cons;
    [| eapply mergeKey_copy_object;
       [ apply lookup_app_l_Some; exact Hgb
       | rewrite lookup_added_0; reflexivity
       | reflexivity | reflexivity
       | apply lookup_app_l_Some; exact Hsb
       | rewrite <- (assoc_L (++)), length_app; cbn [length app];
         apply (baseMerge_copy_set _ h [OObj []; OObj []] 1 sb bi be yi ye);
         [exact Hsb | exact Hbi | exact Hbe | reflexivity]
       | rewrite lookup_added_0; reflexivity ] ].
  simpl baseFor. rewrite bind_Ok.
  rewrite insert_added_0, length_app.
  cbn [length list_insert insert app set_prop].
  replace (S (length h + 2)) with (length h + 3) by lia.
  by replace (S (length h)) with (length h + 1) by lia.
Qed.

Lemma mergeSources_copy (h : heap) (lcfg lb ls lcs gb sb bi be : nat)
    (pc pb pss pcs : list (string * value)) (yi ye : list string) :
  h !! lb = Some (OObj pb) -> lookup_prop "sources" pb = Some (VRef ls) ->
  h !! ls = Some (OObj pss) -> lookup_prop "global" pss = None ->
  h !! lcfg = Some (OObj pc) -> lookup_prop "sources" pc = Some (VRef lcs) ->
  h !! lcs = Some (OObj pcs) -> lookup_prop "global" pcs = Some (VRef gb) ->
  h !! gb = Some (OObj [("scripts", VRef sb)]) ->
  h !! sb = Some (Globs_cell bi be) ->
  h !! bi = Some (strings_cell yi) -> h !! be = Some (strings_cell ye) ->
  mergeSources (VRef lcfg) (VRef lb) h
  = Ok (<[ls := OObj (set_prop "global" (VRef (length h)) pss)]>
          (h ++ [OObj [("scripts", VRef (length h + 1))];
                 Globs_cell (length h + 2) (length h + 3);
                 strings_cell yi; strings_cell ye])).
Proof.
  intros Hlb Hsources Hls Hglobal Hcfg Hcs Hlcs Hcg Hgb Hsb Hbi Hbe.
  unfold mergeSources, alloc.
  rewrite (get_at _ _ _ _ (lookup_app_l_Some _ _ _ _ Hlb)), bind_Ok.
  rewrite Hsources. simpl default.
  rewrite (get_at _ _ _ _ (lookup_app_l_Some _ _ _ _ Hls)), bind_Ok.
  rewrite Hglobal. simpl default.
  rewrite (get_at _ _ _ _ (lookup_app_l_Some _ _ _ _ Hcfg)), bind_Ok.
  rewrite Hcs. simpl default.
  rewrite (get_at _ _ _ _ (lookup_app_l_Some _ _ _ _ Hlcs)), bind_Ok.
  rewrite Hcg. simpl default.
  rewrite (mergeWith_copy_global h gb sb bi be yi ye) by done.
  rewrite bind_Ok.
  rewrite (get_at _ _ _ _ (lookup_app_l_Some _ _ _ _ Hlb)), bind_Ok.
  rewrite Hsources. simpl default. unfold put.
  by rewrite (lookup_app_l_Some _ _ _ _ Hls).
Qed.

Lemma mergeSources_concat (h : heap)
    (lcfg lb ls lcs ga sa ai ae gb sb bi be : nat)
    (pc pb pss pcs : list (string * value)) (A B : Globs) :
  h !! lb = Some (OObj pb) -> lookup_prop "sources" pb = Some (VRef ls) ->
  h !! ls = Some (OObj pss) -> lookup_prop "global" pss = Some (VRef ga) ->
  h !! ga = Some (OObj [("scripts", VRef sa)]) ->
  h !! sa = Some (Globs_cell ai ae) ->
  h !! ai = Some (strings_cell (include A)) ->
  h !! ae = Some (strings_cell (exclude A)) ->
  h !! lcfg = Some (OObj pc) -> lookup_prop "sources" pc = Some (VRef lcs) ->
  h !! lcs = Some (OObj pcs) -> lookup_prop "global" pcs = Some (VRef gb) ->
  h !! gb = Some (OObj [("scripts", VRef sb)]) ->
  h !! sb = Some (Globs_cell bi be) ->
  h !! bi = Some (strings_cell (include B)) ->
  h !! be = Some (strings_cell (exclude B)) ->
  mergeSources (VRef lcfg) (VRef lb) h
  = Ok (<[ls := OObj (set_prop "global" (VRef (length h)) pss)]>
          (h ++ merged_sets (length h) A B)).
Proof.
  intros Hlb Hsources Hls Hglobal Hga Hsa Hai Hae Hcfg Hcs Hlcs Hcg Hgb Hsb
    Hbi Hbe.
  unfold mergeSources, alloc.
  rewrite (get_at _ _ _ _ (lookup_app_l_Some _ _ _ _ Hlb)), bind_Ok.
  rewrite Hsources. simpl default.
  rewrite (get_at _ _ _ _ (lookup_app_l_Some _ _ _ _ Hls)), bind_Ok.
  rewrite Hglobal. simpl default.
  rewrite (get_at _ _ _ _ (lookup_app_l_Some _ _ _ _ Hcfg)), bind_Ok.
  rewrite Hcs. simpl default.
  rewrite (get_at _ _ _ _ (lookup_app_l_Some _ _ _ _ Hlcs)), bind_Ok.
  rewrite Hcg. simpl default.
  rewrite (mergeWith_globals h ga sa ai ae gb sb bi be
             (include A) (exclude A) (include B) (exclude B)) by done.
  rewrite bind_Ok.
  rewrite (get_at _ _ _ _ (lookup_app_l_Some _ _ _ _ Hlb)), bind_Ok.
  rewrite Hsources. simpl default. unfold put.
  by rewrite (lookup_app_l_Some _ _ _ _ Hls).
Qed.

(** The derivation from a bundle object, cell by cell: above the user's
    tree [U] and the copy of the defaults come the cells [E] of the
    bundle's members, then the bundle object itself. *)
Lemma derive_bundle_located (w : world) (contents text : string)
    (user : json) (ms : list (string * json)) :
  JSON_parse w contents = Some user ->
  text <> "" ->
  JSON_parse w text = Some (JObj ms) ->
  exists userConfig U E psb,
    repr_from 13 U user userConfig
    /\ repr_members (14 + length U) E ms psb
    /\ segments (14 + length U) ms psb E
    /\ deriveBundlerConfig w contents (VStr text) module_heap
       = Ok (userConfig, VRef (13 + length U),
             VRef (14 + length U + length E),
             module_heap ++ U ++ [OObj top_props] ++ E
             ++ bundle_tail U E psb).
Proof.
  intros Hparse Hne Hbundle.
  destruct (parse_and_copy user) as (uv & U & Halloc & Hrepr & Hspread).
  destruct (alloc_members_repr ms (module_heap ++ U ++ [OObj top_props]) [])
    as (psb & E & Hmembers & Hreprs).
  rewrite app_nil_r in Hmembers. cbn [app] in Hmembers, Hreprs.
  destruct (alloc_members_segments ms
              (module_heap ++ U ++ [OObj top_props]))
    as (psb' & E' & Hmembers' & Hsegs).
  rewrite Hmembers in Hmembers'. injection Hmembers' as <- HE.
  apply app_inv_head in HE as <-.
  replace (length (module_heap ++ U ++ [OObj top_props]))
    with (14 + length U) in Hreprs, Hsegs
    by (rewrite !length_app; simpl; lia).
  exists uv, U, E, psb. split; [done|]. split; [done|]. split; [done|].
  set (lb := 14 + length U + length E).
  set (h := module_heap ++ U ++ [OObj top_props] ++ E ++ [OObj psb]).
  assert (alloc (OObj psb) ((module_heap ++ U ++ [OObj top_props]) ++ E)
          = (VRef lb, h)) as Hobj.
  { unfold alloc, lb, h. rewrite !length_app. cbn [length].
    rewrite <- !(assoc_L (++)). do 2 f_equal. simpl. lia. }
  assert (h !! lb = Some (OObj psb)) as Hlb.
  { unfold h, lb. rewrite !(assoc_L (++)).
    apply list_lookup_middle. rewrite !length_app. simpl. lia. }
  unfold deriveBundlerConfig, parse. rewrite Hparse, bind_Ok, Halloc.
  cbv beta iota. rewrite Hspread, bind_Ok. cbv beta iota.
  rewrite (truthy_nonempty _ Hne), Hbundle, bind_Ok, alloc_json_obj.
  rewrite Hmembers, Hobj, bind_Ok. cbv beta iota.
  rewrite (get_at _ _ _ _ Hlb), bind_Ok. unfold bundle_tail.
  destruct (truthy (default VUndef (lookup_prop "sources" psb))).
  - simpl negb. cbv iota. by rewrite bind_Ok.
  - simpl negb. cbv iota. unfold alloc, put.
    rewrite (lookup_app_l_Some _ _ _ _ Hlb).
    assert (length h = S lb) as ->
      by (unfold h, lb; rewrite !length_app; simpl; lia).
    rewrite bind_Ok. do 2 f_equal.
    unfold h, lb. rewrite !(assoc_L (++)).
    rewrite insert_app_l by (rewrite !length_app; simpl; lia).
    replace (14 + length U + length E)
      with (length (((module_heap ++ U) ++ [OObj top_props]) ++ E) + 0)
      by (rewrite !length_app; simpl; lia).
    rewrite insert_app_r. cbn [list_insert insert].
    rewrite <- !(assoc_L (++)).
    replace (S (length (module_heap ++ U ++ [OObj top_props] ++ E) + 0))
      with (15 + length U + length E)
      by (rewrite !length_app; simpl; lia).
    reflexivity.
Qed.

(** Where [configure] ends for a typed user configuration and a bundle
    object. *)
Lemma configure_bundle (w : world) (contents text : string)
    (u : UserConfig) (ms : list (string * json)) :
  JSON_parse w contents = Some (UserConfig_json u) ->
  text <> "" ->
  JSON_parse w text = Some (JObj ms) ->
  exists U E psb,
    repr_members (14 + length U) E ms psb
    /\ segments (14 + length U) ms psb E
    /\ configure w contents (VStr text) module_heap
       = Ok (VRef (13 + length U), VRef (14 + length U + length E),
             cells (apply_user defaults u) ++ U ++ [OObj top_props] ++ E
             ++ bundle_tail U E psb).
Proof.
  intros Hparse Hne Hbundle.
  destruct (derive_bundle_located w contents text _ ms Hparse Hne Hbundle)
    as (uv & U & E & psb & Hrepr & Hreprs & Hsegs & Hderive).
  exists U, E, psb. split; [done|]. split; [done|].
  unfold configure. rewrite Hderive, bind_Ok. cbv beta iota.
  destruct (repr_object_ref _ _ _ _ Hrepr) as (s & ps & -> & _).
  rewrite module_heap_cells.
  rewrite (merge_user defaults u U _ s Hrepr) by reflexivity.
  by rewrite bind_Ok.
Qed.

Lemma repr_Globs (k : nat) (R : heap) (g : Globs) (v : value) :
  repr_from k R (Globs_json g) v ->
  exists l i e,
    v = VRef (k + l) /\ R !! l = Some (Globs_cell (k + i) (k + e))
    /\ R !! i = Some (strings_cell (include g))
    /\ R !! e = Some (strings_cell (exclude g)).
Proof.
  unfold Globs_json. rewrite repr_from_obj.
  intros (l & ps & -> & Hl & Hps).
  apply repr_members_cons in Hps as (vi & ps1 & -> & Hvi & Hps).
  apply repr_members_cons in Hps as (ve & ps2 & -> & Hve & Hps).
  apply repr_members_nil in Hps as ->.
  apply repr_strings in Hvi as (i & -> & Hi).
  apply repr_strings in Hve as (e & -> & He).
  by exists l, i, e.
Qed.

Lemma repr_global (k : nat) (R : heap) (g : Globs) (v : value) :
  repr_from k R (JObj [("scripts", Globs_json g)]) v ->
  exists l s i e,
    v = VRef (k + l) /\ R !! l = Some (OObj [("scripts", VRef (k + s))])
    /\ R !! s = Some (Globs_cell (k + i) (k + e))
    /\ R !! i = Some (strings_cell (include g))
    /\ R !! e = Some (strings_cell (exclude g)).
Proof.
  rewrite repr_from_obj. intros (l & ps & -> & Hl & Hps).
  apply repr_members_cons in Hps as (vs & ps1 & -> & Hvs & Hps).
  apply repr_members_nil in Hps as ->.
  apply repr_Globs in Hvs as (s & i & e & -> & Hs & Hi & He).
  by exists l, s, i, e.
Qed.

(** Looking up the heap of a run with a bundle object, at the source-set
    merge: the cells of the configuration [c], the user's tree [U], the
    copy of the defaults, the cells [E] of the bundle's members and what
    follows. *)
Lemma bundle_heap_facts (c : CliConfig) (U E T : heap) :
  let h1 := cells c ++ U ++ [OObj top_props] ++ E ++ T in
  length h1 = 14 + length U + length E + length T
  /\ h1 !! (13 + length U) = Some (OObj top_props)
  /\ h1 !! 11 = Some (OObj [("global", VRef 10)])
  /\ h1 !! 10 = Some (OObj [("scripts", VRef 9)])
  /\ h1 !! 9 = Some (Globs_cell 7 8)
  /\ h1 !! 7 = Some (strings_cell (include (scripts c)))
  /\ h1 !! 8 = Some (strings_cell (exclude (scripts c)))
  /\ (forall l o, E !! l = Some o -> h1 !! (14 + length U + l) = Some o)
  /\ (forall i, h1 !! (14 + length U + length E + i) = T !! i).
Proof.
  intros h1. subst h1.
  split; [rewrite !length_app; simpl; lia|].
  split; [by apply lookup_cells_config|].
  do 5 (split; [by apply lookup_app_l_Some|]).
  split.
  - intros l o Hl.
    replace (14 + length U + l) with (13 + length U + S l) by lia.
    rewrite lookup_cells_after. simpl. by apply lookup_app_l_Some.
  - intros i.
    replace (14 + length U + length E + i)
      with (13 + length U + S (length E + i)) by lia.
    rewrite lookup_cells_after. simpl. by rewrite lookup_added.
Qed.

Lemma resolve_after_configure (w : world) (contents : string) (b : value)
    (config bundlerConfig : value) (h h' : heap) :
  configure w contents b module_heap = Ok (config, bundlerConfig, h) ->
  mergeSources config bundlerConfig (h ++ [OObj [("config", config)]])
  = Ok h' ->
  resolve w contents b module_heap
  = ([LoggerDebug "urtest-cli launched with config" (VRef (length h))],
     Ok (config, bundlerConfig, h')).
Proof.
  intros Hconfigure Hmerge. unfold resolve.
  rewrite Hconfigure, prog_bind_lift. unfold alloc. cbv beta iota.
  by rewrite Hmerge.
Qed.

(** Reading the heap after the source-set merge of a run with a bundle
    file: [h1] is the heap before it, [added] the cells of the merge and
    [ls] the bundler's [sources] object. *)
Lemma merged_bundle_reads (c : CliConfig) (R added h1 : heap)
    (lcfg lb ls i e : nat) (pb pss : list (string * value)) (A : Globs) :
  h1 = cells c ++ R ->
  R !! (lcfg - 13) = Some (OObj top_props) -> 13 <= lcfg ->
  lcfg < lb -> lcfg < ls -> lb <> ls -> ls < length h1 ->
  h1 !! lb = Some (OObj pb) -> lookup_prop "sources" pb = Some (VRef ls) ->
  added !! 0 = Some (OObj [("scripts", VRef (length h1 + 1))]) ->
  added !! 1 = Some (Globs_cell (length h1 + i) (length h1 + e)) ->
  added !! i = Some (strings_cell (include A)) ->
  added !! e = Some (strings_cell (exclude A)) ->
  let h := <[ls := OObj (set_prop "global" (VRef (length h1)) pss)]>
             (h1 ++ added) in
  tree_at h (VRef lb) ["sources"; "global"; "scripts"] = Some (Globs_json A)
  /\ tree_of h (VRef lcfg) = Some (CliConfig_json c)
  /\ get h (VRef lb) "sources" = Ok (VRef ls)
  /\ get h (VRef lcfg) "sources" = Ok (VRef 11).
Proof.
  intros Hh1 Htop Hge Hlb_lt Hls_lt Hne Hls_len Hlb Hsources H0 H1 Hi He h.
  assert (forall k, k <> ls -> h !! k = (h1 ++ added) !! k) as Hother
    by (intros k Hk; unfold h; by rewrite list_lookup_insert_ne).
  assert (h !! ls
          = Some (OObj (set_prop "global" (VRef (length h1)) pss))) as Hls'
    by (unfold h; apply list_lookup_insert_eq; rewrite length_app; lia).
  assert (h !! lb = Some (OObj pb)) as Hlb'
    by (rewrite Hother by done; by apply lookup_app_l_Some).
  assert (length h = length h1 + length added) as Hlen
    by (unfold h; by rewrite length_insert, length_app).
  assert (1 < length added) as Hadded by (by eapply lookup_lt_Some).
  assert (exists R', h = cells c ++ R'
                     /\ R' !! (lcfg - 13) = Some (OObj top_props))
    as (R' & HR' & Htop').
  { exists (<[ls - 13 := OObj (set_prop "global" (VRef (length h1)) pss)]>
              (R ++ added)).
    split.
    - unfold h. rewrite Hh1, <- (assoc_L (++)).
      replace ls with (length (cells c) + (ls - 13)) at 1 by (simpl; lia).
      by rewrite insert_app_r.
    - rewrite list_lookup_insert_ne by lia. by apply lookup_app_l_Some. }
  assert (h !! lcfg = Some (OObj top_props)) as Hcfg.
  { rewrite HR'. rewrite <- Htop'.
    replace lcfg with (length (cells c) + (lcfg - 13)) at 1
      by (simpl; lia).
    by rewrite lookup_added. }
  clearbody h.
  split.
  { unfold tree_at, get_path.
    rewrite (get_at _ _ _ _ Hlb'), Hsources, bind_Ok.
    change (default VUndef (Some (VRef ls))) with (VRef ls).
    rewrite (get_at _ _ _ _ Hls'), bind_Ok, lookup_set_prop.
    change (default VUndef (Some (VRef (length h1))))
      with (VRef (length h1)).
    erewrite (get_at _ (length h1));
      [| rewrite Hother by lia; rewrite lookup_added_0; exact H0].
    rewrite bind_Ok.
    change (default VUndef
              (lookup_prop "scripts"
                 [("scripts", VRef (length h1 + 1))]))
      with (VRef (length h1 + 1)).
    unfold tree_of.
    replace (S (length h)) with (S (S (length h - 1))) by lia.
    apply (snapshot_Globs _ _ _ (length h1 + i) (length h1 + e) A);
      rewrite Hother by lia; by rewrite lookup_added. }
  split.
  { rewrite HR'. apply tree_of_cells. rewrite <- Htop'.
    replace lcfg with (length (cells c) + (lcfg - 13)) at 1
      by (simpl; lia).
    by rewrite lookup_added. }
  split; [by rewrite (get_at _ _ _ _ Hlb'), Hsources|].
  by rewrite (get_at _ _ _ _ Hcfg).
Qed.

(** Where [resolve] ends for a typed user configuration and a bundle
    object without a truthy [sources]: the fresh [sources] object, at the
    location after the bundle object's, gets a copy of the
    configuration's global source set. *)
Lemma resolve_bundle_copy (w : world) (contents text : string)
    (u : UserConfig) (ms : list (string * json)) :
  JSON_parse w contents = Some (UserConfig_json u) ->
  text <> "" ->
  JSON_parse w text = Some (JObj ms) ->
  no_sources ms = true ->
  exists U E psb pb h1 lb,
    segments (14 + length U) ms psb E
    /\ lb = 14 + length U + length E
    /\ pb = set_prop "sources" (VRef (lb + 1)) psb
    /\ h1 = cells (apply_user defaults u) ++ U ++ [OObj top_props] ++ E
            ++ [OObj pb; OObj []; OObj [("config", VRef (13 + length U))]]
    /\ resolve w contents (VStr text) module_heap
       = ([LoggerDebug "urtest-cli launched with config" (VRef (lb + 2))],
          Ok (VRef (13 + length U), VRef lb,
              <[lb + 1 := OObj (set_prop "global" (VRef (length h1)) [])]>
                (h1 ++ [OObj [("scripts", VRef (length h1 + 1))];
                        Globs_cell (length h1 + 2) (length h1 + 3);
                        strings_cell
                          (include (scripts (apply_user defaults u)));
                        strings_cell
                          (exclude (scripts (apply_user defaults u)))]))).
Proof.
  intros Hparse Hne Hbundle Hnone.
  destruct (configure_bundle w contents text u ms Hparse Hne Hbundle)
    as (U & E & psb & Hreprs & Hsegs & Hconfigure).
  assert (truthy (default VUndef (lookup_prop "sources" psb)) = false)
    as Hfalsy.
  { pose proof (repr_members_lookup _ _ "sources" _ _ Hreprs) as Hlookup.
    unfold no_sources in Hnone.
    destruct (lookup_member "sources" ms) as [j|].
    - destruct Hlookup as (v & -> & Hv).
      change (default VUndef (Some v)) with v.
      rewrite (repr_truthy _ _ _ _ Hv). by apply negb_true_iff.
    - by rewrite Hlookup. }
  unfold bundle_tail in Hconfigure. rewrite Hfalsy in Hconfigure.
  remember (apply_user defaults u) as c eqn:Hc.
  remember (14 + length U + length E) as lb eqn:Elb.
  replace (15 + length U + length E) with (lb + 1) in Hconfigure by lia.
  remember (set_prop "sources" (VRef (lb + 1)) psb) as pb eqn:Epb.
  remember [OObj pb; OObj []; OObj [("config", VRef (13 + length U))]]
    as T eqn:ET.
  remember (cells c ++ U ++ [OObj top_props] ++ E ++ T) as h1 eqn:Eh1.
  exists U, E, psb, pb, h1, lb.
  split; [done|]. split; [done|]. split; [done|].
  split; [by rewrite Eh1, ET|].
  destruct (bundle_heap_facts c U E T)
    as (Hlen & Hcfg & H11 & H10 & H9 & H7 & H8 & Hmember & Htail).
  rewrite <- Eh1 in Hlen, Hcfg, H11, H10, H9, H7, H8, Hmember, Htail.
  rewrite <- Elb in Hlen, Htail.
  assert (h1 !! lb = Some (OObj pb)) as Hlb
    by (rewrite <- (Nat.add_0_r lb), Htail, ET; done).
  assert (h1 !! (lb + 1) = Some (OObj [])) as Hls
    by (rewrite Htail, ET; done).
  assert (lookup_prop "sources" pb = Some (VRef (lb + 1))) as Hsources
    by (by rewrite Epb, lookup_set_prop).
  pose proof (mergeSources_copy h1 (13 + length U) lb (lb + 1) 11 10 9 7 8
                top_props pb [] [("global", VRef 10)] _ _
                Hlb Hsources Hls eq_refl Hcfg eq_refl H11 eq_refl H10 H9
                H7 H8) as Hmerge.
  pose proof (fun h' => resolve_after_configure w contents (VStr text)
                          _ _ _ h' Hconfigure) as Hresolve.
  replace ((cells c ++ U ++ [OObj top_props] ++ E ++ [OObj pb; OObj []])
           ++ [OObj [("config", VRef (13 + length U))]]) with h1 in Hresolve
    by (rewrite Eh1, ET; by rewrite <- !(assoc_L (++))).
  replace (length (cells c ++ U ++ [OObj top_props] ++ E
                   ++ [OObj pb; OObj []])) with (lb + 2) in Hresolve
    by (rewrite !length_app; simpl; lia).
  exact (Hresolve _ Hmerge).
Qed.

(** The same for a bundle object whose [sources.global] holds a source
    set [B] under [scripts]: the bundle's [sources] object, among the
    cells of the bundle's members, gets the concatenation. *)
Lemma resolve_bundle_concat (w : world) (contents text : string)
    (u : UserConfig) (ms sms : list (string * json)) (B : Globs) :
  JSON_parse w contents = Some (UserConfig_json u) ->
  text <> "" ->
  JSON_parse w text = Some (JObj ms) ->
  lookup_member "sources" ms = Some (JObj sms) ->
  lookup_member "global" sms = Some (JObj [("scripts", Globs_json B)]) ->
  exists U E psb pss h1 lb ls,
    segments (14 + length U) ms psb E
    /\ lb = 14 + length U + length E
    /\ lookup_prop "sources" psb = Some (VRef (14 + length U + ls))
    /\ E !! ls = Some (OObj pss)
    /\ h1 = cells (apply_user defaults u) ++ U ++ [OObj top_props] ++ E
            ++ [OObj psb; OObj [("config", VRef (13 + length U))]]
    /\ resolve w contents (VStr text) module_heap
       = ([LoggerDebug "urtest-cli launched with config" (VRef (lb + 1))],
          Ok (VRef (13 + length U), VRef lb,
              <[14 + length U + ls
                := OObj (set_prop "global" (VRef (length h1)) pss)]>
                (h1 ++ merged_sets (length h1) B
                         (scripts (apply_user defaults u))))).
Proof.
  intros Hparse Hne Hbundle Hsms Hglobal.
  destruct (configure_bundle w contents text u ms Hparse Hne Hbundle)
    as (U & E & psb & Hreprs & Hsegs & Hconfigure).
  pose proof (repr_members_lookup _ _ "sources" _ _ Hreprs) as Hlookup.
  rewrite Hsms in Hlookup. destruct Hlookup as (v & Hv & Hrv).
  rewrite repr_from_obj in Hrv. destruct Hrv as (ls & pss & -> & Hls & Hpss).
  pose proof (repr_members_lookup _ _ "global" _ _ Hpss) as Hlookup.
  rewrite Hglobal in Hlookup. destruct Hlookup as (vg & Hvg & Hrg).
  apply repr_global in Hrg as (ga & sa & ai & ae & -> & Hga & Hsa & Hai & Hae).
  unfold bundle_tail in Hconfigure. rewrite Hv in Hconfigure.
  change (truthy (default VUndef (Some (VRef (14 + length U + ls)))))
    with true in Hconfigure. cbv iota in Hconfigure.
  remember (apply_user defaults u) as c eqn:Hc.
  remember (14 + length U + length E) as lb eqn:Elb.
  remember [OObj psb; OObj [("config", VRef (13 + length U))]] as T eqn:ET.
  remember (cells c ++ U ++ [OObj top_props] ++ E ++ T) as h1 eqn:Eh1.
  exists U, E, psb, pss, h1, lb, ls.
  split; [done|]. split; [done|]. split; [done|]. split; [done|].
  split; [by rewrite Eh1, ET|].
  destruct (bundle_heap_facts c U E T)
    as (Hlen & Hcfg & H11 & H10 & H9 & H7 & H8 & Hmember & Htail).
  rewrite <- Eh1 in Hlen, Hcfg, H11, H10, H9, H7, H8, Hmember, Htail.
  rewrite <- Elb in Hlen, Htail.
  assert (h1 !! lb = Some (OObj psb)) as Hlb
    by (rewrite <- (Nat.add_0_r lb), Htail, ET; done).
  pose proof (mergeSources_concat h1 (13 + length U) lb (14 + length U + ls)
                11 (14 + length U + ga) (14 + length U + sa)
                (14 + length U + ai) (14 + length U + ae) 10 9 7 8
                top_props psb pss [("global", VRef 10)] B (scripts c)
                Hlb Hv (Hmember _ _ Hls) Hvg (Hmember _ _ Hga)
                (Hmember _ _ Hsa) (Hmember _ _ Hai) (Hmember _ _ Hae)
                Hcfg eq_refl H11 eq_refl H10 H9 H7 H8) as Hmerge.
  pose proof (fun h' => resolve_after_configure w contents (VStr text)
                          _ _ _ h' Hconfigure) as Hresolve.
  replace ((cells c ++ U ++ [OObj top_props] ++ E ++ [OObj psb])
           ++ [OObj [("config", VRef (13 + length U))]]) with h1 in Hresolve
    by (rewrite Eh1, ET; by rewrite <- !(assoc_L (++))).
  replace (length (cells c ++ U ++ [OObj top_props] ++ E ++ [OObj psb]))
    with (lb + 1) in Hresolve
    by (rewrite !length_app; simpl; lia).
  exact (Hresolve _ Hmerge).
Qed.

(** X17: with a bundle object that has no [sources] (or a falsy one), for
    every user configuration of the interface: the bundler's global
    source set is a copy of the merged configuration's, each list once;
    the bundler's [sources] and the configuration's are two objects, and
    the source-set merge leaves the configuration as the merge of line
    118 made it. *)
Theorem bundle_without_sources (w : world) (contents text : string)
    (u : UserConfig) (ms : list (string * json)) :
  JSON_parse w contents = Some (UserConfig_json u) ->
  text <> "" ->
  JSON_parse w text = Some (JObj ms) ->
  no_sources ms = true ->
  exists events config bundlerConfig h s s',
    resolve w contents (VStr text) module_heap
      = (events, Ok (config, bundlerConfig, h))
    /\ tree_at h bundlerConfig ["sources"; "global"; "scripts"]
       = Some (Globs_json (scripts (apply_user defaults u)))
    /\ tree_of h config = Some (CliConfig_json (apply_user defaults u))
    /\ get h bundlerConfig "sources" = Ok s
    /\ get h config "sources" = Ok s'
    /\ s <> s'.
Proof.
  intros Hparse Hne Hbundle Hnone.
  destruct (resolve_bundle_copy w contents text u ms Hparse Hne Hbundle
              Hnone)
    as (U & E & psb & pb & h1 & lb & Hsegs & Elb & Epb & Eh1 & Hresolve).
  remember (apply_user defaults u) as c eqn:Hc.
  destruct (bundle_heap_facts c U E
              [OObj pb; OObj []; OObj [("config", VRef (13 + length U))]])
    as (Hlen & Hcfg & _ & _ & _ & _ & _ & _ & Htail).
  rewrite <- Eh1 in Hlen, Hcfg, Htail. rewrite <- Elb in Hlen, Htail.
  destruct (merged_bundle_reads c
              (U ++ [OObj top_props] ++ E
               ++ [OObj pb; OObj []; OObj [("config", VRef (13 + length U))]])
              [OObj [("scripts", VRef (length h1 + 1))];
               Globs_cell (length h1 + 2) (length h1 + 3);
               strings_cell (include (scripts c));
               strings_cell (exclude (scripts c))]
              h1 (13 + length U) lb (lb + 1) 2 3 pb [] (scripts c))
    as (Htree & Hconfig & Hs & Hs'); try done; try (simpl in Hlen; lia).
  { replace (13 + length U - 13) with (length U) by lia.
    by apply list_lookup_middle. }
  { by rewrite <- (Nat.add_0_r lb), Htail. }
  { by rewrite Epb, lookup_set_prop. }
  eexists _, _, _, _, (VRef (lb + 1)), (VRef 11).
  split; [exact Hresolve|]. split; [exact Htree|]. split; [exact Hconfig|].
  split; [exact Hs|]. split; [exact Hs'|].
  intros [= Heq]. lia.
Qed.

(** X18: with a bundle object whose [sources.global] holds a source set
    under [scripts], for every user configuration of the interface: the
    bundler's lists are the bundle's followed by the merged
    configuration's, none dropped, and the source-set merge leaves the
    configuration as the merge of line 118 made it. *)
Theorem bundle_sources_then_config_sources (w : world)
    (contents text : string) (u : UserConfig)
    (ms sms : list (string * json)) (B : Globs) :
  JSON_parse w contents = Some (UserConfig_json u) ->
  text <> "" ->
  JSON_parse w text = Some (JObj ms) ->
  lookup_member "sources" ms = Some (JObj sms) ->
  lookup_member "global" sms = Some (JObj [("scripts", Globs_json B)]) ->
  exists events config bundlerConfig h,
    resolve w contents (VStr text) module_heap
      = (events, Ok (config, bundlerConfig, h))
    /\ tree_at h bundlerConfig ["sources"; "global"; "scripts"]
       = Some (Globs_json
                 (concat_Globs B (scripts (apply_user defaults u))))
    /\ tree_of h config = Some (CliConfig_json (apply_user defaults u)).
Proof.
  intros Hparse Hne Hbundle Hsms Hglobal.
  destruct (resolve_bundle_concat w contents text u ms sms B Hparse Hne
              Hbundle Hsms Hglobal)
    as (U & E & psb & pss & h1 & lb & ls & Hsegs & Elb & Hv & Hls & Eh1
        & Hresolve).
  remember (apply_user defaults u) as c eqn:Hc.
  destruct (bundle_heap_facts c U E
              [OObj psb; OObj [("config", VRef (13 + length U))]])
    as (Hlen & Hcfg & _ & _ & _ & _ & _ & _ & Htail).
  rewrite <- Eh1 in Hlen, Hcfg, Htail. rewrite <- Elb in Hlen, Htail.
  assert (ls < length E) as Hls_lt by (by eapply lookup_lt_Some).
  destruct (merged_bundle_reads c
              (U ++ [OObj top_props] ++ E
               ++ [OObj psb; OObj [("config", VRef (13 + length U))]])
              (merged_sets (length h1) B (scripts c))
              h1 (13 + length U) lb (14 + length U + ls) 4 5 psb pss
              (concat_Globs B (scripts c)))
    as (Htree & Hconfig & _); try done; try (simpl in Hlen; lia).
  { replace (13 + length U - 13) with (length U) by lia.
    by apply list_lookup_middle. }
  { by rewrite <- (Nat.add_0_r lb), Htail. }
  eexists _, _, _, _.
  split; [exact Hresolve|]. split; [exact Htree | exact Hconfig].
Qed.

(** A member of the bundle object reads back from the heap after the
    source-set merge when the one cell [x] the merge overwrote is none
    of its cells. *)
Lemma member_reads_back (c : CliConfig) (U E T added h1 : heap)
    (lb x off : nat) (o : obj) (pb : list (string * value)) (key : string)
    (v : value) (e : heap) (j : json) :
  h1 = cells c ++ U ++ [OObj top_props] ++ E ++ T ->
  h1 !! lb = Some (OObj pb) -> lb <> x ->
  lookup_prop key pb = Some v ->
  repr_from (14 + length U + off) e j v ->
  depth j <= length e -> off + length e <= length E ->
  (forall l o, e !! l = Some o -> E !! (off + l) = Some o) ->
  (forall l, l < length e -> 14 + length U + off + l <> x) ->
  tree_at (<[x := o]> (h1 ++ added)) (VRef lb) [key] = Some j.
Proof.
  intros Eh1 Hlb Hne Hv Hrepr Hdepth Hlen Hcells Hfresh.
  destruct (bundle_heap_facts c U E T)
    as (Hlen1 & _ & _ & _ & _ & _ & _ & Hmember & _).
  rewrite <- Eh1 in Hlen1, Hmember.
  unfold tree_at, get_path.
  erewrite get_at
    by (rewrite list_lookup_insert_ne by done;
        apply lookup_app_l_Some; exact Hlb).
  rewrite Hv, bind_Ok. change (default VUndef (Some v)) with v.
  unfold tree_of.
  apply (snapshot_repr _ (14 + length U + off) e); [|done|].
  - intros l o' Hl.
    assert (l < length e) by (by eapply lookup_lt_Some).
    rewrite list_lookup_insert_ne by (symmetry; by apply Hfresh).
    apply lookup_app_l_Some.
    rewrite <- (assoc_L Nat.add). apply Hmember. by apply Hcells.
  - rewrite length_insert, length_app. lia.
Qed.

(** What a run with a bundle object resolves its configuration to: the
    heap is the heap [h1] before the source-set merge, the cells [added]
    by the merge, and one cell overwritten, above the copy of the
    defaults. *)
Lemma resolve_bundle_run (w : world) (contents text : string)
    (u : UserConfig) (ms : list (string * json)) :
  JSON_parse w contents = Some (UserConfig_json u) ->
  text <> "" ->
  JSON_parse w text = Some (JObj ms) ->
  expected_sources ms ->
  exists U E T added h1 lb x o pb payload,
    h1 = cells (apply_user defaults u) ++ U ++ [OObj top_props] ++ E ++ T
    /\ resolve w contents (VStr text) module_heap
       = ([LoggerDebug "urtest-cli launched with config" payload],
          Ok (VRef (13 + length U), VRef lb, <[x := o]> (h1 ++ added)))
    /\ 13 + length U < x /\ x < length h1 /\ lb <> x
    /\ h1 !! lb = Some (OObj pb)
    /\ forall key j,
         key <> "sources" -> lookup_member key ms = Some j ->
         exists v off e,
           lookup_prop key pb = Some v
           /\ repr_from (14 + length U + off) e j v
           /\ depth j <= length e /\ off + length e <= length E
           /\ (forall l o, e !! l = Some o -> E !! (off + l) = Some o)
           /\ (forall l, l < length e -> 14 + length U + off + l <> x).
Proof.
  intros Hparse Hne Hbundle [Hnone | (sms & B & Hsms & Hglobal)].
  - destruct (resolve_bundle_copy w contents text u ms Hparse Hne Hbundle
                Hnone)
      as (U & E & psb & pb & h1 & lb & Hsegs & Elb & Epb & Eh1 & Hresolve).
    destruct (bundle_heap_facts (apply_user defaults u) U E
                [OObj pb; OObj [];
                 OObj [("config", VRef (13 + length U))]])
      as (Hlen1 & _ & _ & _ & _ & _ & _ & _ & Htail).
    rewrite <- Eh1 in Hlen1, Htail. rewrite <- Elb in Hlen1, Htail.
    simpl in Hlen1.
    eexists U, E, _, _, h1, lb, (lb + 1), _, pb, _.
    split; [exact Eh1|]. split; [exact Hresolve|].
    split; [lia|]. split; [lia|]. split; [lia|].
    split; [by rewrite <- (Nat.add_0_r lb), Htail|].
    intros key j Hkey Hfind.
    destruct (segments_lookup _ _ _ _ _ _ Hsegs Hfind)
      as (v & off & e & Hv & Hrepr & Hdepth & Hlen & Hcells).
    exists v, off, e.
    split; [by rewrite Epb, lookup_set_prop_ne|].
    repeat split; try done. intros l Hl. lia.
  - destruct (resolve_bundle_concat w contents text u ms sms B Hparse Hne
                Hbundle Hsms Hglobal)
      as (U & E & psb & pss & h1 & lb & ls & Hsegs & Elb & Hsources & Hls
          & Eh1 & Hresolve).
    destruct (bundle_heap_facts (apply_user defaults u) U E
                [OObj psb; OObj [("config", VRef (13 + length U))]])
      as (Hlen1 & _ & _ & _ & _ & _ & _ & _ & Htail).
    rewrite <- Eh1 in Hlen1, Htail. rewrite <- Elb in Hlen1, Htail.
    simpl in Hlen1.
    assert (ls < length E) by (by eapply lookup_lt_Some).
    eexists U, E, _, _, h1, lb, (14 + length U + ls), _, psb, _.
    split; [exact Eh1|]. split; [exact Hresolve|].
    split; [lia|]. split; [lia|]. split; [lia|].
    split; [by rewrite <- (Nat.add_0_r lb), Htail|].
    intros key j Hkey Hfind.
    destruct (segments_lookup_apart _ _ _ _ _ _ _ _ Hsegs Hkey Hfind Hsms)
      as (v & off & e & v2 & off2 & e2
          & (Hv & Hrepr & Hdepth & Hlen & Hcells)
          & (Hv2 & Hrepr2 & Hlen2) & Hapart).
    rewrite Hsources in Hv2. injection Hv2 as <-.
    rewrite repr_from_obj in Hrepr2.
    destruct Hrepr2 as (l2 & ps2 & Heq & Hl2 & _).
    assert (ls = off2 + l2) as -> by (injection Heq; lia).
    assert (l2 < length e2) by (by eapply lookup_lt_Some).
    exists v, off, e. repeat split; try done. intros l Hl. lia.
Qed.

(** X19: what the bundle file says beside [sources] reaches the bundler
    as it is: for a bundle object whose [sources] is as the driver
    expects, every other member reads, after the source-set merge, as the
    tree the bundle text parsed to. *)
Theorem bundle_members_pass_through (w : world) (contents text : string)
    (u : UserConfig) (ms : list (string * json)) (key : string) (j : json) :
  JSON_parse w contents = Some (UserConfig_json u) ->
  text <> "" ->
  JSON_parse w text = Some (JObj ms) ->
  expected_sources ms ->
  key <> "sources" ->
  lookup_member key ms = Some j ->
  exists events config bundlerConfig h,
    resolve w contents (VStr text) module_heap
      = (events, Ok (config, bundlerConfig, h))
    /\ tree_at h bundlerConfig [key] = Some j.
Proof.
  intros Hparse Hne Hbundle Hexpected Hkey Hfind.
  destruct (resolve_bundle_run w contents text u ms Hparse Hne Hbundle
              Hexpected)
    as (U & E & T & added & h1 & lb & x & o & pb & payload & Eh1 & Hresolve
        & _ & _ & Hlbx & Hlb & Hmembers).
  destruct (Hmembers key j Hkey Hfind)
    as (v & off & e & Hv & Hrepr & Hdepth & Hlen & Hcells & Hfresh).
  eexists _, _, _, _. split; [exact Hresolve|].
  by apply (member_reads_back (apply_user defaults u) U E T added h1 lb x
              off o pb key v e j).
Qed.

(** ** A whole run with a bundle file *)

(** The configuration is still held in the cells of the defaults after
    the source-set merge of a run with a bundle object. *)
Lemma holds_config_bundle (c : CliConfig) (U E T added h1 : heap)
    (x : nat) (o : obj) :
  h1 = cells c ++ U ++ [OObj top_props] ++ E ++ T ->
  13 + length U < x ->
  holds_config (<[x := o]> (h1 ++ added)) (VRef (13 + length U)) c.
Proof.
  intros Eh1 Hx.
  destruct (bundle_heap_facts c U E T)
    as (_ & Hcfg & _ & _ & _ & _ & _ & _ & _).
  rewrite <- Eh1 in Hcfg.
  exists (13 + length U). split; [done|].
  split; [rewrite list_lookup_insert_ne by lia;
          by apply lookup_app_l_Some|].
  repeat split; rewrite list_lookup_insert_ne by lia;
    apply lookup_app_l_Some; by rewrite Eh1.
Qed.

Lemma main_bundle (w : world) (args : argv) (u : UserConfig)
    (ms : list (string * json)) :
  bundle_run w args u ms ->
  exists contents text,
    text <> ""
    /\ JSON_parse w contents = Some (UserConfig_json u)
    /\ JSON_parse w text = Some (JObj ms)
    /\ main w args
       = let r := guarded w args contents (VStr text) module_heap in
         {| trace := [ReadFile (config_opt args);
                      ReadFile (bundle_opt args)] ++ trace r;
            outcome := outcome r; final := final r |}.
Proof.
  intros (Hc & Hb & _ & contents & text & Hread & Hbread & Hne & Hparse
          & Hbundle).
  exists contents, text. split; [done|]. split; [done|]. split; [done|].
  unfold main. by rewrite Hc, Hread, Hb, Hbread.
Qed.

(** X20: a run on a configuration file of the interface and a bundle
    object: both files are read, the debug line logged, the
    collaborators constructed and [execute] called once; it resolves when
    [execute] does and exits with code 1 otherwise; either way it ends
    on the heap [execute] was called on.  In the execution configuration
    handed to [execute], every member of the bundle object other than
    [sources] reads as the bundle text gave it. *)
Theorem bundle_run_executes (w : world) (args : argv) (u : UserConfig)
    (ms : list (string * json)) (pattern : string) :
  bundle_run w args u ms ->
  getTestPattern (default VUndef (positional args !! 0)) = Ok pattern ->
  exists payload src trc ec h,
    trace (main w args)
    = [ReadFile (config_opt args);
       ReadFile (bundle_opt args);
       LoggerDebug "urtest-cli launched with config" payload;
       Construct "URScriptRunner" [src];
       Construct "TestRunner" [trc];
       Construct "TestResultWriter" [];
       Construct "TestExecutionService" [ec];
       Execute ec]
      ++ (if execute w h ec then [] else [ConsoleLogError ExecutionError])
    /\ outcome (main w args)
       = (if execute w h ec then Resolved else Exit 1)
    /\ final (main w args) = h
    /\ forall key j,
         key <> "sources" -> lookup_member key ms = Some j ->
         tree_at h ec ["bundlerConfig"; key] = Some j.
Proof.
  intros Hrun Hpattern.
  pose proof Hrun as (_ & _ & Hexpected & _).
  destruct (main_bundle w args u ms Hrun)
    as (contents & text & Hne & Hparse & Hbundle & ->).
  destruct (resolve_bundle_run w contents text u ms Hparse Hne Hbundle
              Hexpected)
    as (U & E & T & added & h1 & lb & x & o & pb & payload & Eh1 & Hresolve
        & Hx & Hxlen & Hlbx & Hlb & Hmembers).
  remember (apply_user defaults u) as c eqn:Hc.
  remember (<[x := o]> (h1 ++ added)) as H eqn:EH.
  assert (holds_config H (VRef (13 + length U)) c) as Hholds
    by (rewrite EH; by apply (holds_config_bundle c U E T)).
  pose proof (body_assembles w args contents (VStr text) module_heap H _ _ _
                c pattern Hresolve Hholds Hpattern) as Hbody.
  pose proof (follow_body_assembles w args contents (VStr text) module_heap
                H _ _ _ c pattern Hresolve Hholds Hpattern) as Hstop.
  cbv zeta in Hbody, Hstop.
  remember (length H) as n eqn:En.
  remember (H ++ assembled n c pattern (VRef lb)) as H' eqn:EH'.
  exists payload, (VRef (n + 1)), (VRef (n + 3)), (VRef (n + 10)), H'.
  assert (forall key j,
            key <> "sources" -> lookup_member key ms = Some j ->
            tree_at H' (VRef (n + 10)) ["bundlerConfig"; key] = Some j)
    as Hpass.
  { intros key j Hkey Hfind.
    destruct (Hmembers key j Hkey Hfind)
      as (v & off & e & Hv & Hrepr & Hdepth & Hlen & Hcells & Hfresh).
    pose proof (member_reads_back c U E T
                  (added ++ assembled n c pattern (VRef lb)) h1 lb x off o
                  pb key v e j Eh1 Hlb Hlbx Hv Hrepr Hdepth Hlen Hcells
                  Hfresh) as Hread.
    replace (<[x := o]> (h1 ++ added ++ assembled n c pattern (VRef lb)))
      with H' in Hread
      by (rewrite EH', EH, !insert_app_l by done; by rewrite <- (assoc_L app)).
    unfold tree_at, get_path in *.
    rewrite EH' at 1.
    rewrite (get_assembled H n c pattern (VRef lb) 10 _ "bundlerConfig" En
               eq_refl).
    rewrite bind_Ok. exact Hread. }
  unfold guarded, heap_at_stop. rewrite Hbody, Hstop. cbv zeta.
  destruct (execute w H' (VRef (n + 10))); simpl; by rewrite ?app_nil_r.
Qed.

(** ** The statements at concrete inputs *)

Lemma concat_merge_of_source_sets_witness :
  let A := {| include := ["lib/a.script"; "lib/b.script"];
              exclude := ["lib/skip.script"] |} in
  let B := {| include := ["test/c.script"]; exclude := [] |} in
  holds_Globs sample_sets (VRef 2) A /\ holds_Globs sample_sets (VRef 5) B
  /\ exists merged h0 h',
       alloc (OObj []) sample_sets = (merged, h0)
       /\ mergeWith concatArrays merged [VRef 2; VRef 5] h0 = Ok h'
       /\ holds_Globs h' merged (concat_Globs A B)
       /\ tree_of h' merged = Some (Globs_json (concat_Globs A B))
       /\ length (include (concat_Globs A B))
          = length (include A) + length (include B)
       /\ length (exclude (concat_Globs A B))
          = length (exclude A) + length (exclude B)
       /\ holds_Globs h' (VRef 2) A /\ holds_Globs h' (VRef 5) B.
Proof.
  intros A B.
  assert (holds_Globs sample_sets (VRef 2) A) as HA
    by (exists 2, 0, 1; repeat split; reflexivity).
  assert (holds_Globs sample_sets (VRef 5) B) as HB
    by (exists 5, 3, 4; repeat split; reflexivity).
  split; [exact HA|]. split; [exact HB|].
  exact (concat_merge_of_source_sets sample_sets (VRef 2) (VRef 5) A B HA HB).
Defined.

Lemma no_bundle_doubles_sources_witness :
  let w := scenario (UserConfig_json sample_user) JNull in
  JSON_parse w "cfg" = Some (UserConfig_json sample_user)
  /\ truthy VUndef = false
  /\ exists events config bundlerConfig h sources,
       resolve w "cfg" VUndef module_heap
         = (events, Ok (config, bundlerConfig, h))
       /\ get h bundlerConfig "sources" = Ok sources
       /\ get h config "sources" = Ok sources
       /\ get h defaultConfig "sources" = Ok sources
       /\ plain_object h sources
       /\ tree_at h bundlerConfig ["sources"; "global"; "scripts"]
          = Some (Globs_json
                    (concat_Globs (scripts (apply_user defaults sample_user))
                       (scripts (apply_user defaults sample_user)))).
Proof.
  intros w. split; [reflexivity|]. split; [reflexivity|].
  apply (no_bundle_doubles_sources w "cfg" VUndef sample_user); reflexivity.
Defined.

Lemma merged_configuration_witness :
  let w := scenario (UserConfig_json sample_user) JNull in
  JSON_parse w "cfg" = Some (UserConfig_json sample_user)
  /\ no_bundle_or_object w VUndef
  /\ exists config bundlerConfig h,
       configure w "cfg" VUndef module_heap = Ok (config, bundlerConfig, h)
       /\ tree_of h config
          = Some (CliConfig_json (apply_user defaults sample_user)).
Proof.
  intros w.
  assert (no_bundle_or_object w VUndef) as Hbundle by (left; reflexivity).
  split; [reflexivity|]. split; [exact Hbundle|].
  exact (merged_configuration w "cfg" VUndef sample_user eq_refl Hbundle).
Defined.

Lemma defaults_are_mutated_witness :
  let w := scenario (UserConfig_json sample_user) JNull in
  JSON_parse w "cfg" = Some (UserConfig_json sample_user)
  /\ no_bundle_or_object w VUndef
  /\ exists config bundlerConfig h,
       configure w "cfg" VUndef module_heap = Ok (config, bundlerConfig, h)
       /\ config <> defaultConfig
       /\ (forall k, get h config k = get h defaultConfig k)
       /\ tree_of module_heap defaultConfig = Some (CliConfig_json defaults)
       /\ tree_of h defaultConfig
          = Some (CliConfig_json (apply_user defaults sample_user))
       /\ (apply_user defaults sample_user <> defaults ->
           tree_of h defaultConfig <> tree_of module_heap defaultConfig).
Proof.
  intros w.
  assert (no_bundle_or_object w VUndef) as Hbundle by (left; reflexivity).
  split; [reflexivity|]. split; [exact Hbundle|].
  exact (defaults_are_mutated w "cfg" VUndef sample_user eq_refl Hbundle).
Defined.

Lemma bundler_sources_defined_witness :
  let w := scenario (JObj []) (JObj [("options", JObj [])]) in
  JSON_parse w "cfg" = Some (JObj [])
  /\ no_bundle_or_object w (VStr "bundle")
  /\ exists userConfig config bundlerConfig h sources,
       deriveBundlerConfig w "cfg" (VStr "bundle") module_heap
         = Ok (userConfig, config, bundlerConfig, h)
       /\ get h bundlerConfig "sources" = Ok sources
       /\ truthy sources = true
       /\ (truthy (VStr "bundle") = false ->
           get h config "sources" = Ok sources /\ plain_object h sources)
       /\ (forall text ms,
             VStr "bundle" = VStr text -> text <> "" ->
             JSON_parse w text = Some (JObj ms) ->
             match lookup_member "sources" ms with
             | Some j =>
                 if json_truthy j
                 then exists R, h = module_heap ++ R
                                /\ repr_from 13 R j sources
                 else empty_object h sources
             | None => empty_object h sources
             end).
Proof.
  intros w.
  assert (no_bundle_or_object w (VStr "bundle")) as Hbundle.
  { right. exists "bundle", [("options", JObj [])].
    split; [reflexivity|]. split; [discriminate | reflexivity]. }
  split; [reflexivity|]. split; [exact Hbundle|].
  exact (bundler_sources_defined w "cfg" (VStr "bundle") (JObj []) eq_refl
           Hbundle).
Defined.

(** ** The further statements at concrete inputs *)

(** A configuration file that is not JSON. *)
Lemma error_logged_iff_exit_1_witness :
  let r := main (texts "{" "" []) (only_config []) in
  within r = true
  /\ (outcome r = Exit 1 <-> existsb is_ConsoleLogError (trace r) = true)
  /\ (outcome r = Exit 1 ->
      exists events e,
        trace r = events ++ [ConsoleLogError e]
        /\ existsb is_ConsoleLogError events = false).
Proof.
  intros r. split; [reflexivity|].
  apply (error_logged_iff_exit_1 (texts "{" "" []) (only_config [])).
  reflexivity.
Defined.

Lemma config_given_no_help_witness :
  let w := texts "cfg" "" [("cfg", UserConfig_json sample_user)] in
  let r := main w (only_config []) in
  within r = true
  /\ (forall code, outcome r = Exit code -> code = 1%Z)
  /\ existsb is_ConsoleLog (trace r) = false
  /\ exists rest,
       (trace r = ReadFile (VStr "cfg.json") :: rest
        \/ trace r = ReadFile (VStr "cfg.json") :: ReadFile VUndef :: rest)
       /\ forallb (fun e => negb (is_ReadFile e) && negb (is_ConsoleLog e))
            rest = true.
Proof.
  intros w r. split; [reflexivity|].
  apply (config_given_no_help w (only_config [])); reflexivity.
Defined.

Lemma config_syntax_error_exits_1_witness :
  let r := main (texts "{" "" []) (only_config []) in
  outcome r = Exit 1
  /\ trace r = [ReadFile (VStr "cfg.json"); ConsoleLogError (SyntaxError "{")].
Proof.
  intros r.
  apply (config_syntax_error_exits_1 (texts "{" "" []) (only_config []) "{");
    [reflexivity | reflexivity | discriminate | reflexivity].
Defined.

Lemma bundle_syntax_error_exits_1_witness :
  let w := texts "cfg" "{" [("cfg", JObj [])] in
  let r := main w (config_and_bundle "bundle.json") in
  outcome r = Exit 1
  /\ trace r = [ReadFile (VStr "cfg.json"); ReadFile (VStr "bundle.json");
                ConsoleLogError (SyntaxError "{")].
Proof.
  intros w r.
  apply (bundle_syntax_error_exits_1 w (config_and_bundle "bundle.json")
           "cfg" "{" (JObj []));
    reflexivity || discriminate.
Defined.

(** A bundle file that does not exist, beside a configuration file that
    is not JSON. *)
Lemma bundle_read_error_rejects_witness :
  let r := main (texts "{" "" []) (config_and_bundle "missing.json") in
  outcome r = Rejected (ReadError (VStr "missing.json"))
  /\ trace r = [ReadFile (VStr "cfg.json"); ReadFile (VStr "missing.json")].
Proof.
  intros r.
  apply (bundle_read_error_rejects (texts "{" "" [])
           (config_and_bundle "missing.json") "{");
    reflexivity.
Defined.

Lemma empty_bundle_is_no_bundle_witness :
  let w := texts "cfg" "" [("cfg", UserConfig_json sample_user)] in
  let r := main w (config_and_bundle "bundle.json") in
  let r' := main w (only_config []) in
  outcome r = outcome r'
  /\ final r = final r'
  /\ exists rest,
       trace r' = ReadFile (VStr "cfg.json") :: rest
       /\ trace r = ReadFile (VStr "cfg.json")
                    :: ReadFile (VStr "bundle.json") :: rest.
Proof.
  intros w r r'.
  apply (empty_bundle_is_no_bundle w (config_and_bundle "bundle.json")
           "cfg");
    reflexivity.
Defined.

Lemma scalar_bundle_exits_1_witness :
  let w := texts "cfg" "null" [("cfg", JObj []); ("null", JNull)] in
  let r := main w (config_and_bundle "bundle.json") in
  outcome r = Exit 1
  /\ trace r = [ReadFile (VStr "cfg.json"); ReadFile (VStr "bundle.json");
                ConsoleLogError TypeError].
Proof.
  intros w r.
  apply (scalar_bundle_exits_1 w (config_and_bundle "bundle.json")
           "cfg" "null" (JObj []) JNull);
    reflexivity || discriminate.
Defined.

Lemma getTestPattern_extension_witness :
  extname "tests/math.test.script/" = ".script"
  /\ getTestPattern (VStr "tests/math.test.script/")
     = Ok "tests/math.test.script/*".
Proof.
  apply (getTestPattern_extension "tests/math.tes" "script" "t" 1);
    discriminate || reflexivity.
Defined.

Lemma getTestPattern_no_dot_witness :
  extname "tests/unit" = ""
  /\ getTestPattern (VStr "tests/unit") = Ok "tests/unit/**/*.test.script".
Proof.
  apply (getTestPattern_no_dot "tests/unit"); discriminate || reflexivity.
Defined.

Lemma getTestPattern_hidden_witness :
  extname "tests/.cache" = ""
  /\ getTestPattern (VStr "tests/.cache")
     = Ok "tests/.cache/**/*.test.script".
Proof.
  apply (getTestPattern_hidden "tests/" "cache" 0);
    [right; reflexivity | reflexivity].
Defined.

Lemma keyless_config_keeps_defaults_witness :
  exists config bundlerConfig h,
    configure (texts "null" "" [("null", JNull)]) "null" VUndef module_heap
      = Ok (config, bundlerConfig, h)
    /\ tree_of h config = Some (CliConfig_json defaults)
    /\ tree_of h defaultConfig = Some (CliConfig_json defaults).
Proof.
  apply (keyless_config_keeps_defaults (texts "null" "" [("null", JNull)])
           "null" VUndef JNull);
    reflexivity.
Defined.


Lemma numeric_path_exits_1_witness :
  let w := texts "cfg" "" [("cfg", UserConfig_json sample_user)] in
  let args := only_config [VNum 5] in
  outcome (main w args) = Exit 1
  /\ exists payload src trc,
       trace (main w args)
       = [ReadFile (config_opt args);
          LoggerDebug "urtest-cli launched with config" payload;
          Construct "URScriptRunner" [src];
          Construct "TestRunner" [trc];
          ConsoleLogError TypeError].
Proof.
  intros w args.
  apply (numeric_path_exits_1 w args sample_user 5);
    [| reflexivity | discriminate].
  split; [reflexivity|]. split; [reflexivity|].
  exists "cfg". split; reflexivity.
Defined.

Lemma script_runner_config_of_run_witness :
  let w := texts "cfg" "" [("cfg", UserConfig_json sample_user)] in
  let args := only_config [VStr "tests/unit"] in
  exists src,
    In (Construct "URScriptRunner" [src]) (trace (main w args))
    /\ tree_of (final (main w args)) src
       = Some (ScriptRunnerConfig_json
                 (controller (apply_user defaults sample_user))).
Proof.
  intros w args.
  apply (script_runner_config_of_run w args sample_user
           "tests/unit/**/*.test.script"); [|reflexivity|reflexivity].
  split; [reflexivity|]. split; [reflexivity|].
  exists "cfg". split; reflexivity.
Defined.

Lemma test_runner_config_of_run_witness :
  let w := texts "cfg" "" [("cfg", UserConfig_json sample_user)] in
  let args := only_config [VStr "tests/unit"] in
  let ts := testServer (apply_user defaults sample_user) in
  let r := main w args in
  exists src trc runner,
    In (Construct "URScriptRunner" [src]) (trace r)
    /\ In (Construct "TestRunner" [trc]) (trace r)
    /\ get (final r) trc "runner" = Ok (VRef runner)
    /\ final r !! runner = Some (OInst "URScriptRunner" [src])
    /\ get (final r) trc "port" = Ok (VNum (port ts))
    /\ get (final r) trc "executionTimeout"
       = Ok (VNum (defaultExecutionTimeout ts))
    /\ get (final r) trc "restartThreshold" = Ok VUndef.
Proof.
  intros w args.
  apply (test_runner_config_of_run w args sample_user
           "tests/unit/**/*.test.script"); [|reflexivity|reflexivity].
  split; [reflexivity|]. split; [reflexivity|].
  exists "cfg". split; reflexivity.
Defined.

Lemma execution_config_of_run_witness :
  let w := texts "cfg" "" [("cfg", UserConfig_json sample_user)] in
  let args := only_config [VStr "tests/unit"] in
  let c := apply_user defaults sample_user in
  let r := main w args in
  exists trc ec runner writer shared,
    In (Construct "TestRunner" [trc]) (trace r)
    /\ In (Execute ec) (trace r)
    /\ get (final r) ec "runner" = Ok (VRef runner)
    /\ final r !! runner = Some (OInst "TestRunner" [trc])
    /\ tree_at (final r) ec ["environment"]
       = Some (JObj [("server",
                      JObj [("host", JStr (server_host (testServer c)));
                            ("port", JNum (port (testServer c)))])])
    /\ tree_at (final r) ec ["test"]
       = Some (JObj [("pattern", JStr "tests/unit/**/*.test.script")])
    /\ get (final r) ec "mocks" = Ok shared
    /\ get (final r) defaultConfig "mocks" = Ok shared
    /\ tree_of (final r) shared = Some (Globs_json (mocks c))
    /\ tree_at (final r) ec ["bundlerConfig"; "options"]
       = Some (JObj [("bundleKey", JStr "test-harness");
                     ("bundleOutputFile", JStr "default");
                     ("outputDir", JStr ".urscript-test");
                     ("scriptSuffix", JStr "script");
                     ("writeToDisk", JBool true)])
    /\ get_path (final r) ec ["results"; "writer"] = Ok (VRef writer)
    /\ final r !! writer = Some (OInst "TestResultWriter" []).
Proof.
  intros w args.
  apply (execution_config_of_run w args sample_user
           "tests/unit/**/*.test.script"); [|reflexivity|reflexivity].
  split; [reflexivity|]. split; [reflexivity|].
  exists "cfg". split; reflexivity.
Defined.

Lemma bundle_without_sources_witness :
  let w := texts "cfg" "bundle"
             [("cfg", UserConfig_json sample_user);
              ("bundle", JObj [("options", JObj [])])] in
  exists events config bundlerConfig h s s',
    resolve w "cfg" (VStr "bundle") module_heap
      = (events, Ok (config, bundlerConfig, h))
    /\ tree_at h bundlerConfig ["sources"; "global"; "scripts"]
       = Some (Globs_json (scripts (apply_user defaults sample_user)))
    /\ tree_of h config
       = Some (CliConfig_json (apply_user defaults sample_user))
    /\ get h bundlerConfig "sources" = Ok s
    /\ get h config "sources" = Ok s'
    /\ s <> s'.
Proof.
  intros w.
  apply (bundle_without_sources w "cfg" "bundle" sample_user
           [("options", JObj [])]);
    reflexivity || discriminate.
Defined.

Lemma bundle_sources_then_config_sources_witness :
  let w := texts "cfg" "bundle"
             [("cfg", UserConfig_json sample_user);
              ("bundle", sample_bundle)] in
  exists events config bundlerConfig h,
    resolve w "cfg" (VStr "bundle") module_heap
      = (events, Ok (config, bundlerConfig, h))
    /\ tree_at h bundlerConfig ["sources"; "global"; "scripts"]
       = Some (Globs_json
                 {| include := ["lib/**/*.script"; "a.script"];
                    exclude := ["lib/skip.script"] |})
    /\ tree_of h config
       = Some (CliConfig_json (apply_user defaults sample_user)).
Proof.
  intros w.
  apply (bundle_sources_then_config_sources w "cfg" "bundle" sample_user
           [("sources",
             JObj [("global",
                    JObj [("scripts",
                           Globs_json {| include := ["lib/**/*.script"];
                                         exclude := ["lib/skip.script"] |})])]);
            ("options", JObj [("bundleKey", JStr "robot")])]
           [("global",
             JObj [("scripts",
                    Globs_json {| include := ["lib/**/*.script"];
                                  exclude := ["lib/skip.script"] |})])]
           {| include := ["lib/**/*.script"];
              exclude := ["lib/skip.script"] |});
    reflexivity || discriminate.
Defined.

Lemma bundle_members_pass_through_witness :
  let w := texts "cfg" "bundle"
             [("cfg", UserConfig_json sample_user);
              ("bundle", sample_bundle)] in
  exists events config bundlerConfig h,
    resolve w "cfg" (VStr "bundle") module_heap
      = (events, Ok (config, bundlerConfig, h))
    /\ tree_at h bundlerConfig ["options"]
       = Some (JObj [("bundleKey", JStr "robot")]).
Proof.
  intros w.
  apply (bundle_members_pass_through w "cfg" "bundle" sample_user
           [("sources",
             JObj [("global",
                    JObj [("scripts",
                           Globs_json {| include := ["lib/**/*.script"];
                                         exclude := ["lib/skip.script"] |})])]);
            ("options", JObj [("bundleKey", JStr "robot")])]);
    [reflexivity | discriminate | reflexivity | | discriminate | reflexivity].
  right. eexists _, _. split; reflexivity.
Defined.

Lemma bundle_run_executes_witness :
  let w := texts "cfg" "bundle"
             [("cfg", UserConfig_json sample_user);
              ("bundle", sample_bundle)] in
  let args := config_and_bundle "bundle.json" in
  exists payload src trc ec h,
    trace (main w args)
    = [ReadFile (config_opt args);
       ReadFile (bundle_opt args);
       LoggerDebug "urtest-cli launched with config" payload;
       Construct "URScriptRunner" [src];
       Construct "TestRunner" [trc];
       Construct "TestResultWriter" [];
       Construct "TestExecutionService" [ec];
       Execute ec]
      ++ (if execute w h ec then [] else [ConsoleLogError ExecutionError])
    /\ outcome (main w args)
       = (if execute w h ec then Resolved else Exit 1)
    /\ final (main w args) = h
    /\ forall key j,
         key <> "sources" ->
         lookup_member key
           [("sources",
             JObj [("global",
                    JObj [("scripts",
                           Globs_json {| include := ["lib/**/*.script"];
                                         exclude := ["lib/skip.script"] |})])]);
            ("options", JObj [("bundleKey", JStr "robot")])]
         = Some j ->
         tree_at h ec ["bundlerConfig"; key] = Some j.
Proof.
  intros w args.
  apply (bundle_run_executes w args sample_user _ "**/*.test.script");
    [|reflexivity].
  split; [reflexivity|]. split; [reflexivity|].
  split; [right; eexists _, _; split; reflexivity|].
  exists "cfg", "bundle".
  repeat split; reflexivity || discriminate.
Defined.
